(** * PR-agent: intent classification and stateless workflow continuation

    A shallow embedding of the three Lambda handlers of the repository

      - [Gateway]  GitHub-PR-Risk-Reviewer/lambda_function.py
      - [Brain]    PR-Agent-Brain-Simple/lambda_function.py
      - [Writer]   PR-Agent-GitHub-Writer/lambda_function.py

    Conventions of the embedding.

    - Text.  A Python [str] is a [list ascii], read as a sequence of code
      points below 256; the character classes ([\s], [\w], [\d],
      [str.isalnum], [str.lower]) are Python's on that range.  Glyphs
      outside the range occur only as decoration in the fixed comment
      templates of the source; there they are written as their UTF-8 bytes.
      Beyond the range Python differs in one respect that matters here:
      under [re.IGNORECASE] the letters i, s and k of a pattern are also
      matched by U+0130, U+0131, U+017F and U+212A.  A statement about the
      shape of what a pattern captures therefore carries the hypothesis
      that its text is ASCII ([is_ascii_text]).
    - Regular expressions.  Every pattern of the source is transcribed as a
      term of [re] and run by one backtracking matcher that follows the
      priorities of Python's [re] module (greedy and lazy repetition, ordered
      alternation, leftmost match).
    - Effects.  A handler is a [prog]: a tree of external calls
      ([urlopen], [invoke]) whose continuation receives either the
      reply or the exception raised by the call; [try_except] is Python's
      [try ... except Exception].  [run] plays a program against a [world]
      (the replies may depend on the calls made so far) and returns the
      result together with the trace of calls.  [print] is not modelled.
    - Events and replies are typed as the hosting services send them; a
      reply of another shape raises at the point where it is read.  The
      content of the backend's answer is not read by [call_groq_api]: it
      is passed on as it is and fails where a caller uses it as text. *)

From stdpp Require Import gmap strings.
From Stdlib Require Import String Ascii.
From Stdlib Require Import List Bool Arith ZArith NArith Lia.
Import ListNotations.

Set Implicit Arguments.

(** ** Text *)

Definition str := list ascii.

Definition py (x : string) : str := list_ascii_of_string x.
Arguments py x%_string.

Definition code (c : ascii) : N := N_of_ascii c.

Definition between (lo hi : N) (c : ascii) : bool :=
  (lo <=? code c)%N && (code c <=? hi)%N.

Definition is_char (a c : ascii) : bool := Ascii.eqb a c.

(** [str.isspace] and the class [\s]: TAB..CR, FS..US, space, NEL, NBSP. *)
Definition is_space (c : ascii) : bool :=
  between 9 13 c || between 28 32 c || (code c =? 133)%N || (code c =? 160)%N.

Definition is_digit (c : ascii) : bool := between 48 57 c.

Definition is_ascii_upper (c : ascii) : bool := between 65 90 c.
Definition is_ascii_lower (c : ascii) : bool := between 97 122 c.
Definition is_ascii_alnum (c : ascii) : bool :=
  is_digit c || is_ascii_upper c || is_ascii_lower c.

(** [str.isalnum] on one character: letters, decimal digits, and the
    superscripts, fractions and ordinal indicators of the upper half. *)
Definition is_alnum (c : ascii) : bool :=
  is_ascii_alnum c
  || (code c =? 170)%N || between 178 179 c || (code c =? 181)%N
  || between 185 186 c || between 188 190 c
  || between 192 214 c || between 216 246 c || between 248 255 c.

(** The class [\w]. *)
Definition is_word (c : ascii) : bool := is_alnum c || is_char "_" c.

Definition lower_char (c : ascii) : ascii :=
  if is_ascii_upper c || between 192 214 c || between 216 222 c
  then ascii_of_N (code c + 32) else c.

Definition lower (s : str) : str := map lower_char s.

(** [str.upper]: sharp s becomes "SS"; the capitals of micro sign and of
    y with diaeresis lie outside the range and these two are left as they
    are. *)
Definition upper_char (c : ascii) : str :=
  if is_ascii_lower c || between 224 246 c || between 248 254 c
  then [ascii_of_N (code c - 32)]
  else if (code c =? 223)%N then py "SS" else [c].

Definition upper (s : str) : str := flat_map upper_char s.

Fixpoint str_eqb (a b : str) : bool :=
  match a, b with
  | [], [] => true
  | x :: a', y :: b' => Ascii.eqb x y && str_eqb a' b'
  | _, _ => false
  end.

Fixpoint startswith (p s : str) : bool :=
  match p, s with
  | [], _ => true
  | a :: p', b :: s' => Ascii.eqb a b && startswith p' s'
  | _ :: _, [] => false
  end.

Definition endswith (p s : str) : bool := startswith (rev p) (rev s).

(** [needle in hay]. *)
Fixpoint contains (needle hay : str) : bool :=
  startswith needle hay
  || match hay with
     | [] => false
     | _ :: t => contains needle t
     end.

(** [s.replace(old, new)] for a non-empty [old]. *)
Fixpoint replace_fuel (fuel : nat) (old new s : str) : str :=
  match fuel with
  | O => s
  | S fuel' =>
      match s with
      | [] => []
      | c :: t =>
          if startswith old s
          then new ++ replace_fuel fuel' old new (skipn (length old) s)
          else c :: replace_fuel fuel' old new t
      end
  end.

Definition replace (old new s : str) : str :=
  replace_fuel (length s) old new s.

(** The part of [s] after, and before, the first occurrence of [sep];
    [s.split(sep)[1]] is [before_first sep] of [after_first sep]. *)
Fixpoint after_first (sep s : str) : option str :=
  if startswith sep s then Some (skipn (length sep) s)
  else match s with
       | [] => None
       | _ :: t => after_first sep t
       end.

Fixpoint before_first (sep s : str) : str :=
  if startswith sep s then []
  else match s with
       | [] => []
       | c :: t => c :: before_first sep t
       end.

Fixpoint lstrip (s : str) : str :=
  match s with
  | c :: t => if is_space c then lstrip t else s
  | [] => []
  end.

Definition strip (s : str) : str := rev (lstrip (rev (lstrip s))).

(** [s.split()]: maximal runs of non-whitespace. *)
Fixpoint split_ws_aux (cur : str) (s : str) : list str :=
  match s with
  | [] => match cur with [] => [] | _ => [rev cur] end
  | c :: t =>
      if is_space c
      then match cur with
           | [] => split_ws_aux [] t
           | _ => rev cur :: split_ws_aux [] t
           end
      else split_ws_aux (c :: cur) t
  end.

Definition split_ws (s : str) : list str := split_ws_aux [] s.

Fixpoint join (sep : str) (l : list str) : str :=
  match l with
  | [] => []
  | [x] => x
  | x :: t => x ++ sep ++ join sep t
  end.

(** Decimal printing, [str(n)] for an integer. *)
Definition digit_char (d : N) : ascii := ascii_of_N (48 + d).

Fixpoint dec_fuel (fuel : nat) (n : N) (acc : str) : str :=
  match fuel with
  | O => acc
  | S fuel' =>
      let acc' := digit_char (n mod 10) :: acc in
      if (n <? 10)%N then acc' else dec_fuel fuel' (n / 10) acc'
  end.

Definition str_of_N (n : N) : str := dec_fuel (S (N.to_nat (N.log2 n))) n [].

Definition str_of_Z (z : Z) : str :=
  match z with
  | Zneg p => "-"%char :: str_of_N (Npos p)
  | _ => str_of_N (Z.to_N z)
  end.

(** ** Regular expressions *)

Inductive re : Type :=
| Eps
| Chr (p : ascii -> bool)
| Seq (a b : re)
| Alt (a b : re)
| Opt (a : re)
| Rep (greedy : bool) (p : ascii -> bool) (lo : nat) (hi : option nat)
| Grp (n : nat) (a : re)
| Bol
| Eol
| Wordb.

(** A position in the subject: the text before it (nearest character
    first), the text after it, and the groups captured so far. *)
Record mstate : Type := MState {
  before : str;
  rest : str;
  caps : list (nat * str)
}.

Definition can_more (hi : option nat) : bool :=
  match hi with
  | Some O => false
  | _ => true
  end.

Fixpoint rep_greedy (p : ascii -> bool) (lo : nat) (hi : option nat)
    (bef rst : str) (cs : list (nat * str))
    (k : mstate -> option mstate) {struct rst} : option mstate :=
  let stop := if (lo =? 0)%nat then k (MState bef rst cs) else None in
  match rst with
  | c :: rst' =>
      if p c && can_more hi
      then match rep_greedy p (pred lo) (option_map pred hi) (c :: bef) rst' cs k with
           | Some r => Some r
           | None => stop
           end
      else stop
  | [] => stop
  end.

Fixpoint rep_lazy (p : ascii -> bool) (lo : nat) (hi : option nat)
    (bef rst : str) (cs : list (nat * str))
    (k : mstate -> option mstate) {struct rst} : option mstate :=
  let more :=
    match rst with
    | c :: rst' =>
        if p c && can_more hi
        then rep_lazy p (pred lo) (option_map pred hi) (c :: bef) rst' cs k
        else None
    | [] => None
    end in
  if (lo =? 0)%nat
  then match k (MState bef rst cs) with
       | Some r => Some r
       | None => more
       end
  else more.

Definition at_eol (rst : str) : bool :=
  match rst with
  | [] => true
  | [c] => is_char "010" c
  | _ => false
  end.

Definition word_at (o : option ascii) : bool :=
  match o with
  | Some c => is_word c
  | None => false
  end.

Definition at_wordb (st : mstate) : bool :=
  xorb (word_at (hd_error (before st))) (word_at (hd_error (rest st))).

(** The text consumed between two positions of the same subject. *)
Definition consumed (st st' : mstate) : str :=
  firstn (length (rest st) - length (rest st')) (rest st).

(** [m r st k]: match [r] at [st], then continue with [k]; the first
    success in Python's order of preference is returned. *)
Fixpoint m (r : re) (st : mstate) (k : mstate -> option mstate)
    {struct r} : option mstate :=
  match r with
  | Eps => k st
  | Chr p =>
      match rest st with
      | c :: rst' => if p c then k (MState (c :: before st) rst' (caps st)) else None
      | [] => None
      end
  | Seq a b => m a st (fun st' => m b st' k)
  | Alt a b =>
      match m a st k with
      | Some r' => Some r'
      | None => m b st k
      end
  | Opt a =>
      match m a st k with
      | Some r' => Some r'
      | None => k st
      end
  | Rep true p lo hi => rep_greedy p lo hi (before st) (rest st) (caps st) k
  | Rep false p lo hi => rep_lazy p lo hi (before st) (rest st) (caps st) k
  | Grp n a =>
      m a st (fun st' =>
        k (MState (before st') (rest st') ((n, consumed st st') :: caps st')))
  | Bol => match before st with [] => k st | _ => None end
  | Eol => if at_eol (rest st) then k st else None
  | Wordb => if at_wordb st then k st else None
  end.

Definition match_here (r : re) (bef rst : str) : option mstate :=
  m r (MState bef rst []) (fun st => Some st).

(** [re.search]: the leftmost position where the pattern matches. *)
Fixpoint search_from (r : re) (bef rst : str) : option mstate :=
  match match_here r bef rst with
  | Some st => Some st
  | None =>
      match rst with
      | [] => None
      | c :: rst' => search_from r (c :: bef) rst'
      end
  end.

Definition search (r : re) (s : str) : option mstate := search_from r [] s.

Definition found (o : option mstate) : bool :=
  match o with Some _ => true | None => false end.

(** [match.group(n)]. *)
Fixpoint assoc_nat (n : nat) (l : list (nat * str)) : option str :=
  match l with
  | [] => None
  | (i, v) :: t => if (i =? n)%nat then Some v else assoc_nat n t
  end.

Definition group (n : nat) (st : mstate) : option str := assoc_nat n (caps st).

(** Pattern builders. *)
Fixpoint lit (w : str) : re :=
  match w with
  | [] => Eps
  | c :: w' => Seq (Chr (is_char c)) (lit w')
  end.

(** A literal under [re.IGNORECASE]. *)
Definition is_char_ci (a c : ascii) : bool :=
  Ascii.eqb (lower_char a) (lower_char c).

Fixpoint lit_ci (w : str) : re :=
  match w with
  | [] => Eps
  | c :: w' => Seq (Chr (is_char_ci c)) (lit_ci w')
  end.

Fixpoint rseq (l : list re) : re :=
  match l with
  | [] => Eps
  | [r] => r
  | r :: t => Seq r (rseq t)
  end.

Fixpoint ralt (l : list re) : re :=
  match l with
  | [] => Chr (fun _ => false)
  | [r] => r
  | r :: t => Alt r (ralt t)
  end.

Definition plus (p : ascii -> bool) : re := Rep true p 1 None.
Definition star (p : ascii -> bool) : re := Rep true p 0 None.
Definition dot (c : ascii) : bool := negb (is_char "010" c).
Definition not_word (c : ascii) : bool := negb (is_word c).

(** [[a-zA-Z0-9\-_]] *)
Definition branch_char (c : ascii) : bool :=
  is_ascii_alnum c || is_char "-" c || is_char "_" c.

(** [re.sub(r, repl, s)] with a constant replacement: the non-overlapping
    matches, leftmost first. *)
Fixpoint sub_aux (r : re) (repl : str) (skip : nat) (bef rst : str) : str :=
  match skip with
  | S skip' =>
      match rst with
      | c :: t => sub_aux r repl skip' (c :: bef) t
      | [] => []
      end
  | O =>
      match match_here r bef rst with
      | Some st' =>
          repl ++
          match (length rst - length (rest st'))%nat, rst with
          | O, c :: t => c :: sub_aux r repl 0 (c :: bef) t
          | S n', c :: t => sub_aux r repl n' (c :: bef) t
          | _, [] => []
          end
      | None =>
          match rst with
          | c :: t => c :: sub_aux r repl 0 (c :: bef) t
          | [] => []
          end
      end
  end.

Definition sub (r : re) (repl s : str) : str := sub_aux r repl 0 [] s.

(** ** JSON values, exceptions and external calls *)

Unset Elimination Schemes.
Inductive json : Type :=
| JNull
| JBool (b : bool)
| JInt (z : Z)
| JFloat (lexeme : str)
| JStr (s : str)
| JArr (items : list json)
| JObj (fields : list (str * json)).
Set Elimination Schemes.

(** Python builds a [dict] from the pairs in order: a later binding of a
    key replaces the value of an earlier one. *)
Fixpoint jfind (key : str) (fields : list (str * json)) (found : option json)
    : option json :=
  match fields with
  | [] => found
  | (k, v) :: t => jfind key t (if str_eqb k key then Some v else found)
  end.

Inductive exn : Type :=
| HTTPError (code : Z) (reason : str)
| Exception (msg : str).

(** [str(e)] *)
Definition exn_str (e : exn) : str :=
  match e with
  | HTTPError c r => py "HTTP Error " ++ str_of_Z c ++ py ": " ++ r
  | Exception msg => msg
  end.

Inductive result (A : Type) : Type :=
| Ok (a : A)
| Err (e : exn).
Arguments Ok {A} a.
Arguments Err {A} e.

(** [urllib.request.Request]; the [Authorization] header is configuration
    and is left out. *)
Record request : Type := Request {
  url : str;
  method : str;
  accept : option str;
  data : option json
}.

Inductive call : Type :=
| urlopen (req : request)
| invoke (FunctionName InvocationType : str) (Payload : json).

Inductive reply : Type :=
| RNone
| RText (s : str)
| RJson (j : json).

(** [Now] reads the clock ([time.time()], in whole seconds); it cannot
    fail and leaves no trace. *)
Inductive prog (A : Type) : Type :=
| Ret (a : A)
| Raise (e : exn)
| Do (c : call) (k : result reply -> prog A)
| Now (k : Z -> prog A).
Arguments Ret {A} a.
Arguments Raise {A} e.
Arguments Do {A} c k.
Arguments Now {A} k.

Fixpoint bind {A B : Type} (p : prog A) (f : A -> prog B) : prog B :=
  match p with
  | Ret a => f a
  | Raise e => Raise e
  | Do c k => Do c (fun r => bind (k r) f)
  | Now k => Now (fun t => bind (k t) f)
  end.

Notation "x <- p ;; q" := (bind p (fun x => q))
  (at level 62, p at next level, right associativity).
Notation "p ;;; q" := (bind p (fun _ => q))
  (at level 62, right associativity).

(** [try: p  except Exception as e: h e] *)
Fixpoint try_except {A : Type} (p : prog A) (h : exn -> prog A) : prog A :=
  match p with
  | Ret a => Ret a
  | Raise e => h e
  | Do c k => Do c (fun r => try_except (k r) h)
  | Now k => Now (fun t => try_except (k t) h)
  end.

(** A call whose exception propagates. *)
Definition perform (c : call) : prog reply :=
  Do c (fun r => match r with Ok x => Ret x | Err e => Raise e end).

Definition read_json (r : reply) : prog json :=
  match r with
  | RJson j => Ret j
  | _ => Raise (Exception (py "Expecting value"))
  end.

Definition read_text (r : reply) : prog str :=
  match r with
  | RText s => Ret s
  | RJson (JStr s) => Ret s
  | _ => Raise (Exception (py "not a text body"))
  end.

(** [d[key]] and [d.get(key)] on a decoded JSON value. *)
Definition jindex (j : json) (key : str) : prog json :=
  match j with
  | JObj fields =>
      match jfind key fields None with
      | Some v => Ret v
      | None => Raise (Exception (py "'" ++ key ++ py "'"))
      end
  | _ => Raise (Exception (py "object is not subscriptable"))
  end.

Definition jget (j : json) (key : str) : prog (option json) :=
  match j with
  | JObj fields => Ret (jfind key fields None)
  | _ => Raise (Exception (py "object has no attribute 'get'"))
  end.

(** The services around a handler: the outcome of a call and the reading
    of the clock, both as functions of the calls made so far. *)
Record world : Type := World {
  respond : list call -> call -> result reply;
  clock : list call -> Z
}.

(** [run w p tr]: play [p] against [w], after the calls [tr]. *)
Fixpoint run {A : Type} (w : world) (p : prog A) (tr : list call)
    : result A * list call :=
  match p with
  | Ret a => (Ok a, tr)
  | Raise e => (Err e, tr)
  | Do c k => run w (k (respond w tr c)) (tr ++ [c])
  | Now k => run w (k (clock w tr)) tr
  end.

Definition outcome {A : Type} (w : world) (p : prog A) : result A :=
  fst (run w p []).

Definition trace {A : Type} (w : world) (p : prog A) : list call :=
  snd (run w p []).

(** The acknowledgement a handler returns to the event source. *)
Record Response : Type := MkResponse {
  statusCode : Z;
  body : option str
}.

Definition ack : Response := MkResponse 200 None.
Definition ack_with (b : str) : Response := MkResponse 200 (Some b).

(** [str(x)] for an optional number: [None] prints as "None". *)
Definition str_of_opt (n : option Z) : str :=
  match n with
  | Some z => str_of_Z z
  | None => py "None"
  end.

Definition code_change_keywords : list str :=
  [py "update"; py "modify"; py "change"; py "fix"; py "edit";
   py "rewrite"; py "replace"].

(** Truthiness of a sequence. *)
Definition nonempty {A : Type} (l : list A) : bool :=
  match l with [] => false | _ => true end.

Definition group_str (n : nat) (st : mstate) : str :=
  match group n st with
  | Some x => x
  | None => []
  end.

Definition jopt (o : option str) : json :=
  match o with
  | Some x => JStr x
  | None => JNull
  end.

Definition GET (u : str) : call := urlopen (Request u (py "GET") None None).

(** ** The gateway: GitHub-PR-Risk-Reviewer/lambda_function.py *)

Module Gateway.

Record PullRequest : Type := MkPullRequest {
  number : option Z;
  head_sha : option str
}.

(** The fields of the webhook body that the handler reads. *)
Record Body : Type := MkBody {
  has_repository : bool;
  repo_full_name : str;
  comment_body : str;
  comment_login : str;
  issue_number : option Z;
  pull_request : option PullRequest;
  ref : option str;
  has_after : bool;
  action : option str
}.

(** [json.loads(event.get('body', '{}'))] either fails or yields a body. *)
Inductive Event : Type :=
| Malformed
| Parsed (b : Body).

Inductive Intent : Type :=
| CodeChange
| CompoundCreateAndChange (branch : str)
| BulkDelete (keep_branches : list str)
| DeleteBranches (names : list str)
| CreateBranch (name : str)
| ListBranches
| Unclassified.

(** [(?:^|\s){keyword}(?:\s|$)] *)
Definition keyword_re (keyword : str) : re :=
  rseq [Alt Bol (Chr is_space); lit keyword; Alt (Chr is_space) Eol].

Definition has_code_change (user_text : str) : bool :=
  existsb (fun keyword => found (search (keyword_re keyword) user_text))
          code_change_keywords.

Definition has_delete (user_text : str) : bool :=
  (contains (py "delete") user_text || contains (py "remove") user_text)
  && (contains (py "branch") user_text || contains (py "branches") user_text).

Definition has_create (user_text : str) : bool :=
  contains (py "create") user_text
  && (contains (py "branch") user_text || contains (py "named") user_text).

Definition has_list (user_text : str) : bool :=
  (contains (py "list") user_text || contains (py "show") user_text)
  && contains (py "branch") user_text.

Definition is_bulk_delete (user_text : str) : bool :=
  contains (py "delete") user_text && contains (py "all") user_text
  && (contains (py "branch") user_text || contains (py "branches") user_text).

(** [create(?:\s+a)?(?:\s+branch)?(?:\s+named)?\s+([a-zA-Z0-9\-_]+)],
    [re.IGNORECASE] *)
Definition create_re : re :=
  rseq [lit_ci (py "create");
       Opt (Seq (plus is_space) (lit_ci (py "a")));
       Opt (Seq (plus is_space) (lit_ci (py "branch")));
       Opt (Seq (plus is_space) (lit_ci (py "named")));
       plus is_space;
       Grp 1 (plus branch_char)].

(** [create\s+([a-zA-Z0-9\-_]+)\s+branch], [re.IGNORECASE] *)
Definition create_suffix_re : re :=
  rseq [lit_ci (py "create"); plus is_space; Grp 1 (plus branch_char);
       plus is_space; lit_ci (py "branch")].

Definition sanitize (branch_name : str) : str :=
  filter (fun char => is_alnum char || is_char "-" char || is_char "_" char)
         branch_name.

(** Lines 168-184 and 253-273: the branch name of a create command,
    starting from the default name. *)
Definition extract_new_branch (default user_text : str) : str :=
  let branch_name :=
    match search create_re user_text with
    | Some mt =>
        let extracted := group_str 1 mt in
        if str_eqb (lower extracted) (py "branch")
        then match search create_suffix_re user_text with
             | Some suffix_match => group_str 1 suffix_match
             | None => default
             end
        else extracted
    | None => default
    end in
  sanitize branch_name.

(** Lines 216-224. *)
Definition keep_branches (user_text : str) : list str :=
  [py "main"; py "master"] ++
  (if contains (py "except") user_text
   then match after_first (py "except") user_text with
        | Some tail =>
            let except_part := before_first (py "except") tail in
            map strip
                (filter (fun b => nonempty (strip b))
                        (split_ws (replace (py ",") (py " ") except_part)))
        | None => []
        end
   else []).

(** [\b(pr-agent|delete|remove|branch|branches|the)\b], [re.IGNORECASE] *)
Definition command_words_re : re :=
  rseq [Wordb;
       Grp 1 (ralt [lit_ci (py "pr-agent"); lit_ci (py "delete");
                   lit_ci (py "remove"); lit_ci (py "branch");
                   lit_ci (py "branches"); lit_ci (py "the")]);
       Wordb].

Definition extract_branch_names (text : str) : list str :=
  let text := sub command_words_re [] text in
  let text := replace (py ",") (py " ") (replace (py "@") [] text) in
  let branches :=
    map strip
        (filter (fun b => nonempty (strip b) && (2 <? length (strip b))%nat)
                (split_ws text)) in
  match branches with
  | [] => [py "unknown-branch"]
  | _ => branches
  end.

(** The decision chain of lines 141-292, on the lowercased comment text. *)
Definition classify (user_text : str) (item_number : option Z) : Intent :=
  let is_compound_command := has_create user_text && has_code_change user_text in
  if is_compound_command
  then CompoundCreateAndChange
         (extract_new_branch (py "ai-branch-compound") user_text)
  else if has_code_change user_text then CodeChange
  else if is_bulk_delete user_text then BulkDelete (keep_branches user_text)
  else if has_delete user_text
  then DeleteBranches (extract_branch_names user_text)
  else if has_create user_text
  then CreateBranch
         (extract_new_branch (py "ai-branch-" ++ str_of_opt item_number) user_text)
  else if has_list user_text then ListBranches
  else Unclassified.

Definition writer (payload : json) : call :=
  invoke (py "PR-Agent-GitHub-Writer") (py "Event") payload.

Definition create_branch_request (repo branch : str) : call :=
  writer (JObj
    [(py "function", JStr (py "create_branch"));
     (py "repo_full_name", JStr repo);
     (py "parameters", JObj [(py "branch_name", JStr branch);
                             (py "base_branch", JStr (py "main"))])]).

Definition comment_request (repo : str) (num : option Z) (msg : str) : call :=
  writer (JObj
    [(py "function", JStr (py "post_comment"));
     (py "repo_full_name", JStr repo);
     (py "parameters", JObj [(py "pr_number", JStr (str_of_opt num));
                             (py "comment_text", JStr msg)])]).

Definition brain_request (payload : json) : call :=
  invoke (py "PR-Agent-Brain-LangGraph") (py "Event") payload.

(** Lines 299-323. *)
Definition trigger_writer_direct_branch (repo : str) (num : option Z)
    (branch : str) : prog unit :=
  perform (create_branch_request repo branch) ;;;
  perform (comment_request repo num
             (py "✅ I've created the branch `" ++ branch
              ++ py "` directly for you.")) ;;;
  Ret tt.

Definition trigger_brain (payload : json) : prog unit :=
  perform (brain_request payload) ;;; Ret tt.

Definition post_thinking_status (repo : str) (num : option Z) (msg : str)
    : prog unit :=
  perform (comment_request repo num msg) ;;; Ret tt.

Fixpoint delete_each (repo : str) (branches : list str) : prog unit :=
  match branches with
  | [] => Ret tt
  | branch :: more =>
      perform (writer (JObj
        [(py "function", JStr (py "delete_branch"));
         (py "repo_full_name", JStr repo);
         (py "parameters", JObj [(py "branch_name", JStr branch)])])) ;;;
      delete_each repo more
  end.

Definition trigger_writer_delete_branches (repo : str) (num : option Z)
    (branches : list str) : prog unit :=
  delete_each repo branches ;;;
  let branch_list :=
    join (py ", ") (map (fun b => py "`" ++ b ++ py "`") branches) in
  perform (writer (JObj
    [(py "function", JStr (py "post_comment"));
     (py "repo_full_name", JStr repo);
     (py "parameters", JObj
        [(py "pr_number", JStr (str_of_opt num));
         (py "comment_text",
          JStr (py "✅ Deleted branch(es): " ++ branch_list))])])) ;;;
  Ret tt.

(** Line 281 calls a function that the module never defines: the call
    raises [NameError]. *)
Definition trigger_writer_list_branches (repo : str) (num : option Z)
    : prog unit :=
  Raise (Exception (py "name 'trigger_writer_list_branches' is not defined")).

(** The payload of a manual mention sent to the controller. *)
Definition mention_payload (repo : str) (item_number : option Z)
    (user_text sender_name : str) : json :=
  JObj [(py "repo_full_name", JStr repo);
        (py "pr_number", JStr (str_of_opt item_number));
        (py "user_comment", JStr user_text);
        (py "sender_name", JStr sender_name);
        (py "is_pull_request", JBool true)].

(** The actions of each branch of the chain. *)
Definition execute (intent : Intent) (repo_name : str) (item_number : option Z)
    (user_text sender_name : str) : prog Response :=
  match intent with
  | CompoundCreateAndChange branch_name =>
      trigger_writer_direct_branch repo_name item_number branch_name ;;;
      post_thinking_status repo_name item_number
        (py "⏳ **Analyzing code changes with Gemini 2.0...**") ;;;
      trigger_brain (mention_payload repo_name item_number user_text sender_name) ;;;
      Ret ack
  | CodeChange =>
      post_thinking_status repo_name item_number
        (py "⏳ **Analyzing Risk with Gemini 2.0...**") ;;;
      trigger_brain (mention_payload repo_name item_number user_text sender_name) ;;;
      Ret ack
  | BulkDelete keep =>
      perform (writer (JObj
        [(py "function", JStr (py "delete_all_branches"));
         (py "repo_full_name", JStr repo_name);
         (py "parameters", JObj
            [(py "keep_branches", JArr (map JStr keep));
             (py "pr_number", JStr (str_of_opt item_number))])])) ;;;
      Ret ack
  | DeleteBranches branches_to_delete =>
      trigger_writer_delete_branches repo_name item_number branches_to_delete ;;;
      Ret ack
  | CreateBranch branch_name =>
      trigger_writer_direct_branch repo_name item_number branch_name ;;;
      Ret ack
  | ListBranches =>
      trigger_writer_list_branches repo_name item_number ;;;
      Ret ack
  | Unclassified =>
      trigger_brain (mention_payload repo_name item_number user_text sender_name) ;;;
      Ret ack
  end.

(** The second definitions of the file (lines 386-426) are the ones in
    force when the handler runs. *)
Definition check_pr_exists (repo branch : str) : prog bool :=
  try_except
    (r <- perform (GET (py "https://api.github.com/repos/" ++ repo
                        ++ py "/pulls?head=" ++ before_first (py "/") repo
                        ++ py ":" ++ branch ++ py "&state=open")) ;;
     prs <- read_json r ;;
     match prs with
     | JArr l => Ret (nonempty l)
     | JObj l => Ret (nonempty l)
     | JStr s => Ret (nonempty s)
     | _ => Raise (Exception (py "object has no len()"))
     end)
    (fun _ => Ret false).

Definition create_pull_request (repo branch : str) : prog bool :=
  try_except
    (perform (urlopen (Request
       (py "https://api.github.com/repos/" ++ repo ++ py "/pulls")
       (py "POST") None
       (Some (JObj
          [(py "title", JStr (py "Auto-PR: " ++ branch));
           (py "body", JStr (py "Triggered by push event on branch `" ++ branch
                             ++ py "`." ++ ["010"; "010"]%char
                             ++ py "@pr-agent analyze"));
           (py "head", JStr branch);
           (py "base", JStr (py "main"))])))) ;;;
     Ret true)
    (fun _ => Ret false).

Definition is_some {A : Type} (o : option A) : bool :=
  match o with Some _ => true | None => false end.

(** [a or b] on two optional numbers: [None] and [0] are falsy. *)
Definition or_num (a b : option Z) : option Z :=
  match a with
  | Some z => if (z =? 0)%Z then b else a
  | None => b
  end.

Definition handle (b : Body) : prog Response :=
  if negb (has_repository b) then Ret ack
  else
    let repo_name := repo_full_name b in
    let user_text := lower (comment_body b) in
    let sender_name := comment_login b in
    let item_number :=
      or_num (issue_number b)
             (match pull_request b with Some p => number p | None => None end) in
    match ref b, has_after b, pull_request b with
    | Some ref, true, None =>
        (if nonempty ref && startswith (py "refs/heads/") ref
            && negb (endswith (py "/main") ref)
            && negb (endswith (py "/master") ref)
         then
           let branch_name := replace (py "refs/heads/") [] ref in
           exists_ <- check_pr_exists repo_name branch_name ;;
           if negb exists_
           then create_pull_request repo_name branch_name ;;; Ret tt
           else Ret tt
         else Ret tt) ;;;
        Ret (ack_with (py "Push Processed"))
    | _, _, _ =>
        match pull_request b with
        | Some pr_data =>
            if existsb (fun a => match action b with
                                 | Some x => str_eqb x a
                                 | None => false
                                 end)
                       [py "opened"; py "synchronize"; py "reopened"]
            then
              let pr_number := number pr_data in
              post_thinking_status repo_name pr_number
                (py "⏳ **Risk Analysis: Analyzing...**") ;;;
              trigger_brain (JObj
                [(py "repo_full_name", JStr repo_name);
                 (py "pr_number", JStr (str_of_opt pr_number));
                 (py "user_message",
                  JStr (py "Context: Automatic Risk Analysis Trigger (Strict Analysis)"));
                 (py "sender_name", JStr sender_name);
                 (py "is_pull_request", JBool true);
                 (py "is_automatic_trigger", JBool true);
                 (py "commit_sha", jopt (head_sha pr_data))]) ;;;
              Ret (ack_with (py "Auto-Analysis Triggered"))
            else
              if contains (py "@pr-agent") user_text
              then execute (classify user_text item_number)
                           repo_name item_number user_text sender_name
              else Ret ack
        | None =>
            if contains (py "@pr-agent") user_text
            then execute (classify user_text item_number)
                         repo_name item_number user_text sender_name
            else Ret ack
        end
    end.

Definition lambda_handler (event : Event) : prog Response :=
  try_except
    (match event with
     | Malformed => Raise (Exception (py "Expecting value"))
     | Parsed b => handle b
     end)
    (fun _ => Ret ack).

End Gateway.

(** ** Codecs of the Python library: UTF-8, base64, JSON *)

Definition bytes := list ascii.

(** The double quote. *)
Definition dq : ascii := "034"%char.

(** [str.encode()] and [bytes.decode('utf-8')] on the range of the model:
    a code point from 128 on takes two bytes; a byte sequence that is not
    UTF-8, or that encodes a code point from 256 on, does not decode. *)
Definition utf8_encode (s : str) : bytes :=
  flat_map (fun c =>
    if (code c <? 128)%N then [c]
    else [ascii_of_N (192 + code c / 64); ascii_of_N (128 + code c mod 64)]) s.

Fixpoint utf8_decode (bs : bytes) : option str :=
  match bs with
  | [] => Some []
  | b :: t =>
      if (code b <? 128)%N then option_map (cons b) (utf8_decode t)
      else if between 194 195 b
      then match t with
           | c :: t' =>
               if between 128 191 c
               then option_map
                      (cons (ascii_of_N ((code b - 192) * 64 + (code c - 128))))
                      (utf8_decode t')
               else None
           | [] => None
           end
      else None
  end.

Definition b64_alphabet : str :=
  py "ABCDEFGHIJKLMNOPQRSTUVWXYZabcdefghijklmnopqrstuvwxyz0123456789+/".

Definition b64_char (v : N) : ascii := nth (N.to_nat v) b64_alphabet "="%char.

Definition b64_value (c : ascii) : option N :=
  if is_ascii_upper c then Some (code c - 65)%N
  else if is_ascii_lower c then Some (code c - 71)%N
  else if is_digit c then Some (code c + 4)%N
  else if is_char "+" c then Some 62%N
  else if is_char "/" c then Some 63%N
  else None.

(** [base64.b64encode] *)
Fixpoint b64encode (bs : bytes) : str :=
  match bs with
  | b1 :: b2 :: b3 :: more =>
      b64_char (code b1 / 4)
      :: b64_char (code b1 mod 4 * 16 + code b2 / 16)
      :: b64_char (code b2 mod 16 * 4 + code b3 / 64)
      :: b64_char (code b3 mod 64)
      :: b64encode more
  | [b1; b2] =>
      [b64_char (code b1 / 4);
       b64_char (code b1 mod 4 * 16 + code b2 / 16);
       b64_char (code b2 mod 16 * 4);
       "="%char]
  | [b1] =>
      [b64_char (code b1 / 4); b64_char (code b1 mod 4 * 16);
       "="%char; "="%char]
  | [] => []
  end.

(** [binascii.a2b_base64] as [base64.b64decode] calls it: characters
    outside the alphabet are skipped, a completed pad sequence ends the
    input, an incomplete last quad is an error. *)
Fixpoint a2b_base64 (s : str) (quad_pos : nat) (leftchar : N) (pads : nat)
    (out : bytes) : option bytes :=
  match s with
  | [] => if (quad_pos =? 0)%nat then Some (rev out) else None
  | c :: t =>
      if is_char "=" c
      then if (2 <=? quad_pos)%nat
           then if (4 <=? quad_pos + S pads)%nat
                then Some (rev out)
                else a2b_base64 t quad_pos leftchar (S pads) out
           else a2b_base64 t quad_pos leftchar pads out
      else match b64_value c with
           | None => a2b_base64 t quad_pos leftchar pads out
           | Some v =>
               match quad_pos with
               | 0%nat => a2b_base64 t 1 v 0 out
               | 1%nat =>
                   a2b_base64 t 2 (v mod 16) 0
                              (ascii_of_N (leftchar * 4 + v / 16) :: out)
               | 2%nat =>
                   a2b_base64 t 3 (v mod 4) 0
                              (ascii_of_N (leftchar * 16 + v / 4) :: out)
               | _ =>
                   a2b_base64 t 0 0 0 (ascii_of_N (leftchar * 64 + v) :: out)
               end
           end
  end.

Definition is_ascii_text (s : str) : bool :=
  forallb (fun c => (code c <? 128)%N) s.

(** [base64.b64decode(s)] for a [str] argument. *)
Definition b64decode (s : str) : option bytes :=
  if is_ascii_text s then a2b_base64 s 0 0 0 [] else None.

Definition urlsafe_b64encode (bs : bytes) : str :=
  map (fun c => if is_char "+" c then "-"%char
                else if is_char "/" c then "_"%char else c)
      (b64encode bs).

Definition urlsafe_b64decode (s : str) : option bytes :=
  if is_ascii_text s
  then a2b_base64
         (map (fun c => if is_char "-" c then "+"%char
                        else if is_char "_" c then "/"%char else c) s)
         0 0 0 []
  else None.

(** [json.dumps] with its defaults: [ensure_ascii] escapes, separators
    [", "] and [": "]. *)
Definition hex_digit (d : N) : ascii :=
  nth (N.to_nat d) (py "0123456789abcdef") "0"%char.

Definition json_escape_char (c : ascii) : str :=
  if is_char dq c then ["\"%char; dq]
  else if is_char "\" c then ["\"%char; "\"%char]
  else if is_char "010" c then py "\n"
  else if is_char "013" c then py "\r"
  else if is_char "009" c then py "\t"
  else if is_char "008" c then py "\b"
  else if is_char "012" c then py "\f"
  else if between 32 126 c then [c]
  else py "\u00" ++ [hex_digit (code c / 16); hex_digit (code c mod 16)].

Definition json_dumps_str (s : str) : str :=
  dq :: flat_map json_escape_char s ++ [dq].

Fixpoint json_dumps (j : json) : str :=
  match j with
  | JNull => py "null"
  | JBool true => py "true"
  | JBool false => py "false"
  | JInt z => str_of_Z z
  | JFloat lexeme => lexeme
  | JStr s => json_dumps_str s
  | JArr items => py "[" ++ join (py ", ") (map json_dumps items) ++ py "]"
  | JObj fields =>
      py "{"
      ++ join (py ", ")
           (map (fun kv => json_dumps_str (fst kv) ++ py ": "
                           ++ json_dumps (snd kv)) fields)
      ++ py "}"
  end.

(** [json.loads]. *)
Definition json_ws (c : ascii) : bool :=
  is_char " " c || is_char "009" c || is_char "010" c || is_char "013" c.

Fixpoint skip_ws (s : str) : str :=
  match s with
  | c :: t => if json_ws c then skip_ws t else s
  | [] => []
  end.

Definition hex_value (c : ascii) : option N :=
  if is_digit c then Some (code c - 48)%N
  else if between 97 102 c then Some (code c - 87)%N
  else if between 65 70 c then Some (code c - 55)%N
  else None.

Definition hex4 (h1 h2 h3 h4 : ascii) : option N :=
  match hex_value h1, hex_value h2, hex_value h3, hex_value h4 with
  | Some a, Some b, Some c, Some d => Some (((a * 16 + b) * 16 + c) * 16 + d)%N
  | _, _, _, _ => None
  end.

Definition unescape (e : ascii) : option ascii :=
  if is_char dq e then Some dq
  else if is_char "\" e then Some "\"%char
  else if is_char "/" e then Some "/"%char
  else if is_char "b" e then Some "008"%char
  else if is_char "f" e then Some "012"%char
  else if is_char "n" e then Some "010"%char
  else if is_char "r" e then Some "013"%char
  else if is_char "t" e then Some "009"%char
  else None.

(** The body of a string, after its opening quote; a [\uXXXX] escape of a
    code point from 256 on is outside the range of the model and does not
    parse. *)
Fixpoint scanstring (s : str) (acc : str) : option (str * str) :=
  match s with
  | [] => None
  | c :: t =>
      if is_char dq c then Some (rev acc, t)
      else if is_char "\" c
      then match t with
           | e :: t' =>
               if is_char "u" e
               then match t' with
                    | h1 :: h2 :: h3 :: h4 :: t'' =>
                        match hex4 h1 h2 h3 h4 with
                        | Some n =>
                            if (n <? 256)%N
                            then scanstring t'' (ascii_of_N n :: acc)
                            else None
                        | None => None
                        end
                    | _ => None
                    end
               else match unescape e with
                    | Some x => scanstring t' (x :: acc)
                    | None => None
                    end
           | [] => None
           end
      else if (code c <? 32)%N then None
      else scanstring t (c :: acc)
  end.

(** [NUMBER_RE] of [json.scanner]: an integer part, an optional fraction
    and an optional exponent, in groups 1, 2 and 3. *)
Definition number_re : re :=
  rseq [Grp 1 (Seq (Opt (Chr (is_char "-")))
                   (Alt (Chr (is_char "0"))
                        (Seq (Chr (between 49 57)) (star is_digit))));
        Opt (Grp 2 (Seq (Chr (is_char ".")) (plus is_digit)));
        Opt (Grp 3 (rseq [Chr (fun c => is_char "e" c || is_char "E" c);
                          Opt (Chr (fun c => is_char "-" c || is_char "+" c));
                          plus is_digit]))].

Definition int_of_digits (s : str) : Z :=
  fold_left (fun acc c => (acc * 10 + Z.of_N (code c - 48))%Z) s 0%Z.

Definition int_of_lexeme (s : str) : Z :=
  match s with
  | c :: t => if is_char "-" c then (- int_of_digits t)%Z else int_of_digits s
  | [] => 0%Z
  end.

Definition scan_number (s : str) : option (json * str) :=
  match match_here number_re [] s with
  | Some st =>
      let lexeme := firstn (length s - length (rest st)) s in
      match group 2 st, group 3 st with
      | None, None => Some (JInt (int_of_lexeme lexeme), rest st)
      | _, _ => Some (JFloat lexeme, rest st)
      end
  | None => None
  end.

Definition scan_constant (s : str) : option (json * str) :=
  if startswith (py "null") s then Some (JNull, skipn 4 s)
  else if startswith (py "true") s then Some (JBool true, skipn 4 s)
  else if startswith (py "false") s then Some (JBool false, skipn 5 s)
  else match scan_number s with
       | Some r => Some r
       | None =>
           if startswith (py "NaN") s then Some (JFloat (py "NaN"), skipn 3 s)
           else if startswith (py "Infinity") s
           then Some (JFloat (py "Infinity"), skipn 8 s)
           else if startswith (py "-Infinity") s
           then Some (JFloat (py "-Infinity"), skipn 9 s)
           else None
       end.

Fixpoint scan_value (fuel : nat) (s : str) : option (json * str) :=
  match fuel with
  | O => None
  | S fuel' =>
      match s with
      | [] => None
      | c :: t =>
          if is_char dq c
          then match scanstring t [] with
               | Some (x, r) => Some (JStr x, r)
               | None => None
               end
          else if is_char "{" c
          then match skip_ws t with
               | d :: r =>
                   if is_char "}" d then Some (JObj [], r)
                   else scan_members fuel' (d :: r) []
               | [] => None
               end
          else if is_char "[" c
          then match skip_ws t with
               | d :: r =>
                   if is_char "]" d then Some (JArr [], r)
                   else scan_items fuel' (d :: r) []
               | [] => None
               end
          else scan_constant s
      end
  end
with scan_items (fuel : nat) (s : str) (acc : list json)
    : option (json * str) :=
  match fuel with
  | O => None
  | S fuel' =>
      match scan_value fuel' s with
      | Some (v, r) =>
          match skip_ws r with
          | d :: r' =>
              if is_char "," d then scan_items fuel' (skip_ws r') (acc ++ [v])
              else if is_char "]" d then Some (JArr (acc ++ [v]), r')
              else None
          | [] => None
          end
      | None => None
      end
  end
with scan_members (fuel : nat) (s : str) (acc : list (str * json))
    : option (json * str) :=
  match fuel with
  | O => None
  | S fuel' =>
      match s with
      | c :: t =>
          if is_char dq c
          then match scanstring t [] with
               | Some (key, r) =>
                   match skip_ws r with
                   | d :: r' =>
                       if is_char ":" d
                       then match scan_value fuel' (skip_ws r') with
                            | Some (v, r'') =>
                                match skip_ws r'' with
                                | e :: r3 =>
                                    if is_char "," e
                                    then scan_members fuel' (skip_ws r3)
                                                      (acc ++ [(key, v)])
                                    else if is_char "}" e
                                    then Some (JObj (acc ++ [(key, v)]), r3)
                                    else None
                                | [] => None
                                end
                            | None => None
                            end
                       else None
                   | [] => None
                   end
               | None => None
               end
          else None
      | [] => None
      end
  end.

Definition json_loads (s : str) : option json :=
  match scan_value (2 * length s + 2) (skip_ws s) with
  | Some (v, r) =>
      match skip_ws r with
      | [] => Some v
      | _ => None
      end
  | None => None
  end.

(** A reply read as text, [None] or a list, as the handlers use it. *)
Definition as_str (j : json) : prog str :=
  match j with
  | JStr s => Ret s
  | _ => Raise (Exception (py "expected str"))
  end.

Definition as_list (j : json) : prog (list json) :=
  match j with
  | JArr l => Ret l
  | _ => Raise (Exception (py "expected list"))
  end.

(** [type(x).__name__] of a decoded JSON value. *)
Definition type_name (j : json) : str :=
  match j with
  | JNull => py "NoneType"
  | JBool _ => py "bool"
  | JInt _ => py "int"
  | JFloat _ => py "float"
  | JStr _ => py "str"
  | JArr _ => py "list"
  | JObj _ => py "dict"
  end.

(** [re.search(pattern, x)]: a value that is not text raises [TypeError]. *)
Definition searched_text (j : json) : prog str :=
  match j with
  | JStr s => Ret s
  | _ => Raise (Exception (py "expected string or bytes-like object, got '"
                           ++ type_name j ++ py "'"))
  end.

(** [x.strip()]: a value that is not text has no such method
    ([AttributeError]). *)
Definition strip_of (j : json) : prog str :=
  match j with
  | JStr s => Ret (strip s)
  | _ => Raise (Exception (py "'" ++ type_name j
                           ++ py "' object has no attribute 'strip'"))
  end.

(** [try: p  except: pass], for a call whose failure is tolerated. *)
Definition attempt (p : prog unit) : prog unit :=
  try_except p (fun _ => Ret tt).

Definition github (path : str) : str := py "https://api.github.com/repos/" ++ path.

(** ** The executor: PR-Agent-GitHub-Writer/lambda_function.py *)

Module Writer.

(** [repo.strip().strip('/')] *)
Fixpoint lstrip_char (ch : ascii) (s : str) : str :=
  match s with
  | c :: t => if is_char ch c then lstrip_char ch t else s
  | [] => []
  end.

Definition strip_char (ch : ascii) (s : str) : str :=
  rev (lstrip_char ch (rev (lstrip_char ch s))).

Definition clean_repo (repo : str) : str := strip_char "/" (strip repo).

(** [clean_num] on the text of a number as the callers send it: decimal
    digits, or the text "None" of a missing number. *)
Definition clean_num (n : option str) : str :=
  match n with
  | Some s => s
  | None => py "None"
  end.

Definition accept_json : option str :=
  Some (py "application/vnd.github.v3+json").

(** Lines 101-105. *)
Definition keep_set (keep : list str) : gset str :=
  list_to_set (map lower keep) ∪ {[ py "main" ]} ∪ {[ py "master" ]}.

Definition delete_ref (repo branch_name : str) : call :=
  urlopen (Request (github (repo ++ py "/git/refs/heads/" ++ branch_name))
                   (py "DELETE") accept_json None).

(** Lines 116-128: the names deleted so far are threaded through. *)
Fixpoint delete_loop (repo : str) (keep : gset str) (all_refs : list json)
    (deleted_names : list str) : prog (list str) :=
  match all_refs with
  | [] => Ret deleted_names
  | ref :: more =>
      r <- jindex ref (py "ref") ;;
      name <- as_str r ;;
      let branch_name := replace (py "refs/heads/") [] name in
      if bool_decide (lower branch_name ∈ keep)
      then delete_loop repo keep more deleted_names
      else
        Do (delete_ref repo branch_name) (fun res =>
          match res with
          | Ok _ => delete_loop repo keep more (deleted_names ++ [branch_name])
          | Err _ => delete_loop repo keep more deleted_names
          end)
  end.

(** The branch [func_name == 'delete_all_branches'] of [lambda_handler]
    (lines 100-144); the result is [response_text]. *)
Definition delete_all_branches (repo : str) (keep : list str)
    (pr_number : option str) : prog str :=
  let keep_set := keep_set keep in
  try_except
    (res <- perform (urlopen (Request (github (repo ++ py "/git/refs/heads"))
                                      (py "GET") accept_json None)) ;;
     j <- read_json res ;;
     all_refs <- as_list j ;;
     deleted_names <- delete_loop repo keep_set all_refs [] ;;
     let deleted_count := length deleted_names in
     let response_text :=
       if (0 <? deleted_count)%nat
       then
         let names_str :=
           join (py ", ") (firstn 5 deleted_names)
           ++ (if (5 <? length deleted_names)%nat then py "..." else []) in
         py "✅ Bulk Cleanup: Deleted " ++ str_of_N (N.of_nat deleted_count)
         ++ py " branches (" ++ names_str ++ py "). Kept: "
         ++ join (py ", ") keep
       else py "✅ Bulk Cleanup: No branches needed deletion." in
     let pr_num := clean_num pr_number in
     (if nonempty pr_num && negb (str_eqb pr_num (py "None"))
      then perform (urlopen (Request
             (github (repo ++ py "/issues/" ++ pr_num ++ py "/comments"))
             (py "POST") accept_json
             (Some (JObj [(py "body", JStr response_text)])))) ;;; Ret tt
      else Ret tt) ;;;
     Ret response_text)
    (fun e => Ret (py "ERROR: Failed to list/delete branches: " ++ exn_str e)).

(** Lines 30-35: the parameters arrive as a dict or as a list of
    name/value pairs; a pair without name or value raises, before the
    [try] of the handler. *)
Fixpoint params_of_list (raw_params : list json) : prog (list (str * json)) :=
  match raw_params with
  | [] => Ret []
  | p :: more =>
      name <- jindex p (py "name") ;;
      name <- as_str name ;;
      value <- jindex p (py "value") ;;
      params <- params_of_list more ;;
      Ret ((name, value) :: params)
  end.

Definition parse_params (raw_params : option json)
    : prog (list (str * json)) :=
  match raw_params with
  | None => Ret []
  | Some (JArr l) => params_of_list l
  | Some (JObj fields) => Ret fields
  | Some _ => Raise (Exception (py "object has no attribute 'get'"))
  end.

(** The handler of lines 318-320 around a tool: an exception becomes the
    response text. *)
Definition guarded (tool : prog str) : prog str :=
  try_except tool (fun e => Ret (py "ERROR: " ++ exn_str e)).

Definition api (path meth : str) (d : option json) : call :=
  urlopen (Request (github path) meth accept_json d).

(** Lines 58-79. *)
Definition create_branch (repo : str) (branch_name base_branch : option str)
    : prog str :=
  guarded
    (let base := match base_branch with Some b => b | None => py "main" end in
     match branch_name with
     | Some (c :: t) =>
         let new_branch := c :: t in
         res <- perform (api (repo ++ py "/git/refs/heads/" ++ base)
                             (py "GET") None) ;;
         j <- read_json res ;;
         object <- jindex j (py "object") ;;
         sha <- jindex object (py "sha") ;;
         perform (api (repo ++ py "/git/refs") (py "POST")
                      (Some (JObj [(py "ref", JStr (py "refs/heads/" ++ new_branch));
                                   (py "sha", sha)]))) ;;;
         Ret (py "SUCCESS: Branch '" ++ new_branch ++ py "' created.")
     | _ => Raise (Exception (py "Missing 'branch_name' parameter."))
     end).

(** Lines 82-97: only an HTTP error of the request is handled here. *)
Definition delete_branch (repo : str) (branch_name : option str) : prog str :=
  guarded
    (match branch_name with
     | Some (c :: t) =>
         let branch_to_del := c :: t in
         Do (delete_ref repo branch_to_del) (fun res =>
           match res with
           | Ok _ =>
               Ret (py "SUCCESS: Branch '" ++ branch_to_del ++ py "' deleted.")
           | Err (HTTPError code _) =>
               if (code =? 404)%Z
               then Ret (py "SUCCESS: Branch '" ++ branch_to_del
                         ++ py "' already deleted.")
               else Ret (py "ERROR: Delete failed with code " ++ str_of_Z code)
           | Err e => Raise e
           end)
     | _ => Ret (py "ERROR: No branch name provided for deletion.")
     end).

(** Lines 147-152. *)
Definition post_comment (repo : str) (pr_number comment_text : option str)
    : prog str :=
  guarded
    (perform (api (repo ++ py "/issues/" ++ clean_num pr_number ++ py "/comments")
                  (py "POST") (Some (JObj [(py "body", jopt comment_text)]))) ;;;
     Ret (py "SUCCESS: Comment posted.")).

(** [str(x)] for an optional text. *)
Definition str_of_text (x : option str) : str :=
  match x with
  | Some s => s
  | None => py "None"
  end.

(** A sha as the host sends it: text, or [null]. *)
Definition sha_of (j : json) : prog (option str) :=
  match j with
  | JStr s => Ret (Some s)
  | JNull => Ret None
  | _ => Raise (Exception (py "expected str"))
  end.

(** The payload of lines 167-172. *)
Definition update_payload (path content : str) (branch sha : option str)
    : json :=
  JObj ([(py "message", JStr (py "AI Update: " ++ path));
         (py "content", JStr (b64encode (utf8_encode content)));
         (py "branch", jopt branch)]
        ++ match sha with
           | Some (c :: t) => [(py "sha", JStr (c :: t))]
           | _ => []
           end).

(** Lines 155-176: the sha of the file is looked up first and any failure
    of the lookup is passed over. *)
Definition update_file (repo : str) (file_path new_content content branch
    : option str) : prog str :=
  guarded
    (let path := strip_char "/" (match file_path with Some p => p | None => [] end) in
     let content :=
       match new_content with
       | Some (c :: t) => c :: t
       | _ => match content with Some x => x | None => [] end
       end in
     sha <- try_except
              (res <- perform (api (repo ++ py "/contents/" ++ path ++ py "?ref="
                                    ++ str_of_text branch) (py "GET") None) ;;
               j <- read_json res ;;
               sha <- jindex j (py "sha") ;;
               sha_of sha)
              (fun _ => Ret None) ;;
     perform (api (repo ++ py "/contents/" ++ path) (py "PUT")
                  (Some (update_payload path content branch sha))) ;;;
     Ret (py "SUCCESS: " ++ path ++ py " updated on " ++ str_of_text branch
          ++ py ".")).

(** Lines 179-184. *)
Definition merge_pull_request (repo : str) (pr_number : option str) : prog str :=
  guarded
    (let pr_num := clean_num pr_number in
     perform (api (repo ++ py "/pulls/" ++ pr_num ++ py "/merge") (py "PUT")
                  (Some (JObj [(py "merge_method", JStr (py "squash"))]))) ;;;
     Ret (py "SUCCESS: PR #" ++ pr_num ++ py " merged.")).

(** Lines 323-336: the reply of the handler. *)
Definition envelope (action_group func_name : option str) (response_text : str)
    : json :=
  JObj [(py "messageVersion", JStr (py "1.0"));
        (py "response", JObj
           [(py "actionGroup", jopt action_group);
            (py "function", jopt func_name);
            (py "functionResponse", JObj
               [(py "responseBody", JObj
                  [(py "TEXT", JObj [(py "body", JStr response_text)])])])])].

End Writer.

Definition nl : str := ["010"%char].

(** [d.get(key, default)] *)
Definition jget_default (j : json) (key : str) (default : json) : prog json :=
  o <- jget j key ;;
  match o with
  | Some v => Ret v
  | None => Ret default
  end.

(** Truthiness of an optional text: [None] and [''] are falsy. *)
Definition truthy (o : option str) : bool :=
  match o with
  | Some s => nonempty s
  | None => false
  end.

(** ** The controller: PR-Agent-Brain-Simple/lambda_function.py *)

Module Brain.

(** The invocation payload; [pr_number] is the number as text, as the
    gateway sends it. *)
Record Event : Type := MkEvent {
  repo_full_name : str;
  pr_number : str;
  is_pull_request : bool;
  user_message : option str;
  user_comment : option str;
  sender_name : option str;
  is_automatic_trigger : bool;
  commit_sha : option str
}.

(** The files read by [load_knowledge_base] when the module is loaded. *)
Record KnowledgeBase : Type := MkKnowledgeBase {
  incident_history : str;
  architecture_map : str;
  deployment_policies : str
}.

Definition writer (InvocationType : str) (payload : json) : call :=
  invoke (py "PR-Agent-GitHub-Writer") InvocationType payload.

Definition comment_request (repo pr_num text : str) : call :=
  writer (py "Event") (JObj
    [(py "actionGroup", JStr (py "ManualReply"));
     (py "function", JStr (py "post_comment"));
     (py "repo_full_name", JStr repo);
     (py "parameters", JObj [(py "repo_full_name", JStr repo);
                             (py "pr_number", JStr pr_num);
                             (py "comment_text", JStr text)])]).

(** Lines 876-892. *)
Definition post_github_comment (repo pr_num text : str) : prog unit :=
  perform (comment_request repo pr_num text) ;;; Ret tt.

Definition pr_state_request (repo_full_name pr_number state : str) : call :=
  urlopen (Request (github (repo_full_name ++ py "/pulls/" ++ pr_number))
                   (py "PATCH") None (Some (JObj [(py "state", JStr state)]))).

(** Lines 204-222. *)
Definition update_pr_state (repo_full_name pr_number state : str) : prog unit :=
  attempt (perform (pr_state_request repo_full_name pr_number state) ;;; Ret tt).

Definition status_request (repo_full_name sha state description : str) : call :=
  urlopen (Request (github (repo_full_name ++ py "/statuses/" ++ sha))
                   (py "POST") None
                   (Some (JObj [(py "state", JStr state);
                                (py "description", JStr description);
                                (py "context", JStr (py "PR-Agent-Risk-Check"))]))).

(** Lines 224-249. *)
Definition set_commit_status (repo_full_name : str) (sha : option str)
    (state description : str) : prog unit :=
  match sha with
  | Some (c :: sha') =>
      attempt (perform (status_request repo_full_name (c :: sha') state
                                       description) ;;; Ret tt)
  | _ => Ret tt
  end.

Definition merge_request (repo_full_name pr_number : str) : call :=
  urlopen (Request
    (github (repo_full_name ++ py "/pulls/" ++ pr_number ++ py "/merge"))
    (py "PUT") None (Some (JObj [(py "merge_method", JStr (py "merge"))]))).

(** Lines 352-372. *)
Definition merge_pull_request (repo_full_name pr_number : str) : prog bool :=
  try_except
    (perform (merge_request repo_full_name pr_number) ;;; Ret true)
    (fun _ => Ret false).

Definition groq_request (prompt : str) : call :=
  urlopen (Request (py "https://api.groq.com/openai/v1/chat/completions")
    (py "POST") None
    (Some (JObj
      [(py "model", JStr (py "llama-3.3-70b-versatile"));
       (py "messages", JArr
          [JObj [(py "role", JStr (py "system"));
                 (py "content",
                  JStr (py "You are a helpful AI assistant for Code Reviews."))];
           JObj [(py "role", JStr (py "user"));
                 (py "content", JStr prompt)]]);
       (py "temperature", JFloat (py "0.1"));
       (py "max_tokens", JInt 2048)]))).

(** Lines 127-159: the content of the first choice is returned as it
    is, whatever its type; a failure comes back as a text. *)
Definition call_groq_api (prompt : str) : prog json :=
  try_except
    (res <- perform (groq_request prompt) ;;
     result <- read_json res ;;
     choices <- jindex result (py "choices") ;;
     l <- as_list choices ;;
     match l with
     | first :: _ =>
         message <- jindex first (py "message") ;;
         jindex message (py "content")
     | [] => Raise (Exception (py "list index out of range"))
     end)
    (fun e => Ret (JStr (py "Error calling AI Model: " ++ exn_str e))).

(** [RISK LEVEL\W+(HIGH|MEDIUM|LOW)], [re.IGNORECASE] *)
Definition risk_level_re : re :=
  rseq [lit_ci (py "RISK LEVEL"); plus not_word;
        Grp 1 (ralt [lit_ci (py "HIGH"); lit_ci (py "MEDIUM"); lit_ci (py "LOW")])].

Definition extract_risk_level (analysis : str) : str :=
  match search risk_level_re analysis with
  | Some mt => upper (group_str 1 mt)
  | None =>
      if contains (py "RISK LEVEL: HIGH") (upper analysis) then py "HIGH"
      else if contains (py "RISK LEVEL: MEDIUM") (upper analysis) then py "MEDIUM"
      else py "LOW"
  end.

(** The continuation token of lines 312-318. *)
Definition token (user_msg ticket_id repo pr_num : str)
    (commit_sha : option str) : json :=
  JObj [(py "request", JStr user_msg);
        (py "jira_ticket_id", JStr ticket_id);
        (py "repo_full_name", JStr repo);
        (py "pr_number", JStr pr_num);
        (py "commit_sha", jopt commit_sha)].

Definition encode_params (params : json) : str :=
  urlsafe_b64encode (utf8_encode (json_dumps params)).

(** The paused-status comment of lines 338-347. *)
Definition risk_report (ticket_id analysis params_json : str) : str :=
  py "**🤖 AI Risk Analysis (Powered by Llama 3 70B)**" ++ nl ++ nl
  ++ py "**Jira Ticket:** " ++ ticket_id ++ nl ++ nl
  ++ analysis ++ nl ++ nl
  ++ py "⏸️ **Paused:** Waiting for approval via email." ++ nl
  ++ py " " ++ nl
  ++ py "<!-- params: " ++ params_json ++ py " -->" ++ nl.

(** [(SCRUM-\d+)] *)
Definition scrum_re : re :=
  Grp 1 (Seq (lit (py "SCRUM-")) (plus is_digit)).

Definition create_ticket_request (repo pr_num risk_level analysis : str) : call :=
  writer (py "RequestResponse") (JObj
    [(py "actionGroup", JStr (py "ManualReply"));
     (py "function", JStr (py "manage_jira_governance"));
     (py "repo_full_name", JStr repo);
     (py "parameters", JObj
        [(py "pr_number", JStr pr_num);
         (py "risk_level", JStr risk_level);
         (py "service_name", JStr repo);
         (py "approval_comment",
          JStr (py "AI RISK ANALYSIS:" ++ nl ++ analysis))])]).

Definition approval_email (repo pr_num risk_level analysis params_json : str)
    : call :=
  writer (py "Event") (JObj
    [(py "actionGroup", JStr (py "ManualReply"));
     (py "function", JStr (py "send_approval_email"));
     (py "repo_full_name", JStr repo);
     (py "parameters", JObj
        [(py "pr_number", JStr pr_num);
         (py "risk_level", JStr risk_level);
         (py "service_name", JStr repo);
         (py "details",
          JStr (analysis ++ nl ++ nl ++ py "[ACTION: ai_analyzed_action]" ++ nl
                ++ py "[PARAMS: " ++ params_json ++ py "]"))])]).

(** Lines 269-350. *)
Definition trigger_high_risk_approval_smart
    (user_msg repo pr_num analysis risk_level : str) (commit_sha : option str)
    : prog Response :=
  (if truthy commit_sha
   then set_commit_status repo commit_sha (py "failure")
                          (py "High Risk - Approval Required") ;;;
        update_pr_state repo pr_num (py "closed")
   else Ret tt) ;;;
  Now (fun now =>
  let ticket_id := py "SCRUM-" ++ str_of_Z (now mod 1000) in
  ticket_id <-
    try_except
      (jira_res <- perform (create_ticket_request repo pr_num risk_level analysis) ;;
       jira_out <- read_json jira_res ;;
       response <- jget_default jira_out (py "response") (JObj []) ;;
       functionResponse <- jget_default response (py "functionResponse") (JObj []) ;;
       responseBody <- jget_default functionResponse (py "responseBody") (JObj []) ;;
       text <- jget_default responseBody (py "TEXT") (JObj []) ;;
       body <- jget_default text (py "body") (JStr []) ;;
       jira_text <- as_str body ;;
       match search scrum_re jira_text with
       | Some mt => Ret (group_str 1 mt)
       | None => Ret ticket_id
       end)
      (fun _ => Ret ticket_id) ;;
  let params_json :=
    encode_params (token user_msg ticket_id repo pr_num commit_sha) in
  perform (approval_email repo pr_num risk_level analysis params_json) ;;;
  post_github_comment repo pr_num (risk_report ticket_id analysis params_json) ;;;
  Ret (ack_with (py "High Risk Approval Flow Triggered"))).

Definition fallback_analysis : str :=
  py "RISK LEVEL: MEDIUM" ++ nl
  ++ py "REASONING: Unable to perform AI analysis due to technical error. Defaulting to cautious approach."
  ++ nl ++ py "RECOMMENDATION: Please review manually.".

(** Lines 831-842. *)
Definition handle_fallback (user_msg repo pr_num error : str)
    (commit_sha : option str) : prog Response :=
  trigger_high_risk_approval_smart user_msg repo pr_num fallback_analysis
                                   (py "MEDIUM") commit_sha.

(** [[a-zA-Z0-9\-_=]] *)
Definition token_char (c : ascii) : bool :=
  is_ascii_alnum c || is_char "-" c || is_char "_" c || is_char "=" c.

(** [Params:\s*([a-zA-Z0-9\-_=]+)] *)
Definition params_msg_re : re :=
  rseq [lit (py "Params:"); star is_space; Grp 1 (plus token_char)].

(** [<!-- params:\s*([a-zA-Z0-9\-_=]+)\s*-->] *)
Definition params_re : re :=
  rseq [lit (py "<!-- params:"); star is_space; Grp 1 (plus token_char);
        star is_space; lit (py "-->")].

(** [\[params\]:\s*([a-zA-Z0-9\-_=]+)] *)
Definition legacy_params_re : re :=
  rseq [lit (py "[params]:"); star is_space; Grp 1 (plus token_char)].

(** [Jira Ticket\W+([A-Z]+-\d+)] *)
Definition jira_re : re :=
  rseq [lit (py "Jira Ticket"); plus not_word;
        Grp 1 (rseq [plus is_ascii_upper; Chr (is_char "-"); plus is_digit])].

(** [json.loads(base64.urlsafe_b64decode(s).decode('utf-8'))]; [None] when
    one of the three steps raises. *)
Definition decode_params (s : str) : option json :=
  match urlsafe_b64decode s with
  | Some raw =>
      match utf8_decode raw with
      | Some decoded => json_loads decoded
      | None => None
      end
  | None => None
  end.

(** [params.get(key)] read as an optional text; a value that is neither
    text nor [null] is read as absent. *)
Definition field_str (fields : list (str * json)) (key : str) : option str :=
  match jfind key fields None with
  | Some (JStr s) => Some s
  | _ => None
  end.

(** [comment.get('body', '')]; [None] stands for a comment that cannot be
    read, which ends the scan with an exception. *)
Definition body_of (comment : json) : option str :=
  match comment with
  | JObj fields =>
      match jfind (py "body") fields None with
      | None => Some []
      | Some (JStr s) => Some s
      | Some _ => None
      end
  | _ => None
  end.

Definition is_analysis_comment (body : str) : bool :=
  contains (py "AI Risk Analysis") body || contains (py "Fallback Mode") body.

Definition comments_url (repo pr_num : str) : str :=
  github (repo ++ py "/issues/" ++ pr_num
          ++ py "/comments?sort=created&direction=desc").

(** Lines 400-408: the ticket of the first analysis comment that shows
    one. *)
Fixpoint find_ticket (comments : list json) : option str :=
  match comments with
  | [] => None
  | comment :: more =>
      match body_of comment with
      | None => None
      | Some body =>
          if is_analysis_comment body
          then match search jira_re body with
               | Some jira_match => Some (group_str 1 jira_match)
               | None => find_ticket more
               end
          else find_ticket more
      end
  end.

Definition or_na (ticket_id : option str) : str :=
  match ticket_id with
  | Some (c :: t) => c :: t
  | _ => py "N/A"
  end.

(** Lines 375-435. *)
Definition handle_rejection (user_msg repo pr_num sender_name : str)
    : prog Response :=
  let ticket_id :=
    match search params_msg_re user_msg with
    | Some params_match =>
        match decode_params (group_str 1 params_match) with
        | Some (JObj params_dict) => field_str params_dict (py "jira_ticket_id")
        | _ => None
        end
    | None => None
    end in
  ticket_id <-
    (if negb (truthy ticket_id)
     then try_except
            (res <- perform (GET (comments_url repo pr_num)) ;;
             j <- read_json res ;;
             comments <- as_list j ;;
             match find_ticket comments with
             | Some t => Ret (Some t)
             | None => Ret ticket_id
             end)
            (fun _ => Ret ticket_id)
     else Ret ticket_id) ;;
  (if truthy ticket_id
   then perform (writer (py "Event") (JObj
          [(py "actionGroup", JStr (py "ManualReply"));
           (py "function", JStr (py "manage_jira_governance"));
           (py "repo_full_name", JStr repo);
           (py "parameters", JObj
              [(py "ticket_id", jopt ticket_id);
               (py "comment_text",
                JStr (py "❌ **Rejected by " ++ sender_name
                      ++ py ":** User denied the request."));
               (py "pr_number", JStr pr_num)])])) ;;; Ret tt
   else Ret tt) ;;;
  post_github_comment repo pr_num
    (py "❌ **Request Rejected**" ++ nl ++ nl
     ++ py "The operation has been cancelled by " ++ sender_name ++ py "."
     ++ nl ++ nl ++ py "**Jira Updated:** " ++ or_na ticket_id) ;;;
  Ret (ack_with (py "Rejection Handled")).

(** What the scan of the comment thread has recovered so far. *)
Record Recovered : Type := MkRecovered {
  jira_ticket : str;
  recovered_request : option str;
  commit_sha_recovered : option str
}.

Definition nothing_recovered : Recovered := MkRecovered (py "UNKNOWN") None None.

(** Lines 525-533: the token of a comment, [None] when the comment shows
    none or when decoding it raises. *)
Definition token_of (body : str) : option (list (str * json)) :=
  let params_match :=
    match search params_re body with
    | Some pm => Some pm
    | None => search legacy_params_re body
    end in
  match params_match with
  | Some pm =>
      match decode_params (group_str 1 pm) with
      | Some (JObj json_params) => Some json_params
      | _ => None
      end
  | None => None
  end.

(** Lines 516-538, on one analysis comment. *)
Definition scan_comment (body : str) (st : Recovered) : Recovered :=
  let jira_ticket :=
    if str_eqb (jira_ticket st) (py "UNKNOWN")
    then match search jira_re body with
         | Some jira_match => group_str 1 jira_match
         | None => jira_ticket st
         end
    else jira_ticket st in
  match token_of body with
  | Some json_params =>
      MkRecovered jira_ticket
                  (field_str json_params (py "request"))
                  (field_str json_params (py "commit_sha"))
  | None => MkRecovered jira_ticket (recovered_request st)
                        (commit_sha_recovered st)
  end.

(** Lines 512-541: the comments in the order of the reply (newest first);
    the scan stops at the first analysis comment after which both a ticket
    and a request are known. *)
Fixpoint scan_comments (comments : list json) (st : Recovered) : Recovered :=
  match comments with
  | [] => st
  | comment :: more =>
      match body_of comment with
      | None => st
      | Some body =>
          if is_analysis_comment body
          then let st' := scan_comment body st in
               if negb (str_eqb (jira_ticket st') (py "UNKNOWN"))
                  && truthy (recovered_request st')
               then st'
               else scan_comments more st'
          else scan_comments more st
      end
  end.

Definition recover_context (repo pr_num : str) : prog Recovered :=
  try_except
    (res <- perform (GET (comments_url repo pr_num)) ;;
     j <- read_json res ;;
     comments <- as_list j ;;
     Ret (scan_comments comments nothing_recovered))
    (fun _ => Ret nothing_recovered).

(** [test-v19], ..., [test-v1] *)
Definition candidates : list str :=
  rev (map (fun i => py "test-v" ++ str_of_N (N.of_nat i)) (List.seq 1 19)).

Definition branch_url (repo test_branch : str) : str :=
  github (repo ++ py "/branches/" ++ test_branch).

(** Lines 462-471. *)
Fixpoint probe (repo : str) (names : list str) : prog (option str) :=
  match names with
  | [] => Ret None
  | test_branch :: more =>
      Do (GET (branch_url repo test_branch)) (fun r =>
        match r with
        | Ok _ => Ret (Some test_branch)
        | Err _ => probe repo more
        end)
  end.

Definition pr_url (repo pr_num : str) : str :=
  github (repo ++ py "/pulls/" ++ pr_num).

Definition as_opt_str (j : json) : prog (option str) :=
  match j with
  | JStr s => Ret (Some s)
  | JNull => Ret None
  | _ => Raise (Exception (py "expected str"))
  end.

(** Lines 450-471: the head branch of the pull request with its title, or
    else the first candidate that exists. *)
Definition find_branch (repo pr_num : str) : prog (option str * str) :=
  try_except
    (res <- perform (GET (pr_url repo pr_num)) ;;
     pr_data <- read_json res ;;
     head <- jindex pr_data (py "head") ;;
     ref <- jindex head (py "ref") ;;
     branch_name <- as_opt_str ref ;;
     title <- jget_default pr_data (py "title") (JStr []) ;;
     pr_title <- as_str title ;;
     Ret (branch_name, pr_title))
    (fun _ =>
       branch_name <- probe repo candidates ;;
       Ret (branch_name, [])).

Definition create_branch_request (repo branch_name : str) : call :=
  writer (py "RequestResponse") (JObj
    [(py "actionGroup", JStr (py "GitHubManagement"));
     (py "function", JStr (py "create_branch"));
     (py "repo_full_name", JStr repo);
     (py "parameters", JObj [(py "branch_name", JStr branch_name);
                             (py "base_branch", JStr (py "main"))])]).

(** [Context:\s*(.+)], [re.IGNORECASE] *)
Definition context_re : re :=
  rseq [lit_ci (py "Context:"); star is_space; Grp 1 (plus dot)].

(** Lines 547-554. *)
Definition request_text_of (user_msg pr_title : str)
    (recovered_request : option str) : str :=
  if contains (py "Context:") user_msg
  then match search context_re user_msg with
       | Some context_match => strip (group_str 1 context_match)
       | None => pr_title
       end
  else match recovered_request with
       | Some (c :: t) => c :: t
       | _ => pr_title
       end.

Definition ticket_known (jira_ticket : str) : bool :=
  nonempty jira_ticket && negb (str_eqb jira_ticket (py "UNKNOWN")).

Definition update_ticket (repo pr_num jira_ticket comment_text : str)
    : prog unit :=
  if ticket_known jira_ticket
  then attempt
         (resp <- perform (writer (py "RequestResponse") (JObj
            [(py "actionGroup", JStr (py "ManualReply"));
             (py "function", JStr (py "manage_jira_governance"));
             (py "repo_full_name", JStr repo);
             (py "parameters", JObj
                [(py "ticket_id", JStr jira_ticket);
                 (py "comment_text", JStr comment_text);
                 (py "pr_number", JStr pr_num)])])) ;;
          read_json resp ;;; Ret tt)
  else Ret tt.

(** Lines 562-603: the risk-accepted case of an automatic trigger. *)
Definition unblock (repo pr_num sender_name jira_ticket : str) : prog Response :=
  update_ticket repo pr_num jira_ticket
    (py "✅ **Approved by " ++ sender_name
     ++ py ":** Risk accepted. PR unblocked.") ;;;
  post_github_comment repo pr_num
    (py "✅ **Risk Accepted**" ++ nl ++ nl ++ py "PR has been unblocked by "
     ++ sender_name ++ py " (Re-opened)." ++ nl ++ nl
     ++ py "**Jira Updated:** " ++ jira_ticket) ;;;
  update_pr_state repo pr_num (py "open") ;;;
  merged <- merge_pull_request repo pr_num ;;
  let merge_msg :=
    if merged then py "Merged Automatically 🚀"
    else py "Ready to Merge (Manual Merge Required)" in
  post_github_comment repo pr_num (py "**Status:** " ++ merge_msg) ;;;
  Ret (ack_with (py "Risk Analysis Unblocked")).

(** [(?:create|on|to)\s+(?:a\s+)?(?:branch\s+)?([a-zA-Z0-9\-_]+)],
    [re.IGNORECASE] *)
Definition context_branch_re : re :=
  rseq [ralt [lit_ci (py "create"); lit_ci (py "on"); lit_ci (py "to")];
        plus is_space;
        Opt (Seq (lit_ci (py "a")) (plus is_space));
        Opt (Seq (lit_ci (py "branch")) (plus is_space));
        Grp 1 (plus branch_char)].

(** Lines 609-615. *)
Definition execution_branch (branch_name request_text : str) : str :=
  match search context_branch_re request_text with
  | Some context_branch_match =>
      let extracted_branch := group_str 1 context_branch_match in
      if existsb (str_eqb (lower extracted_branch))
                 [py "and"; py "update"; py "change"; py "services"; py "file"]
      then branch_name
      else extracted_branch
  | None => branch_name
  end.

(** [[a-zA-Z0-9_\-\./]] *)
Definition path_char (c : ascii) : bool :=
  is_ascii_alnum c || is_char "_" c || is_char "-" c || is_char "." c
  || is_char "/" c.

(** [([a-zA-Z0-9_\-\./]+\.[a-zA-Z0-9]{2,5})] *)
Definition file_re : re :=
  Grp 1 (rseq [plus path_char; Chr (is_char ".");
               Rep true is_ascii_alnum 2 (Some 5)]).

(** [update\s+([a-zA-Z0-9_\-\./]+)], [re.IGNORECASE] *)
Definition update_re : re :=
  rseq [lit_ci (py "update"); plus is_space; Grp 1 (plus path_char)].

(** Lines 622-625. *)
Definition target_file_of (request_text : str) : option str :=
  match search file_re request_text with
  | Some file_match => Some (group_str 1 file_match)
  | None =>
      match search update_re request_text with
      | Some file_match => Some (group_str 1 file_match)
      | None => None
      end
  end.

Definition file_url (repo target_file branch_name : str) : str :=
  github (repo ++ py "/contents/" ++ target_file ++ py "?ref=" ++ branch_name).

Definition transform_prompt (request_text target_file current_content : str)
    : str :=
  py "You are a Code Editor." ++ nl
  ++ py "User's Request: " ++ request_text ++ nl
  ++ py "File: " ++ target_file ++ nl
  ++ py "Current Content:" ++ nl
  ++ current_content ++ nl ++ nl
  ++ py "Apply the requested changes and output ONLY the full new content of the file. No markdown blocks, no explanations.".

Definition backticks : str := py "```".

(** The two [re.sub] of lines 654-655: a leading fence line and a trailing
    fence. *)
Definition strip_fences (new_content : str) : str :=
  sub (rseq [Chr (is_char "010"); lit backticks; Eol]) []
      (sub (rseq [Bol; lit backticks; star is_word; Chr (is_char "010")]) []
           new_content).

Definition update_file_request (repo target_file branch_name new_content : str)
    : call :=
  writer (py "RequestResponse") (JObj
    [(py "actionGroup", JStr (py "GitHubManagement"));
     (py "function", JStr (py "update_file"));
     (py "repo_full_name", JStr repo);
     (py "parameters", JObj [(py "file_path", JStr target_file);
                             (py "branch_name", JStr branch_name);
                             (py "new_content", JStr new_content)])]).

(** Lines 631-693: [inl] is the early return after a direct execution,
    [inr] the execution log after a failure. *)
Definition apply_update (repo pr_num sender_name request_text target_file
    branch_name : str) : prog (Response + str) :=
  try_except
    (f <- perform (GET (file_url repo target_file branch_name)) ;;
     file_data <- read_json f ;;
     content <- jindex file_data (py "content") ;;
     content <- as_str content ;;
     current_content <-
       match b64decode content with
       | Some raw =>
           match utf8_decode raw with
           | Some text => Ret text
           | None => Raise (Exception (py "'utf-8' codec can't decode"))
           end
       | None => Raise (Exception (py "Incorrect padding"))
       end ;;
     answer <- call_groq_api
                 (transform_prompt request_text target_file current_content) ;;
     stripped <- strip_of answer ;;
     let new_content := strip_fences stripped in
     update_response <-
       perform (update_file_request repo target_file branch_name new_content) ;;
     response_payload <- read_json update_response ;;
     body <- jget_default response_payload (py "body") (JStr (py "Success")) ;;
     body <- as_str body ;;
     post_github_comment repo pr_num
       (py "✅ **Approved & Executed (Direct Mode)**" ++ nl ++ nl
        ++ py "Request: " ++ request_text ++ nl ++ nl
        ++ py "Updated `" ++ target_file ++ py "` on branch `" ++ branch_name
        ++ py "`" ++ nl ++ nl
        ++ py "**Approved By:** " ++ sender_name ++ nl ++ nl
        ++ py "Writer Response: " ++ body) ;;;
     Ret (inl (ack_with (py "Direct execution complete"))))
    (fun e =>
       match e with
       | HTTPError code reason =>
           let error_msg :=
             if (code =? 404)%Z
             then py "File `" ++ target_file ++ py "` not found on branch `"
                  ++ branch_name ++ py "`"
             else py "File fetch failed: " ++ str_of_Z code ++ py " " ++ reason in
           Ret (inr (py "⚠️ Execution failed: " ++ error_msg))
       | Exception msg => Ret (inr (py "⚠️ Execution failed: " ++ msg))
       end).

(** Lines 545-722: the handler once the branch is resolved and the
    comment thread is scanned. *)
Definition proceed (user_msg repo pr_num sender_name : str)
    (branch_name pr_title : str) (rec : Recovered) : prog Response :=
  let jira_ticket := jira_ticket rec in
  let request_text := request_text_of user_msg pr_title (recovered_request rec) in
  (if truthy (commit_sha_recovered rec)
   then set_commit_status repo (commit_sha_recovered rec) (py "success")
                          (py "Approved by " ++ sender_name)
   else Ret tt) ;;;
  if contains (py "Automatic Risk Analysis Trigger") request_text
  then unblock repo pr_num sender_name jira_ticket
  else
    let branch_name := execution_branch branch_name request_text in
    r <- match target_file_of request_text with
         | Some target_file =>
             apply_update repo pr_num sender_name request_text target_file
                          branch_name
         | None => Ret (inr (py "⚠️ Could not detect file to update from request"))
         end ;;
    match r with
    | inl response => Ret response
    | inr execution_log =>
        update_ticket repo pr_num jira_ticket
          (py "❌ **Rejected by " ++ sender_name
           ++ py ":** Request denied by user.") ;;;
        post_github_comment repo pr_num
          (py "✅ **Approved Action Executed**" ++ nl ++ nl
           ++ py "Request: " ++ request_text ++ nl ++ nl
           ++ py "**Status:** " ++ execution_log ++ nl
           ++ py "**Approved By:** " ++ sender_name ++ nl
           ++ py "**Jira Updated:** " ++ jira_ticket) ;;;
        Ret (ack_with (py "Autopilot Execution Complete"))
    end.

(** Lines 500-722. *)
Definition resume (user_msg repo pr_num sender_name : str)
    (branch_name pr_title : str) : prog Response :=
  rec <- recover_context repo pr_num ;;
  proceed user_msg repo pr_num sender_name branch_name pr_title rec.

(** Lines 724-729: the handler of an unexpected error. *)
Definition approval_failed (repo pr_num : str) (e : exn) : prog Response :=
  post_github_comment repo pr_num
    (py "⚠️ **Approval Failed**: Unexpected error in approval handler: "
     ++ exn_str e) ;;;
  Ret (ack_with (py "Autopilot Execution Complete")).

(** Lines 439-729. *)
Definition handle_approval (user_msg repo pr_num sender_name : str)
    : prog Response :=
  try_except
    (found <- find_branch repo pr_num ;;
     let pr_title := snd found in
     match fst found with
     | Some (c :: b) => resume user_msg repo pr_num sender_name (c :: b) pr_title
     | _ =>
         Now (fun now =>
           let branch_name :=
             py "approved-change-" ++ str_of_Z (now mod 10000) in
           Do (create_branch_request repo branch_name) (fun r =>
             match r with
             | Ok _ =>
                 resume user_msg repo pr_num sender_name branch_name pr_title
             | Err e =>
                 post_github_comment repo pr_num
                   (py "⚠️ **Approval Failed**: Could not create branch `"
                    ++ branch_name ++ py "`" ++ nl ++ nl
                    ++ py "Error: " ++ exn_str e) ;;;
                 Ret (ack_with (py "Branch creation failed: " ++ exn_str e))
             end))
     end)
    (approval_failed repo pr_num).

(** [delete\s+all\s+branches?.*except\s+main], [re.IGNORECASE] *)
Definition bulk_delete_re : re :=
  rseq [lit_ci (py "delete"); plus is_space; lit_ci (py "all"); plus is_space;
        lit_ci (py "branche"); Opt (lit_ci (py "s")); star dot;
        lit_ci (py "except"); plus is_space; lit_ci (py "main")].

(** [[a-zA-Z0-9\-_/\.]] *)
Definition target_char (c : ascii) : bool :=
  is_ascii_alnum c || is_char "-" c || is_char "_" c || is_char "/" c
  || is_char "." c.

(** [(create|delete|merge)\b.*?\b(branch|file|pr|pull request)\b
     (?:\s+(?:named|called|for))?\s+([a-zA-Z0-9\-_/\.]+)], [re.IGNORECASE] *)
Definition intent_re : re :=
  rseq [Grp 1 (ralt [lit_ci (py "create"); lit_ci (py "delete");
                     lit_ci (py "merge")]);
        Wordb; Rep false dot 0 None; Wordb;
        Grp 2 (ralt [lit_ci (py "branch"); lit_ci (py "file"); lit_ci (py "pr");
                     lit_ci (py "pull request")]);
        Wordb;
        Opt (Seq (plus is_space)
                 (ralt [lit_ci (py "named"); lit_ci (py "called");
                        lit_ci (py "for")]));
        plus is_space;
        Grp 3 (plus target_char)].

(** [\b{keyword}(?:\s|$)], [re.IGNORECASE] *)
Definition bypass_keyword_re (keyword : str) : re :=
  rseq [Wordb; lit_ci keyword; Alt (Chr is_space) Eol].

Definition has_code_change_keyword (user_msg : str) : bool :=
  existsb (fun keyword => found (search (bypass_keyword_re keyword) user_msg))
          code_change_keywords.

Definition delete_branch_request (repo branch_name : str) : call :=
  writer (py "Event") (JObj
    [(py "actionGroup", JStr (py "GitHubManagement"));
     (py "function", JStr (py "delete_branch"));
     (py "repo_full_name", JStr repo);
     (py "parameters", JObj [(py "branch_name", JStr branch_name)])]).

(** Lines 763-777: the number of invocations that did not raise. *)
Fixpoint delete_branches (repo : str) (branches_to_delete : list str)
    (deleted_count : N) : prog N :=
  match branches_to_delete with
  | [] => Ret deleted_count
  | branch_name :: more =>
      Do (delete_branch_request repo branch_name) (fun r =>
        match r with
        | Ok _ => delete_branches repo more (deleted_count + 1)%N
        | Err _ => delete_branches repo more deleted_count
        end)
  end.

(** [[b['name'] for b in branches]] *)
Fixpoint branch_names (branches : list json) : prog (list str) :=
  match branches with
  | [] => Ret []
  | b :: more =>
      name <- jindex b (py "name") ;;
      name <- as_str name ;;
      names <- branch_names more ;;
      Ret (name :: names)
  end.

(** Lines 740-785. *)
Definition bulk_delete (repo pr_num : str) : prog Response :=
  try_except
    (res <- perform (urlopen (Request (github (repo ++ py "/branches"))
                       (py "GET") (Some (py "application/vnd.github.v3+json"))
                       None)) ;;
     j <- read_json res ;;
     branches <- as_list j ;;
     names <- branch_names branches ;;
     let branches_to_delete :=
       filter (fun name => negb (str_eqb name (py "main"))) names in
     match branches_to_delete with
     | [] =>
         post_github_comment repo pr_num
           (py "ℹ️ **No branches to delete**" ++ nl ++ nl
            ++ py "Only `main` branch exists.") ;;;
         Ret (ack_with (py "No branches to delete"))
     | _ =>
         deleted_count <- delete_branches repo branches_to_delete 0 ;;
         let branch_list :=
           join nl (map (fun b => py "- `" ++ b ++ py "`") branches_to_delete) in
         post_github_comment repo pr_num
           (py "✅ **Bulk Deletion Complete**" ++ nl ++ nl
            ++ py "Deleted " ++ str_of_N deleted_count ++ py " branches:" ++ nl
            ++ branch_list ++ nl ++ nl ++ py "`main` branch preserved.") ;;;
         Ret (ack_with (py "Deleted " ++ str_of_N deleted_count
                        ++ py " branches"))
     end)
    (fun e =>
       post_github_comment repo pr_num
         (py "⚠️ **Bulk deletion failed**: " ++ exn_str e) ;;;
       Ret (ack_with (py "Failed: " ++ exn_str e))).

(** Lines 736-828; [None] lets the risk analysis run. *)
Definition try_bypass_commands (user_msg repo pr_num : str)
    : prog (option Response) :=
  if found (search bulk_delete_re user_msg)
  then r <- bulk_delete repo pr_num ;; Ret (Some r)
  else
    match search intent_re user_msg with
    | None => Ret None
    | Some intent_match =>
        if contains (py "approved") (lower user_msg) then Ret None
        else if has_code_change_keyword user_msg then Ret None
        else
          let action_verb := lower (group_str 1 intent_match) in
          let resource_type :=
            match group 2 intent_match with
            | Some (c :: t) => lower (c :: t)
            | _ => py "unknown"
            end in
          let target_name :=
            match group 3 intent_match with
            | Some (c :: t) => c :: t
            | _ => py "demo-target"
            end in
          if contains (py "create") action_verb
             && contains (py "branch") resource_type
          then
            perform (writer (py "Event") (JObj
              [(py "actionGroup", JStr (py "GitHubManagement"));
               (py "function", JStr (py "create_branch"));
               (py "repo_full_name", JStr repo);
               (py "parameters", JObj
                  [(py "branch_name", JStr target_name);
                   (py "base_branch", JStr (py "main"))])])) ;;;
            post_github_comment repo pr_num
              (py "✅ **Low Risk Action:** Branch `" ++ target_name
               ++ py "` created successfully." ++ nl
               ++ py "No risk analysis required.") ;;;
            Ret (Some (ack_with (py "Low Risk Success")))
          else Ret None
    end.

Section WithKnowledgeBase.

Variable KNOWLEDGE_BASE : KnowledgeBase.

(** Lines 162-201. *)
Definition build_system_prompt (repo pr_num user_msg diff : str) : str :=
  let kb_context :=
    nl ++ py "KNOWLEDGE BASE CONTEXT (use this for risk analysis):" ++ nl ++ nl
    ++ architecture_map KNOWLEDGE_BASE ++ nl ++ nl
    ++ incident_history KNOWLEDGE_BASE ++ nl ++ nl
    ++ deployment_policies KNOWLEDGE_BASE ++ nl in
  py "You are a PR Risk Analyzer. Analyze the following request and provide a risk assessment."
  ++ nl ++ nl
  ++ py "Context: PULL REQUEST #" ++ pr_num ++ py " in " ++ repo ++ nl
  ++ py "Existing Code Changes (Diff):" ++ nl
  ++ firstn 5000 diff ++ nl ++ nl
  ++ py "User Request: " ++ user_msg ++ nl ++ nl
  ++ kb_context ++ nl ++ nl
  ++ py "INSTRUCTIONS:" ++ nl
  ++ py "1. Analyze the request using the KNOWLEDGE BASE above" ++ nl
  ++ py "2. Identify risk level: LOW, MEDIUM, or HIGH" ++ nl
  ++ py "3. Reference specific incidents or policies from the KB" ++ nl
  ++ py "4. Explain your reasoning" ++ nl ++ nl
  ++ py "RISK CLASSIFICATION RULES:" ++ nl
  ++ py "- Schema changes (especially user_id field) = HIGH RISK (reference Incident #OUTAGE-2024-06)"
  ++ nl
  ++ py "- Changes affecting Legacy-Scanner-Adapter = HIGH RISK" ++ nl
  ++ py "- Database modifications = HIGH RISK" ++ nl
  ++ py "- Branch operations (create/delete) = LOW/MEDIUM RISK depending on context"
  ++ nl
  ++ py "- Documentation updates = LOW RISK" ++ nl ++ nl
  ++ py "Provide your analysis in this format:" ++ nl
  ++ py "RISK LEVEL: [LOW/MEDIUM/HIGH]" ++ nl
  ++ py "REASONING: [Your detailed analysis referencing KB]" ++ nl
  ++ py "RECOMMENDATION: [What should be done]" ++ nl.

Definition diff_request (repo pr_number : str) : call :=
  urlopen (Request (pr_url repo pr_number) (py "GET")
                   (Some (py "application/vnd.github.v3.diff")) None).

(** Lines 98-124: the risk analysis and the routing on its verdict. *)
Definition analyze (event : Event) (user_msg pr_diff : str) : prog Response :=
  let repo_full_name := repo_full_name event in
  let pr_number := pr_number event in
  let commit_sha := commit_sha event in
  try_except
    (let prompt := build_system_prompt repo_full_name pr_number user_msg pr_diff in
     analysis <- call_groq_api prompt ;;
     analysis <- searched_text analysis ;;
     let risk_level := extract_risk_level analysis in
     if existsb (str_eqb risk_level) [py "HIGH"; py "MEDIUM"]
     then trigger_high_risk_approval_smart user_msg repo_full_name pr_number
                                           analysis risk_level commit_sha
     else
       (if is_automatic_trigger event && truthy commit_sha
        then
          set_commit_status repo_full_name commit_sha (py "success")
                            (py "Low Risk - Safe to Merge") ;;;
          merge_pull_request repo_full_name pr_number ;;;
          post_github_comment repo_full_name pr_number
            (analysis ++ nl ++ nl
             ++ py "✅ **Auto-Merge**: Low Risk. Merging automatically.")
        else post_github_comment repo_full_name pr_number analysis) ;;;
       Ret (ack_with (py "Low Risk - Executed")))
    (fun e =>
       handle_fallback user_msg repo_full_name pr_number (exn_str e) commit_sha).

(** Lines 47-124. *)
Definition lambda_handler (event : Event) : prog Response :=
  let repo_full_name := repo_full_name event in
  let pr_number := pr_number event in
  let user_msg :=
    match user_message event with
    | Some (c :: t) => c :: t
    | _ =>
        match user_comment event with
        | Some comment => comment
        | None => py "Evaluate the request."
        end
    end in
  let sender_name :=
    match sender_name event with
    | Some name => name
    | None => py "unknown"
    end in
  (if is_automatic_trigger event && truthy (commit_sha event)
   then set_commit_status repo_full_name (commit_sha event) (py "pending")
                          (py "Analyzing Risk (Gemma 3 12B)...")
   else Ret tt) ;;;
  pr_diff <-
    (if is_pull_request event
     then try_except
            (res <- perform (diff_request repo_full_name pr_number) ;;
             read_text res)
            (fun _ => Ret (py "No code diff available."))
     else Ret (py "No code diff available.")) ;;
  if contains (py "approved") (lower user_msg)
  then handle_approval user_msg repo_full_name pr_number sender_name
  else if contains (py "rejected") (lower user_msg)
  then handle_rejection user_msg repo_full_name pr_number sender_name
  else
    bypass_result <- try_bypass_commands user_msg repo_full_name pr_number ;;
    match bypass_result with
    | Some response => Ret response
    | None => analyze event user_msg pr_diff
    end.

End WithKnowledgeBase.

End Brain.

(* ===================================================================== *)
(** * Properties *)
(* ===================================================================== *)

(** ** Text and matcher lemmas *)

Unset Implicit Arguments.

Arguments Ascii.eqb : simpl never.
Arguments is_char : simpl never.
Arguments is_space : simpl never.
Arguments is_word : simpl never.
Arguments is_alnum : simpl never.
Arguments branch_char : simpl never.

Lemma eqb_ascii_true (a b : ascii) : Ascii.eqb a b = true <-> a = b.
Proof. apply Ascii.eqb_eq. Qed.

Lemma startswith_spec (w s : str) :
  startswith w s = true <-> exists t, s = w ++ t.
Proof.
  revert s; induction w as [|a w IH]; intros s; simpl.
  - split; [intros _; now exists s | trivial].
  - destruct s as [|b s]; simpl.
    + split; [discriminate | intros [t H]; discriminate].
    + rewrite andb_true_iff, Ascii.eqb_eq, IH. split.
      * intros [-> [t ->]]. now exists t.
      * intros [t H]. injection H as -> ->. split; [reflexivity | now exists t].
Qed.

Lemma startswith_app (w t : str) : startswith w (w ++ t) = true.
Proof. apply startswith_spec. now exists t. Qed.

Lemma skipn_length_app (w t : str) : skipn (length w) (w ++ t) = t.
Proof. induction w; simpl; auto. Qed.

(** [occurs needle hay]: the declarative reading of [needle in hay]. *)
Definition occurs (needle hay : str) : Prop :=
  exists a b, hay = a ++ needle ++ b.

Lemma contains_spec (needle hay : str) :
  contains needle hay = true <-> occurs needle hay.
Proof.
  unfold occurs. induction hay as [|c hay IH].
  - simpl. rewrite orb_false_r, startswith_spec. split.
    + intros [t H]. exists [], t. exact H.
    + intros [a [b H]]. destruct a; simpl in H.
      * now exists b.
      * discriminate.
  - simpl. rewrite orb_true_iff, startswith_spec, IH. split.
    + intros [[t H] | [a [b H]]].
      * exists [], t. exact H.
      * exists (c :: a), b. simpl. now rewrite H.
    + intros [a [b H]]. destruct a as [|x a]; simpl in H.
      * left. now exists b.
      * right. injection H as _ H. now exists a, b.
Qed.

Lemma m_lit (w : str) (bef rst : str) (cs : list (nat * str))
    (k : mstate -> option mstate) :
  m (lit w) (MState bef rst cs) k =
  if startswith w rst
  then k (MState (rev w ++ bef) (skipn (length w) rst) cs)
  else None.
Proof.
  revert bef rst; induction w as [|a w IH]; intros bef rst; simpl.
  - reflexivity.
  - destruct rst as [|b rst]; simpl; [reflexivity|].
    unfold is_char. destruct (Ascii.eqb a b) eqn:E; simpl; [|reflexivity].
    apply Ascii.eqb_eq in E. subst b. rewrite IH.
    now rewrite <- app_assoc.
Qed.

Lemma search_from_found (r : re) (bef rst : str) :
  found (search_from r bef rst) = true <->
  exists a b, rst = a ++ b /\ found (match_here r (rev a ++ bef) b) = true.
Proof.
  revert bef; induction rst as [|c rst IH]; intros bef; simpl.
  - destruct (match_here r bef []) eqn:E; simpl.
    + split; [intros _ | trivial]. exists [], []. simpl. now rewrite E.
    + split; [discriminate|]. intros [a [b [H F]]].
      destruct a; [|discriminate]. destruct b; [|discriminate].
      simpl in F. now rewrite E in F.
  - destruct (match_here r bef (c :: rst)) eqn:E; simpl.
    + split; [intros _ | trivial]. exists [], (c :: rst). simpl. now rewrite E.
    + rewrite IH. split.
      * intros [a [b [H F]]]. exists (c :: a), b. simpl. split.
        -- now rewrite H.
        -- now rewrite <- app_assoc.
      * intros [a [b [H F]]]. destruct a as [|x a]; simpl in H, F.
        -- subst b. now rewrite E in F.
        -- injection H as -> H. exists a, b. split; [assumption|].
           now rewrite <- app_assoc in F.
Qed.

Lemma search_found (r : re) (s : str) :
  found (search r s) = true <->
  exists a b, s = a ++ b /\ found (match_here r (rev a) b) = true.
Proof.
  unfold search. rewrite search_from_found.
  split; intros [a [b [H F]]]; exists a, b; split; auto.
  - now rewrite app_nil_r in F.
  - now rewrite app_nil_r.
Qed.

(** ** Whole-word matching of the code-change verbs (gateway) *)

(** A verb occurrence is bounded when the text before it is empty or ends
    in whitespace, and the text after it is empty or starts with
    whitespace. *)
Definition bounded_left (pre : str) : Prop :=
  pre = [] \/ exists p c, pre = p ++ [c] /\ is_space c = true.

Definition bounded_right (post : str) : Prop :=
  post = [] \/ exists c q, post = c :: q /\ is_space c = true.

Definition whole_word (keyword text : str) : Prop :=
  exists pre post,
    text = pre ++ keyword ++ post /\ bounded_left pre /\ bounded_right post.

Definition has_verb (text : str) : Prop :=
  exists keyword, In keyword code_change_keywords /\ whole_word keyword text.

(** The create-branch signal: "create" occurs, and "branch" or "named"
    occurs. *)
Definition create_signal (text : str) : Prop :=
  occurs (py "create") text
  /\ (occurs (py "branch") text \/ occurs (py "named") text).

Lemma right_edge_spec (bef tail : str) (cs : list (nat * str)) :
  found (m (Alt (Chr is_space) Eol) (MState bef tail cs) (fun st => Some st))
  = true <-> bounded_right tail.
Proof.
  unfold bounded_right. destruct tail as [|c q]; simpl.
  - split; auto.
  - destruct (is_space c) eqn:E; simpl.
    + split; [|trivial]. intros _. right. now exists c, q.
    + assert (N : ~ ([c] ++ q = [] \/
                     exists c' q', [c] ++ q = c' :: q' /\ is_space c' = true)).
      { intros [H | [c' [q' [H1 H2]]]]; [discriminate|].
        injection H1 as <- _. congruence. }
      simpl in N. destruct q as [|d q]; simpl.
      * destruct (is_char "010" c) eqn:E2; simpl.
        -- apply Ascii.eqb_eq in E2. subst c. vm_compute in E. discriminate.
        -- split; [discriminate | intros H; now destruct N].
      * split; [discriminate | intros H; now destruct N].
Qed.

Lemma keyword_here_spec (keyword bef rst : str) :
  found (match_here (Gateway.keyword_re keyword) bef rst) = true <->
  (bef = [] /\ exists post, rst = keyword ++ post /\ bounded_right post)
  \/ (exists c post, rst = c :: keyword ++ post /\ is_space c = true
                     /\ bounded_right post).
Proof.
  unfold match_here, Gateway.keyword_re.
  change (m (rseq [Alt Bol (Chr is_space); lit keyword; Alt (Chr is_space) Eol])
            (MState bef rst []) (fun st => Some st))
    with (m (Alt Bol (Chr is_space)) (MState bef rst [])
            (fun st1 => m (lit keyword) st1
               (fun st2 => m (Alt (Chr is_space) Eol) st2 (fun st => Some st)))).
  set (K' := fun st1 => m (lit keyword) st1
               (fun st2 => m (Alt (Chr is_space) Eol) st2 (fun st => Some st))).
  assert (K : forall b r,
    found (K' (MState b r [])) = true
    <-> exists post, r = keyword ++ post /\ bounded_right post).
  { intros b r. unfold K'. rewrite m_lit.
    destruct (startswith keyword r) eqn:E.
    - apply startswith_spec in E. destruct E as [t ->].
      rewrite skipn_length_app, right_edge_spec. split.
      + intros H. now exists t.
      + intros [post [H1 H2]]. apply app_inv_head in H1. now subst.
    - split; [discriminate|]. intros [post [H1 H2]]. subst r.
      now rewrite startswith_app in E. }
  clearbody K'. cbn [m before rest caps].
  destruct bef as [|x bef].
  - destruct (K' (MState [] rst [])) eqn:E1.
    + split; [|trivial]. intros _. left. split; [reflexivity|].
      apply (K [] rst). now rewrite E1.
    + destruct rst as [|c rst'].
      * split; [discriminate|]. intros [[_ H] | [c [post [H _]]]].
        -- apply (K [] _) in H. now rewrite E1 in H.
        -- discriminate.
      * destruct (is_space c) eqn:Ec.
        -- rewrite K. split.
           ++ intros [post [H1 H2]]. right. exists c, post. now subst.
           ++ intros [[_ H] | [c' [post [H1 [H2 H3]]]]].
              ** apply (K [] _) in H. now rewrite E1 in H.
              ** injection H1 as <- ->. now exists post.
        -- split; [discriminate|]. intros [[_ H] | [c' [post [H1 [H2 H3]]]]].
           ++ apply (K [] _) in H. now rewrite E1 in H.
           ++ injection H1 as <- _. congruence.
  - destruct rst as [|c rst'].
    + split; [discriminate|]. intros [[H _] | [c [post [H _]]]]; discriminate.
    + destruct (is_space c) eqn:Ec.
      * rewrite K. split.
        -- intros [post [H1 H2]]. right. exists c, post. now subst.
        -- intros [[H _] | [c' [post [H1 [H2 H3]]]]]; [discriminate|].
           injection H1 as <- ->. now exists post.
      * split; [discriminate|]. intros [[H _] | [c' [post [H1 [H2 H3]]]]];
          [discriminate|]. injection H1 as <- _. congruence.
Qed.

Lemma keyword_search_spec (keyword text : str) :
  found (search (Gateway.keyword_re keyword) text) = true
  <-> whole_word keyword text.
Proof.
  rewrite search_found. unfold whole_word. split.
  - intros [a [b [-> F]]]. apply keyword_here_spec in F.
    destruct F as [[Ha [post [-> Hr]]] | [c [post [-> [Hc Hr]]]]].
    + exists a, post. split; [reflexivity|]. split; [|assumption].
      left. destruct a as [|x a]; [reflexivity|].
      simpl in Ha. now destruct (rev a).
    + exists (a ++ [c]), post. split.
      * now rewrite <- app_assoc.
      * split; [|assumption]. right. now exists a, c.
  - intros [pre [post [-> [Hl Hr]]]]. destruct Hl as [-> | [p [c [-> Hc]]]].
    + exists [], (keyword ++ post). split; [reflexivity|].
      apply keyword_here_spec. left. split; [reflexivity|]. now exists post.
    + exists p, (c :: keyword ++ post). split.
      * now rewrite <- app_assoc.
      * apply keyword_here_spec. right. now exists c, post.
Qed.

(** The loop of lines 152-158 holds exactly for the texts with a bounded
    verb. *)
Lemma has_code_change_spec (text : str) :
  Gateway.has_code_change text = true <-> has_verb text.
Proof.
  unfold Gateway.has_code_change, has_verb. rewrite existsb_exists.
  split; intros [k [H1 H2]]; exists k; split; auto;
    now apply keyword_search_spec.
Qed.

Lemma has_create_spec (text : str) :
  Gateway.has_create text = true <-> create_signal text.
Proof.
  unfold Gateway.has_create, create_signal.
  now rewrite andb_true_iff, orb_true_iff, !contains_spec.
Qed.

Lemma classify_compound_iff (text : str) (item_number : option Z) :
  (exists branch,
     Gateway.classify text item_number = Gateway.CompoundCreateAndChange branch)
  <-> create_signal text /\ has_verb text.
Proof.
  rewrite <- has_create_spec, <- has_code_change_spec.
  unfold Gateway.classify.
  destruct (Gateway.has_create text) eqn:Hc;
    destruct (Gateway.has_code_change text) eqn:Hv; simpl.
  - split; [auto | intros _; eauto].
  - split; [|intros [_ H]; discriminate].
    intros [b H]. repeat match type of H with
                         | (if ?c then _ else _) = _ => destruct c
                         end; discriminate.
  - split; [|intros [H _]; discriminate]. intros [b H]. discriminate.
  - split; [|intros [H _]; discriminate].
    intros [b H]. repeat match type of H with
                         | (if ?c then _ else _) = _ => destruct c
                         end; discriminate.
Qed.

Lemma classify_code_change_iff (text : str) (item_number : option Z) :
  Gateway.classify text item_number = Gateway.CodeChange
  <-> has_verb text /\ ~ create_signal text.
Proof.
  rewrite <- has_create_spec, <- has_code_change_spec.
  unfold Gateway.classify.
  destruct (Gateway.has_create text) eqn:Hc;
    destruct (Gateway.has_code_change text) eqn:Hv; simpl.
  - split; [discriminate | intros [_ H]; now destruct H].
  - split; [|intros [H _]; discriminate].
    intros H. repeat match type of H with
                     | (if ?c then _ else _) = _ => destruct c
                     end; discriminate.
  - split; [intros _; split; [reflexivity | discriminate] | reflexivity].
  - split; [|intros [H _]; discriminate].
    intros H. repeat match type of H with
                     | (if ?c then _ else _) = _ => destruct c
                     end; discriminate.
Qed.

Lemma classify_compound (text : str) (item_number : option Z) :
  has_verb text -> create_signal text ->
  Gateway.classify text item_number =
  Gateway.CompoundCreateAndChange
    (Gateway.extract_new_branch (py "ai-branch-compound") text).
Proof.
  intros Hv Hc. unfold Gateway.classify.
  apply has_create_spec in Hc. apply has_code_change_spec in Hv.
  now rewrite Hc, Hv.
Qed.

(** ** C2 *)

(** C2.  A command text that contains a code-change verb as a bounded
    whole word is classified [CompoundCreateAndChange] when it also carries
    a create-branch signal, whatever else it contains (the compound check
    comes first), and [CodeChange] when it carries none. *)
Theorem C2_compound_before_code_change (text : str) (item_number : option Z) :
  has_verb text ->
  (create_signal text ->
   Gateway.classify text item_number =
   Gateway.CompoundCreateAndChange
     (Gateway.extract_new_branch (py "ai-branch-compound") text))
  /\ (~ create_signal text ->
      Gateway.classify text item_number = Gateway.CodeChange).
Proof.
  intros Hv. split.
  - intros Hc. now apply classify_compound.
  - intros Hn. apply classify_code_change_iff. now split.
Qed.

Lemma C2_witness :
  Gateway.classify
    (py "@pr-agent create test-v1 branch and update services/x.py") (Some 7%Z)
  = Gateway.CompoundCreateAndChange (py "test-v1")
  /\ Gateway.classify (py "@pr-agent update services/x.py") (Some 7%Z)
     = Gateway.CodeChange.
Proof.
  split.
  - refine (eq_trans
      (proj1 (C2_compound_before_code_change
                (py "@pr-agent create test-v1 branch and update services/x.py")
                (Some 7%Z) _) _) _).
    + apply has_code_change_spec. vm_compute. reflexivity.
    + apply has_create_spec. vm_compute. reflexivity.
    + vm_compute. reflexivity.
  - refine (proj2 (C2_compound_before_code_change
                     (py "@pr-agent update services/x.py") (Some 7%Z) _) _).
    + apply has_code_change_spec. vm_compute. reflexivity.
    + intros H. apply has_create_spec in H. vm_compute in H. discriminate.
Defined.

(** ** Running programs *)

Arguments py : simpl never.

Lemma run_bind {A B : Type} (w : world) (p : prog A) (f : A -> prog B)
    (tr : list call) :
  run w (bind p f) tr =
  match run w p tr with
  | (Ok a, tr') => run w (f a) tr'
  | (Err e, tr') => (Err e, tr')
  end.
Proof.
  revert tr; induction p as [a | e | c k IH | k IH]; intros tr; simpl; auto.
Qed.

Lemma run_try_except {A : Type} (w : world) (p : prog A) (h : exn -> prog A)
    (tr : list call) :
  run w (try_except p h) tr =
  match run w p tr with
  | (Ok a, tr') => (Ok a, tr')
  | (Err e, tr') => run w (h e) tr'
  end.
Proof.
  revert tr; induction p as [a | e | c k IH | k IH]; intros tr; simpl; auto.
Qed.

Lemma run_extends {A : Type} (w : world) (p : prog A) (tr : list call) :
  exists ext, snd (run w p tr) = tr ++ ext.
Proof.
  revert tr; induction p as [a | e | c k IH | k IH]; intros tr; simpl.
  - exists []. now rewrite app_nil_r.
  - exists []. now rewrite app_nil_r.
  - destruct (IH (respond w tr c) (tr ++ [c])) as [ext H].
    exists (c :: ext). rewrite H. now rewrite <- app_assoc.
  - apply IH.
Qed.

(** [emits P p]: every call that [p] can make satisfies [P]. *)
Fixpoint emits {A : Type} (P : call -> Prop) (p : prog A) : Prop :=
  match p with
  | Ret _ => True
  | Raise _ => True
  | Do c k => P c /\ forall r, emits P (k r)
  | Now k => forall t, emits P (k t)
  end.

Lemma emits_run {A : Type} (P : call -> Prop) (w : world) (p : prog A)
    (tr : list call) :
  emits P p -> Forall P tr -> Forall P (snd (run w p tr)).
Proof.
  revert tr; induction p as [a | e | c k IH | k IH]; intros tr H F; simpl;
    [assumption | assumption | | apply IH; auto].
  destruct H as [Hc Hk]. apply IH; [apply Hk|].
  apply Forall_app. split; [assumption | now constructor].
Qed.

Lemma emits_trace {A : Type} (P : call -> Prop) (w : world) (p : prog A) :
  emits P p -> Forall P (trace w p).
Proof. intros H. apply emits_run; [assumption | constructor]. Qed.

Lemma emits_bind {A B : Type} (P : call -> Prop) (p : prog A)
    (f : A -> prog B) :
  emits P p -> (forall a, emits P (f a)) -> emits P (bind p f).
Proof.
  intros Hp Hf. induction p as [a | e | c k IH | k IH]; simpl in *; auto.
  destruct Hp as [Hc Hk]. split; auto.
Qed.

Lemma emits_try_except {A : Type} (P : call -> Prop) (p : prog A)
    (h : exn -> prog A) :
  emits P p -> (forall e, emits P (h e)) -> emits P (try_except p h).
Proof.
  intros Hp Hh. induction p as [a | e | c k IH | k IH]; simpl in *; auto.
  destruct Hp as [Hc Hk]. split; auto.
Qed.

Lemma emits_perform (P : call -> Prop) (c : call) :
  P c -> emits P (perform c).
Proof. intros H. simpl. split; [assumption|]. intros [x | e]; exact I. Qed.

(** [oks Q p]: every value that [p] can return satisfies [Q]. *)
Fixpoint oks {A : Type} (Q : A -> Prop) (p : prog A) : Prop :=
  match p with
  | Ret a => Q a
  | Raise _ => True
  | Do c k => forall r, oks Q (k r)
  | Now k => forall t, oks Q (k t)
  end.

Lemma oks_run {A : Type} (Q : A -> Prop) (w : world) (p : prog A)
    (tr : list call) (a : A) :
  oks Q p -> fst (run w p tr) = Ok a -> Q a.
Proof.
  revert tr; induction p as [x | e | c k IH | k IH]; intros tr H E; simpl in *.
  - now injection E as <-.
  - discriminate.
  - eapply IH; [apply H | exact E].
  - eapply IH; [apply H | exact E].
Qed.

Lemma oks_bind {A B : Type} (Q : B -> Prop) (p : prog A) (f : A -> prog B) :
  (forall a, oks Q (f a)) -> oks Q (bind p f).
Proof.
  intros Hf. induction p as [a | e | c k IH | k IH]; simpl; auto.
Qed.

Lemma oks_try_except {A : Type} (Q : A -> Prop) (p : prog A)
    (h : exn -> prog A) :
  oks Q p -> (forall e, oks Q (h e)) -> oks Q (try_except p h).
Proof.
  intros Hp Hh. induction p as [a | e | c k IH | k IH]; simpl in *; auto.
Qed.

(** [total p]: no run of [p] ends in an exception. *)
Fixpoint total {A : Type} (p : prog A) : Prop :=
  match p with
  | Ret _ => True
  | Raise _ => False
  | Do c k => forall r, total (k r)
  | Now k => forall t, total (k t)
  end.

Lemma total_run {A : Type} (w : world) (p : prog A) (tr : list call) :
  total p -> exists a, fst (run w p tr) = Ok a.
Proof.
  revert tr; induction p as [x | e | c k IH | k IH]; intros tr H; simpl in *.
  - now exists x.
  - destruct H.
  - apply IH, H.
  - apply IH, H.
Qed.

Lemma total_try_except {A : Type} (p : prog A) (h : exn -> prog A) :
  (forall e, total (h e)) -> total (try_except p h).
Proof.
  intros Hh. induction p as [a | e | c k IH | k IH]; simpl; auto.
Qed.

(** ** The gateway always acknowledges *)

Definition acknowledges (r : Response) : Prop := statusCode r = 200%Z.

Ltac oks_step :=
  match goal with
  | |- oks _ (bind _ _) => apply oks_bind; intros
  | |- oks _ (try_except _ _) => apply oks_try_except; intros
  | |- oks _ (Ret _) => reflexivity
  | |- oks _ (Raise _) => exact I
  | |- oks _ (match ?x with _ => _ end) => destruct x
  | |- oks _ (if ?x then _ else _) => destruct x
  | |- oks _ (Do _ _) => cbn [oks]; intros
  | |- oks _ (Now _) => cbn [oks]; intros
  | |- oks _ (read_json _) => unfold read_json
  | |- oks _ (read_text _) => unfold read_text
  | |- oks _ (jget_default _ _ _) => unfold jget_default
  | |- oks _ (jget _ _) => unfold jget
  | |- oks _ (jindex _ _) => unfold jindex
  | |- oks _ (as_str _) => unfold as_str
  | |- oks _ (as_list _) => unfold as_list
  end.

Lemma execute_acknowledges (intent : Gateway.Intent) (repo : str)
    (num : option Z) (text sender : str) :
  oks acknowledges (Gateway.execute intent repo num text sender).
Proof.
  destruct intent; unfold Gateway.execute; repeat oks_step.
Qed.

Lemma handle_acknowledges (b : Gateway.Body) :
  oks acknowledges (Gateway.handle b).
Proof.
  unfold Gateway.handle.
  destruct (negb (Gateway.has_repository b)); [reflexivity|].
  destruct (Gateway.ref b) as [ref|];
    destruct (Gateway.has_after b);
    destruct (Gateway.pull_request b) as [pr_data|];
    repeat first [apply execute_acknowledges | oks_step].
Qed.

(** Every invocation of the gateway returns status 200, whatever the event
    and whatever the services answer. *)
Lemma gateway_always_acknowledges (w : world) (event : Gateway.Event) :
  exists r, outcome w (Gateway.lambda_handler event) = Ok r /\ acknowledges r.
Proof.
  unfold outcome.
  assert (T : total (Gateway.lambda_handler event)).
  { apply total_try_except. intros e. exact I. }
  destruct (total_run w _ [] T) as [r Hr]. exists r. split; [assumption|].
  refine (oks_run acknowledges w _ [] r _ Hr).
  apply oks_try_except; [|intros e; reflexivity].
  destruct event; [exact I | apply handle_acknowledges].
Qed.

(** ** C10: a compound command creates its branch first *)

Lemma str_eqb_spec (a b : str) : str_eqb a b = true <-> a = b.
Proof.
  revert b; induction a as [|x a IH]; intros [|y b]; simpl;
    try (split; [discriminate | intros H; discriminate]).
  - split; reflexivity.
  - rewrite andb_true_iff, Ascii.eqb_eq, IH. split.
    + intros [-> ->]. reflexivity.
    + intros H. injection H as -> ->. now split.
Qed.

(** A comment event that mentions the agent: not a push, not one of the
    lifecycle actions that start the automatic analysis. *)
Definition is_mention (b : Gateway.Body) : Prop :=
  Gateway.has_repository b = true
  /\ Gateway.ref b = None
  /\ (forall a, Gateway.action b = Some a ->
                ~ In a [py "opened"; py "synchronize"; py "reopened"])
  /\ occurs (py "@pr-agent") (lower (Gateway.comment_body b)).

Definition item_number_of (b : Gateway.Body) : option Z :=
  Gateway.or_num (Gateway.issue_number b)
    (match Gateway.pull_request b with
     | Some p => Gateway.number p
     | None => None
     end).

Lemma handle_mention (b : Gateway.Body) :
  is_mention b ->
  Gateway.handle b =
  Gateway.execute
    (Gateway.classify (lower (Gateway.comment_body b)) (item_number_of b))
    (Gateway.repo_full_name b) (item_number_of b)
    (lower (Gateway.comment_body b)) (Gateway.comment_login b).
Proof.
  intros [Hr [Href [Ha Hm]]]. unfold Gateway.handle, item_number_of.
  rewrite Hr, Href. simpl.
  apply contains_spec in Hm. rewrite Hm.
  destruct (Gateway.pull_request b) as [pr_data|]; [|reflexivity].
  destruct (Gateway.action b) as [x|]; [|reflexivity].
  assert (N : forall l, In l [py "opened"; py "synchronize"; py "reopened"] ->
                        str_eqb x l = false).
  { intros l Hl. destruct (str_eqb x l) eqn:E; [|reflexivity].
    apply str_eqb_spec in E. subst l. now destruct (Ha x eq_refl). }
  rewrite !N by (simpl; auto). reflexivity.
Qed.

(** A world that accepts every call. *)
Definition accepting (w : world) : Prop :=
  forall tr c, exists r, respond w tr c = Ok r.

(** A world in which every call is accepted with an empty reply, at a fixed
    time. *)
Definition quiet_world : world :=
  World (fun _ _ => Ok RNone) (fun _ => 1700000123%Z).

Lemma quiet_world_accepting : accepting quiet_world.
Proof. intros tr c. now exists RNone. Qed.

(** The compound command of the specification, as a comment on item 7. *)
Definition compound_comment : Gateway.Body :=
  Gateway.MkBody true (py "octo/repo")
    (py "@pr-agent create test-v1 branch and update services/x.py")
    (py "alice") (Some 7%Z) None None false (Some (py "created")).

Lemma compound_comment_is_mention : is_mention compound_comment.
Proof.
  repeat split.
  - intros a H. injection H as <-. simpl. intros [H | [H | [H | []]]];
      discriminate.
  - apply contains_spec. vm_compute. reflexivity.
Qed.

(** ** C7: the controller can raise to its caller *)

(** The executor refuses every invocation (throttling); the host answers
    every request with an empty list. *)
Definition throttled_world : world :=
  World (fun _ c =>
           match c with
           | invoke _ _ _ => Err (Exception (py "TooManyRequestsException"))
           | urlopen _ => Ok (RJson (JArr []))
           end)
        (fun _ => 1700000123%Z).

Definition rejection_event : Brain.Event :=
  Brain.MkEvent (py "octo/repo") (py "7") true None (Some (py "rejected"))
                (Some (py "bob")) false None.

(** C7.  The gateway acknowledges every event with status 200
    ([gateway_always_acknowledges]), but the controller does not: on a
    rejection, when the executor refuses the invocation that posts the
    cancellation comment, the exception leaves [lambda_handler]. *)
Theorem C7_rejection_raises (kb : Brain.KnowledgeBase) :
  run throttled_world (Brain.lambda_handler kb rejection_event) [] =
  (Err (Exception (py "TooManyRequestsException")),
   [Brain.diff_request (py "octo/repo") (py "7");
    GET (Brain.comments_url (py "octo/repo") (py "7"));
    Brain.comment_request (py "octo/repo") (py "7")
      (py "❌ **Request Rejected**" ++ nl ++ nl
       ++ py "The operation has been cancelled by bob." ++ nl ++ nl
       ++ py "**Jira Updated:** N/A")]).
Proof. vm_compute. reflexivity. Qed.

(** ** C1: a failed backend call is read as LOW risk *)


Lemma call_groq_api_failure (w : world) (prompt : str) (tr : list call)
    (e : exn) :
  respond w tr (Brain.groq_request prompt) = Err e ->
  run w (Brain.call_groq_api prompt) tr =
  (Ok (JStr (py "Error calling AI Model: " ++ exn_str e)),
   tr ++ [Brain.groq_request prompt]).
Proof.
  intros H. unfold Brain.call_groq_api. cbn [run bind try_except perform].
  now rewrite H.
Qed.

(** The backend times out; every other call is accepted. *)
Definition timeout_world : world :=
  World (fun _ c =>
           match c with
           | urlopen (Request u _ _ _) =>
               if startswith (py "https://api.groq.com/") u
               then Err (Exception (py "The read operation timed out"))
               else Ok (RText [])
           | invoke _ _ _ => Ok RNone
           end)
        (fun _ => 1700000123%Z).

(** The automatic trigger of the gateway for pull request 42. *)
Definition automatic_event : Brain.Event :=
  Brain.MkEvent (py "octo/repo") (py "42") true
    (Some (py "Context: Automatic Risk Analysis Trigger (Strict Analysis)"))
    None (Some (py "unknown")) true (Some (py "abc123")).

(** C1.  With the backend timing out on an automatic trigger, the
    controller does not pause: the error text is taken as an analysis with
    no risk token, hence LOW; the commit gets a success status and the pull
    request is merged.  No ticket, no notification, no paused comment. *)
Theorem C1_backend_timeout_fails_open (kb : Brain.KnowledgeBase) :
  run timeout_world (Brain.lambda_handler kb automatic_event) [] =
  (Ok (ack_with (py "Low Risk - Executed")),
   [Brain.status_request (py "octo/repo") (py "abc123") (py "pending")
      (py "Analyzing Risk (Gemma 3 12B)...");
    Brain.diff_request (py "octo/repo") (py "42");
    Brain.groq_request
      (Brain.build_system_prompt kb (py "octo/repo") (py "42")
         (py "Context: Automatic Risk Analysis Trigger (Strict Analysis)") []);
    Brain.status_request (py "octo/repo") (py "abc123") (py "success")
      (py "Low Risk - Safe to Merge");
    Brain.merge_request (py "octo/repo") (py "42");
    Brain.comment_request (py "octo/repo") (py "42")
      (py "Error calling AI Model: The read operation timed out" ++ nl ++ nl
       ++ py "✅ **Auto-Merge**: Low Risk. Merging automatically.")]).
Proof. vm_compute. reflexivity. Qed.

(** ** C4: the pause *)

(** Fire-and-forget invocations are accepted. *)
Definition events_delivered (w : world) : Prop :=
  forall tr fn payload, exists r, respond w tr (invoke fn (py "Event") payload) = Ok r.

Lemma pure_run {A : Type} (w : world) (p : prog A) (tr : list call) :
  emits (fun _ => False) p -> snd (run w p tr) = tr.
Proof.
  revert tr; induction p as [a | e | c k IH | k IH]; intros tr H; simpl in *;
    [reflexivity | reflexivity | now destruct H | now apply IH].
Qed.

Ltac emits_step :=
  match goal with
  | |- emits _ (bind _ _) => apply emits_bind; intros
  | |- emits _ (try_except _ _) => apply emits_try_except; intros
  | |- emits _ (Ret _) => exact I
  | |- emits _ (Raise _) => exact I
  | |- emits _ (match ?x with _ => _ end) => destruct x
  | |- emits _ (if ?x then _ else _) => destruct x
  | |- emits _ (read_json _) => unfold read_json
  | |- emits _ (read_text _) => unfold read_text
  | |- emits _ (jget_default _ _ _) => unfold jget_default
  | |- emits _ (jget _ _) => unfold jget
  | |- emits _ (jindex _ _) => unfold jindex
  | |- emits _ (as_str _) => unfold as_str
  | |- emits _ (as_list _) => unfold as_list
  | |- emits _ (Brain.as_opt_str _) => unfold Brain.as_opt_str
  end.

(** A tolerated call leaves one entry in the trace and never fails. *)
Lemma run_attempt (w : world) (c : call) (tr : list call) :
  run w (attempt (perform c ;;; Ret tt)) tr = (Ok tt, tr ++ [c]).
Proof.
  unfold attempt. cbn [run bind try_except perform].
  destruct (respond w tr c); reflexivity.
Qed.

(** A guarded call followed by pure steps: one entry in the trace, some
    value back. *)
Lemma run_guarded {A : Type} (w : world) (c : call)
    (k : reply -> prog A) (d : A) (tr : list call) :
  (forall r, emits (fun _ => False) (k r)) ->
  exists a,
    run w (try_except (r <- perform c ;; k r) (fun _ => Ret d)) tr
    = (Ok a, tr ++ [c]).
Proof.
  intros Hk.
  set (p := try_except (r <- perform c ;; k r) (fun _ => Ret d)).
  assert (T : total p) by (apply total_try_except; intros e; exact I).
  destruct (total_run w p tr T) as [a Ha]. exists a.
  destruct (run w p tr) as [res tr'] eqn:E. simpl in Ha. subst res. f_equal.
  assert (S : snd (run w p tr) = tr ++ [c]).
  { unfold p. cbn [run bind try_except perform].
    destruct (respond w tr c) as [x | e]; cbn [bind try_except].
    - apply pure_run. apply emits_try_except; [apply Hk | intros e; exact I].
    - reflexivity. }
  now rewrite E in S.
Qed.

Lemma set_commit_status_run (w : world) (repo state description : str)
    (c : ascii) (sha : str) (tr : list call) :
  run w (Brain.set_commit_status repo (Some (c :: sha)) state description) tr
  = (Ok tt, tr ++ [Brain.status_request repo (c :: sha) state description]).
Proof. apply run_attempt. Qed.

Lemma update_pr_state_run (w : world) (repo pr state : str) (tr : list call) :
  run w (Brain.update_pr_state repo pr state) tr
  = (Ok tt, tr ++ [Brain.pr_state_request repo pr state]).
Proof. apply run_attempt. Qed.

(** The calls that block the merge, made only when a commit is known. *)
Definition gate_calls (repo pr_num : str) (commit_sha : option str) : list call :=
  match commit_sha with
  | Some (c :: sha) =>
      [Brain.status_request repo (c :: sha) (py "failure")
         (py "High Risk - Approval Required");
       Brain.pr_state_request repo pr_num (py "closed")]
  | _ => []
  end.

(** The whole pause, for the ticket id that the run settles on. *)
Definition pause_calls (user_msg repo pr_num analysis risk_level : str)
    (commit_sha : option str) (ticket_id : str) : list call :=
  let params_json :=
    Brain.encode_params (Brain.token user_msg ticket_id repo pr_num commit_sha) in
  gate_calls repo pr_num commit_sha
  ++ [Brain.create_ticket_request repo pr_num risk_level analysis;
      Brain.approval_email repo pr_num risk_level analysis params_json;
      Brain.comment_request repo pr_num
        (Brain.risk_report ticket_id analysis params_json)].

Lemma pause_run (w : world)
    (user_msg repo pr_num analysis risk_level : str)
    (commit_sha : option str) (tr : list call) :
  events_delivered w ->
  exists ticket_id,
    run w (Brain.trigger_high_risk_approval_smart user_msg repo pr_num analysis
             risk_level commit_sha) tr
    = (Ok (ack_with (py "High Risk Approval Flow Triggered")),
       tr ++ pause_calls user_msg repo pr_num analysis risk_level commit_sha
                         ticket_id).
Proof.
  intros Hd. unfold Brain.trigger_high_risk_approval_smart, pause_calls.
  rewrite run_bind.
  assert (G : run w (if truthy commit_sha
                     then Brain.set_commit_status repo commit_sha (py "failure")
                            (py "High Risk - Approval Required") ;;;
                          Brain.update_pr_state repo pr_num (py "closed")
                     else Ret tt) tr
              = (Ok tt, tr ++ gate_calls repo pr_num commit_sha)).
  { destruct commit_sha as [[|c sha]|]; simpl;
      try (now rewrite app_nil_r).
    change (run w (Brain.set_commit_status repo (Some (c :: sha)) (py "failure")
                     (py "High Risk - Approval Required") ;;;
                   Brain.update_pr_state repo pr_num (py "closed")) tr
            = (Ok tt, tr ++ gate_calls repo pr_num (Some (c :: sha)))).
    rewrite run_bind, set_commit_status_run, update_pr_state_run.
    simpl. now rewrite <- app_assoc. }
  rewrite G. cbn [run]. rewrite run_bind.
  set (tr1 := tr ++ gate_calls repo pr_num commit_sha).
  set (ticket0 := py "SCRUM-" ++ str_of_Z (clock w tr1 mod 1000)).
  match goal with
  | |- context [run w (try_except (bind (perform ?c) ?k) ?h) tr1] =>
      destruct (run_guarded w c k ticket0 tr1) as [ticket_id Ht];
        [intros r; repeat emits_step|];
      exists ticket_id;
      replace (run w (try_except (bind (perform c) k) h) tr1)
        with (Ok ticket_id, tr1 ++ [c]) by (symmetry; exact Ht)
  end.
  rewrite run_bind. cbn [run perform].
  match goal with
  | |- context [respond w ?t (Brain.approval_email ?a ?b ?c ?d ?e)] =>
      destruct (Hd t (py "PR-Agent-GitHub-Writer")
                  (match Brain.approval_email a b c d e with
                   | invoke _ _ p => p
                   | _ => JNull
                   end)) as [r1 Hr1];
      change (respond w t (Brain.approval_email a b c d e) = Ok r1) in Hr1;
      rewrite Hr1
  end.
  cbn [run]. rewrite run_bind. unfold Brain.post_github_comment.
  cbn [run bind perform].
  match goal with
  | |- context [respond w ?t (Brain.comment_request ?a ?b ?c)] =>
      destruct (Hd t (py "PR-Agent-GitHub-Writer")
                  (match Brain.comment_request a b c with
                   | invoke _ _ p => p
                   | _ => JNull
                   end)) as [r2 Hr2];
      change (respond w t (Brain.comment_request a b c) = Ok r2) in Hr2;
      rewrite Hr2
  end.
  cbn [run]. f_equal. unfold tr1. now rewrite <- !app_assoc.
Qed.

Lemma quiet_world_delivers : events_delivered quiet_world.
Proof. intros tr fn payload. now exists RNone. Qed.

(** The routing of lines 106-111: a HIGH or MEDIUM verdict of the backend
    leads to the pause. *)
Lemma analyze_pauses (kb : Brain.KnowledgeBase) (w : world)
    (event : Brain.Event) (user_msg pr_diff analysis : str) (tr : list call) :
  events_delivered w ->
  let prompt :=
    Brain.build_system_prompt kb (Brain.repo_full_name event)
      (Brain.pr_number event) user_msg pr_diff in
  run w (Brain.call_groq_api prompt) tr
  = (Ok (JStr analysis), tr ++ [Brain.groq_request prompt]) ->
  In (Brain.extract_risk_level analysis) [py "HIGH"; py "MEDIUM"] ->
  exists ticket_id,
    run w (Brain.analyze kb event user_msg pr_diff) tr
    = (Ok (ack_with (py "High Risk Approval Flow Triggered")),
       tr ++ Brain.groq_request prompt
          :: pause_calls user_msg (Brain.repo_full_name event)
               (Brain.pr_number event) analysis
               (Brain.extract_risk_level analysis) (Brain.commit_sha event)
               ticket_id).
Proof.
  intros Hd prompt Hg Hl. unfold Brain.analyze. fold prompt.
  rewrite run_try_except, run_bind, Hg. cbn [searched_text bind].
  assert (E : existsb (str_eqb (Brain.extract_risk_level analysis))
                      [py "HIGH"; py "MEDIUM"] = true).
  { apply existsb_exists. exists (Brain.extract_risk_level analysis).
    split; [assumption | now apply str_eqb_spec]. }
  rewrite E.
  destruct (pause_run w user_msg (Brain.repo_full_name event)
              (Brain.pr_number event) analysis
              (Brain.extract_risk_level analysis) (Brain.commit_sha event)
              (tr ++ [Brain.groq_request prompt]) Hd) as [ticket_id Ht].
  exists ticket_id. rewrite Ht. now rewrite <- app_assoc.
Qed.

(** C4, as stated, at a manual mention (no commit sha) with a HIGH verdict:
    the run does not make the five calls of the claim, because the failure
    status and the closing of the pull request are skipped. *)
Lemma C4_counterexample :
  ~ exists sha ticket_id params_json,
      trace quiet_world
        (Brain.trigger_high_risk_approval_smart
           (py "update services/x.py") (py "octo/repo") (py "7")
           (py "RISK LEVEL: HIGH") (py "HIGH") None)
      = [Brain.status_request (py "octo/repo") sha (py "failure")
           (py "High Risk - Approval Required");
         Brain.pr_state_request (py "octo/repo") (py "7") (py "closed");
         Brain.create_ticket_request (py "octo/repo") (py "7") (py "HIGH")
           (py "RISK LEVEL: HIGH");
         Brain.approval_email (py "octo/repo") (py "7") (py "HIGH")
           (py "RISK LEVEL: HIGH") params_json;
         Brain.comment_request (py "octo/repo") (py "7")
           (Brain.risk_report ticket_id (py "RISK LEVEL: HIGH") params_json)].
Proof.
  intros [sha [ticket_id [params_json H]]].
  apply (f_equal (@length call)) in H. vm_compute in H. discriminate.
Qed.

(** C4, amended.  When the fire-and-forget invocations are accepted, the
    pause makes exactly these calls, in this order: if the commit sha of
    the event is known, a failure status on the commit and the closing of
    the pull request ([gate_calls]; nothing without a sha); then one ticket
    request, one approval notification and one paused-status comment, the
    last two carrying the same freshly encoded token; and it returns
    status 200. *)
Theorem C4_pause_calls (w : world)
    (user_msg repo pr_num analysis risk_level : str)
    (commit_sha : option str) :
  events_delivered w ->
  exists ticket_id,
    run w (Brain.trigger_high_risk_approval_smart user_msg repo pr_num analysis
             risk_level commit_sha) []
    = (Ok (ack_with (py "High Risk Approval Flow Triggered")),
       pause_calls user_msg repo pr_num analysis risk_level commit_sha
                   ticket_id).
Proof.
  intros Hd.
  destruct (pause_run w user_msg repo pr_num analysis risk_level commit_sha []
              Hd) as [ticket_id H].
  now exists ticket_id.
Qed.

Lemma C4_witness :
  exists ticket_id,
    run quiet_world
      (Brain.trigger_high_risk_approval_smart
         (py "update services/x.py") (py "octo/repo") (py "7")
         (py "RISK LEVEL: HIGH") (py "HIGH") (Some (py "abc123"))) []
    = (Ok (ack_with (py "High Risk Approval Flow Triggered")),
       pause_calls (py "update services/x.py") (py "octo/repo") (py "7")
         (py "RISK LEVEL: HIGH") (py "HIGH") (Some (py "abc123")) ticket_id).
Proof.
  apply (C4_pause_calls quiet_world). exact quiet_world_delivers.
Defined.

(** ** C5: the branches kept by a bulk delete *)

Lemma delete_ref_inj (repo a b : str) :
  Writer.delete_ref repo a = Writer.delete_ref repo b -> a = b.
Proof.
  intros H.
  assert (U := f_equal (fun c => match c with
                                 | urlopen r => url r
                                 | _ => []
                                 end) H).
  cbv beta iota delta [Writer.delete_ref url github] in U.
  now repeat apply app_inv_head in U.
Qed.

Lemma delete_loop_emits (repo : str) (keep : gset str) (all_refs : list json)
    (deleted_names : list str) :
  emits (fun c => forall name, c = Writer.delete_ref repo name ->
                               lower name ∉ keep)
        (Writer.delete_loop repo keep all_refs deleted_names).
Proof.
  revert deleted_names; induction all_refs as [|ref more IH];
    intros deleted_names; simpl; [exact I|].
  apply emits_bind; [repeat emits_step | intros r].
  apply emits_bind; [repeat emits_step | intros name].
  destruct (bool_decide _) eqn:E; [apply IH|].
  simpl. split.
  - intros name' Heq. apply delete_ref_inj in Heq. subst name'.
    now apply bool_decide_eq_false in E.
  - intros [x | e]; apply IH.
Qed.

Lemma delete_all_branches_emits (repo : str) (keep : list str)
    (pr_number : option str) :
  emits (fun c => forall name, c = Writer.delete_ref repo name ->
                               lower name ∉ Writer.keep_set keep)
        (Writer.delete_all_branches repo keep pr_number).
Proof.
  unfold Writer.delete_all_branches.
  apply emits_try_except; [|intros e; exact I].
  apply emits_bind; [|intros res].
  { apply emits_perform. intros name H. discriminate. }
  apply emits_bind; [repeat emits_step | intros j].
  apply emits_bind; [repeat emits_step | intros all_refs].
  apply emits_bind; [apply delete_loop_emits | intros deleted_names].
  apply emits_bind; [|intros u; exact I].
  destruct (_ && _); [|exact I].
  apply emits_bind; [|intros u; exact I].
  apply emits_perform. intros name H. discriminate.
Qed.


(** The ["function"] field of an invocation payload. *)
Definition function_of (c : call) : str :=
  match c with
  | invoke _ _ (JObj fields) =>
      match jfind (py "function") fields None with
      | Some (JStr f) => f
      | _ => []
      end
  | _ => []
  end.

Definition deleted_branch_of (c : call) : str :=
  match c with
  | invoke _ _ (JObj [_; _; _; (_, JObj [(_, JStr name)])]) => name
  | _ => []
  end.

Lemma delete_branches_emits (repo : str) (names : list str) (n : N) :
  ~ In (py "main") names ->
  emits (fun c => c <> Brain.delete_branch_request repo (py "main"))
        (Brain.delete_branches repo names n).
Proof.
  revert n; induction names as [|b more IH]; intros n Hn; simpl; [exact I|].
  split.
  - intros H. apply (f_equal deleted_branch_of) in H. simpl in H.
    apply Hn. now left.
  - intros [x | e]; apply IH; intros H; apply Hn; now right.
Qed.

Lemma post_github_comment_emits (repo pr_num text : str) (P : call -> Prop) :
  P (Brain.comment_request repo pr_num text) ->
  emits P (Brain.post_github_comment repo pr_num text).
Proof.
  intros H. unfold Brain.post_github_comment.
  apply emits_bind; [now apply emits_perform | intros u; exact I].
Qed.

Lemma comment_is_not_delete (repo pr_num text repo' name : str) :
  Brain.comment_request repo pr_num text
  <> Brain.delete_branch_request repo' name.
Proof.
  intros H. apply (f_equal function_of) in H. vm_compute in H. discriminate.
Qed.

Lemma bulk_delete_keeps_main (repo pr_num : str) :
  emits (fun c => c <> Brain.delete_branch_request repo (py "main"))
        (Brain.bulk_delete repo pr_num).
Proof.
  unfold Brain.bulk_delete.
  apply emits_try_except.
  - apply emits_bind; [|intros res].
    { apply emits_perform. discriminate. }
    apply emits_bind; [repeat emits_step | intros j].
    apply emits_bind; [repeat emits_step | intros branches].
    apply emits_bind; [|intros names].
    { clear. induction branches as [|b more IH]; simpl; [exact I|].
      apply emits_bind; [repeat emits_step | intros name].
      apply emits_bind; [repeat emits_step | intros name'].
      apply emits_bind; [apply IH | intros names; exact I]. }
    destruct (filter _ names) as [|b bs] eqn:F.
    + apply emits_bind; [|intros u; exact I].
      apply post_github_comment_emits, comment_is_not_delete.
    + apply emits_bind; [|intros n].
      * apply delete_branches_emits. rewrite <- F. intros H.
        apply filter_In in H. destruct H as [_ H].
        now rewrite (proj2 (str_eqb_spec _ _) eq_refl) in H.
      * apply emits_bind; [|intros u; exact I].
        apply post_github_comment_emits, comment_is_not_delete.
  - intros e. apply emits_bind; [|intros u; exact I].
    apply post_github_comment_emits, comment_is_not_delete.
Qed.

(** The repository has the branches main, master and dev; every call is
    accepted. *)
Definition three_branches_world : world :=
  World (fun _ c =>
           match c with
           | urlopen _ =>
               Ok (RJson (JArr [JObj [(py "name", JStr (py "main"))];
                                JObj [(py "name", JStr (py "master"))];
                                JObj [(py "name", JStr (py "dev"))]]))
           | invoke _ _ _ => Ok RNone
           end)
        (fun _ => 1700000123%Z).

(** On the path of the gateway and the executor the kept branches always
    include main and master: the list that the gateway sends starts with
    them, the executor adds them to the set it builds from any list, and
    it deletes no ref whose lowercased name is in that set. *)
Lemma executor_path_keeps_main_and_master :
  (forall text,
     In (py "main") (Gateway.keep_branches text)
     /\ In (py "master") (Gateway.keep_branches text))
  /\ (forall keep,
        py "main" ∈ Writer.keep_set keep /\ py "master" ∈ Writer.keep_set keep)
  /\ (forall w repo keep pr_number name,
        lower name ∈ Writer.keep_set keep ->
        ~ In (Writer.delete_ref repo name)
             (trace w (Writer.delete_all_branches repo keep pr_number))).
Proof.
  repeat split.
  - unfold Gateway.keep_branches. simpl. now left.
  - unfold Gateway.keep_branches. simpl. right. now left.
  - unfold Writer.keep_set. set_solver.
  - unfold Writer.keep_set. set_solver.
  - intros w repo keep pr_number name Hk Hin.
    pose proof (emits_trace _ w _ (delete_all_branches_emits repo keep pr_number))
      as F.
    rewrite Forall_forall in F. exact (F _ Hin name eq_refl Hk).
Qed.

(** A bulk delete asked for together with a fix, as a comment on item 7,
    and the event that the gateway sends to the controller for it. *)
Definition bulk_delete_comment : Gateway.Body :=
  Gateway.MkBody true (py "octo/repo")
    (py "@pr-agent delete all branches except main and fix the build")
    (py "alice") (Some 7%Z) None None false (Some (py "created")).

Definition bulk_delete_event : Brain.Event :=
  Brain.MkEvent (py "octo/repo") (py "7") true None
    (Some (py "@pr-agent delete all branches except main and fix the build"))
    (Some (py "alice")) false None.

(** C5.  The bulk delete of the controller does not keep master.  On the
    path of the gateway and the executor main and master are kept whatever
    the exception list is.  But a bulk delete that comes with a code-change
    verb is handed by the gateway to the controller, whose own bulk delete
    runs before any analysis and filters the branch list by the name main
    alone: with the branches main, master and dev on the host, master is
    deleted. *)
Theorem C5_controller_bulk_delete_deletes_master (kb : Brain.KnowledgeBase) :
  ((forall text,
      In (py "main") (Gateway.keep_branches text)
      /\ In (py "master") (Gateway.keep_branches text))
   /\ (forall keep,
         py "main" ∈ Writer.keep_set keep
         /\ py "master" ∈ Writer.keep_set keep)
   /\ (forall w repo keep pr_number name,
         lower name ∈ Writer.keep_set keep ->
         ~ In (Writer.delete_ref repo name)
              (trace w (Writer.delete_all_branches repo keep pr_number))))
  /\ trace quiet_world
       (Gateway.lambda_handler (Gateway.Parsed bulk_delete_comment))
     = [Gateway.comment_request (py "octo/repo") (Some 7%Z)
          (py "⏳ **Analyzing Risk with Gemini 2.0...**");
        Gateway.brain_request
          (Gateway.mention_payload (py "octo/repo") (Some 7%Z)
             (py "@pr-agent delete all branches except main and fix the build")
             (py "alice"))]
  /\ run three_branches_world (Brain.lambda_handler kb bulk_delete_event) []
     = (Ok (ack_with (py "Deleted 2 branches")),
        [Brain.diff_request (py "octo/repo") (py "7");
         urlopen (Request (github (py "octo/repo/branches")) (py "GET")
                    (Some (py "application/vnd.github.v3+json")) None);
         Brain.delete_branch_request (py "octo/repo") (py "master");
         Brain.delete_branch_request (py "octo/repo") (py "dev");
         Brain.comment_request (py "octo/repo") (py "7")
           (py "✅ **Bulk Deletion Complete**" ++ nl ++ nl
            ++ py "Deleted 2 branches:" ++ nl
            ++ py "- `master`" ++ nl ++ py "- `dev`" ++ nl ++ nl
            ++ py "`main` branch preserved.")]).
Proof.
  split; [exact executor_path_keeps_main_and_master|].
  split; vm_compute; reflexivity.
Qed.

(** ** C6: whole-word matching in the two decision trees *)

(** A literal under [re.IGNORECASE] consumes a text of the same length that
    agrees with it up to case. *)
Fixpoint ci_strip (w rst : str) : option (str * str) :=
  match w, rst with
  | [], _ => Some ([], rst)
  | a :: w', c :: rst' =>
      if is_char_ci a c
      then match ci_strip w' rst' with
           | Some (v, t) => Some (c :: v, t)
           | None => None
           end
      else None
  | _ :: _, [] => None
  end.

Lemma ci_strip_spec (w rst v t : str) :
  ci_strip w rst = Some (v, t) <-> rst = v ++ t /\ lower v = lower w.
Proof.
  revert rst v t; induction w as [|a w IH]; intros rst v t; simpl.
  - split.
    + intros H. injection H as <- <-. now split.
    + intros [-> H]. destruct v; [reflexivity | discriminate].
  - destruct rst as [|c rst].
    + split; [discriminate|]. intros [H1 H2].
      destruct v; [discriminate | discriminate].
    + unfold is_char_ci.
      destruct (Ascii.eqb (lower_char a) (lower_char c)) eqn:E.
      * apply Ascii.eqb_eq in E.
        destruct (ci_strip w rst) as [[v' t']|] eqn:S.
        -- apply IH in S. destruct S as [-> S2]. split.
           ++ intros H. injection H as <- <-. simpl. split; [reflexivity|].
              now rewrite S2, E.
           ++ intros [H1 H2]. destruct v as [|x v]; [discriminate|].
              simpl in H1, H2. injection H1 as <- H1. injection H2 as _ H2.
              assert (S : ci_strip w (v' ++ t') = Some (v, t)).
              { apply IH. split; [assumption|assumption]. }
              assert (S' : ci_strip w (v' ++ t') = Some (v', t')).
              { apply IH. split; [reflexivity|assumption]. }
              rewrite S in S'. now injection S' as -> ->.
        -- split; [discriminate|]. intros [H1 H2].
           destruct v as [|x v]; [discriminate|].
           simpl in H1, H2. injection H1 as <- H1. injection H2 as _ H2.
           assert (S' : ci_strip w rst = Some (v, t)) by (apply IH; now split).
           now rewrite S in S'.
      * split; [discriminate|]. intros [H1 H2].
        destruct v as [|x v]; [discriminate|].
        simpl in H1, H2. injection H1 as <- H1. injection H2 as H2 _.
        rewrite H2, Ascii.eqb_refl in E. discriminate.
Qed.

Lemma m_lit_ci (w : str) (bef rst : str) (cs : list (nat * str))
    (k : mstate -> option mstate) :
  m (lit_ci w) (MState bef rst cs) k =
  match ci_strip w rst with
  | Some (v, t) => k (MState (rev v ++ bef) t cs)
  | None => None
  end.
Proof.
  revert bef rst; induction w as [|a w IH]; intros bef rst; simpl.
  - reflexivity.
  - destruct rst as [|c rst]; simpl; [reflexivity|].
    destruct (is_char_ci a c); [|reflexivity].
    rewrite IH. destruct (ci_strip w rst) as [[v t]|]; [|reflexivity].
    simpl. now rewrite <- app_assoc.
Qed.

Lemma lower_char_word (c : ascii) : is_word (lower_char c) = is_word c.
Proof. destruct c as [[] [] [] [] [] [] [] []]; reflexivity. Qed.

(** The text before an occurrence ends at a word boundary when it is empty
    or ends in a character that is not a word character. *)
Definition word_start (pre : str) : Prop :=
  pre = [] \/ exists p c, pre = p ++ [c] /\ is_word c = false.

(** The reading of the controller: the verb in any case, a word boundary
    before it, whitespace or the end after it. *)
Definition keyword_at_word_start (keyword text : str) : Prop :=
  exists pre w post,
    text = pre ++ w ++ post /\ lower w = keyword
    /\ word_start pre /\ bounded_right post.

Lemma word_start_spec (a : str) :
  word_at (hd_error (rev a)) = false <-> word_start a.
Proof.
  unfold word_start. destruct a as [|x a] using rev_ind.
  - simpl. split; auto.
  - rewrite rev_app_distr. simpl. split.
    + intros H. right. now exists a, x.
    + intros [H | [p [c [H1 H2]]]].
      * now destruct a.
      * apply app_inj_tail in H1. destruct H1 as [_ ->]. exact H2.
Qed.

(** The verbs are lowercase words. *)
Definition lowercase_word (keyword : str) : Prop :=
  lower keyword = keyword
  /\ exists c rest, keyword = c :: rest /\ is_word c = true.

Lemma keywords_lowercase (keyword : str) :
  In keyword code_change_keywords -> lowercase_word keyword.
Proof.
  intros H. simpl in H.
  repeat (destruct H as [<- | H];
          [split; [reflexivity | eexists; eexists; split; reflexivity]|]).
  destruct H.
Qed.

Lemma bypass_keyword_here_spec (keyword bef rst : str) :
  lowercase_word keyword ->
  found (match_here (Brain.bypass_keyword_re keyword) bef rst) = true <->
  word_at (hd_error bef) = false
  /\ exists v post, rst = v ++ post /\ lower v = keyword /\ bounded_right post.
Proof.
  intros [Hl [c0 [kw' [Hk Hw]]]].
  unfold match_here, Brain.bypass_keyword_re.
  change (m (rseq [Wordb; lit_ci keyword; Alt (Chr is_space) Eol])
            (MState bef rst []) (fun st => Some st))
    with (m Wordb (MState bef rst [])
            (fun st1 => m (lit_ci keyword) st1
               (fun st2 => m (Alt (Chr is_space) Eol) st2 (fun st => Some st)))).
  set (K2 := fun st2 => m (Alt (Chr is_space) Eol) st2 (fun st => Some st)).
  cbn [m]. unfold at_wordb. cbn [before rest].
  rewrite m_lit_ci. subst K2. cbv beta.
  destruct (ci_strip keyword rst) as [[v t]|] eqn:S.
  - apply ci_strip_spec in S. destruct S as [-> S]. rewrite Hl in S.
    assert (Hv : word_at (hd_error (v ++ t)) = true).
    { destruct v as [|x v]; [now rewrite Hk in S|].
      rewrite Hk in S. simpl in S. injection S as S _.
      simpl. now rewrite <- lower_char_word, S. }
    rewrite Hv. destruct (word_at (hd_error bef)); cbn [xorb found].
    + split; [discriminate | intros [H _]; discriminate].
    + rewrite right_edge_spec. split.
      * intros H. split; [reflexivity|]. now exists v, t.
      * intros [_ [v' [post [H1 [H2 H3]]]]].
        assert (A : ci_strip keyword (v ++ t) = Some (v, t)).
        { apply ci_strip_spec. now rewrite Hl. }
        assert (B : ci_strip keyword (v ++ t) = Some (v', post)).
        { apply ci_strip_spec. now rewrite Hl. }
        rewrite A in B. now injection B as -> ->.
  - assert (N : ~ exists v post,
                  rst = v ++ post /\ lower v = keyword /\ bounded_right post).
    { intros [v [post [H1 [H2 H3]]]].
      assert (B : ci_strip keyword rst = Some (v, post)).
      { apply ci_strip_spec. now rewrite Hl. }
      now rewrite S in B. }
    destruct (xorb _ _); simpl;
      (split; [discriminate | intros [_ H]; now destruct N]).
Qed.

Lemma bypass_keyword_search_spec (keyword text : str) :
  lowercase_word keyword ->
  found (search (Brain.bypass_keyword_re keyword) text) = true
  <-> keyword_at_word_start keyword text.
Proof.
  intros Hk. rewrite search_found. unfold keyword_at_word_start. split.
  - intros [a [b [-> F]]].
    apply (bypass_keyword_here_spec keyword (rev a) b Hk) in F.
    destruct F as [Hb [v [post [-> [Hv Hp]]]]].
    exists a, v, post. repeat split; auto. now apply word_start_spec.
  - intros [pre [w [post [-> [Hw [Hs Hp]]]]]].
    exists pre, (w ++ post). split; [reflexivity|].
    apply (bypass_keyword_here_spec keyword (rev pre) (w ++ post) Hk).
    split; [now apply word_start_spec | now exists w, post].
Qed.

(** The loop of lines 801-805 of the controller holds exactly for the
    messages with a verb at a word boundary. *)
Lemma has_code_change_keyword_spec (user_msg : str) :
  Brain.has_code_change_keyword user_msg = true <->
  exists keyword,
    In keyword code_change_keywords /\ keyword_at_word_start keyword user_msg.
Proof.
  unfold Brain.has_code_change_keyword. rewrite existsb_exists.
  split; intros [k [H1 H2]]; exists k; split; auto;
    now apply (bypass_keyword_search_spec k user_msg (keywords_lowercase k H1)).
Qed.

(** In the gateway a verb counts only between whitespace (or the ends of
    the text): a text without such an occurrence is classified neither
    [CodeChange] nor [CompoundCreateAndChange]. *)
Lemma gateway_whole_word_matching (text : str) (item_number : option Z) :
  ~ has_verb text ->
  Gateway.classify text item_number <> Gateway.CodeChange
  /\ forall branch,
       Gateway.classify text item_number
       <> Gateway.CompoundCreateAndChange branch.
Proof.
  intros Hn. split.
  - intros H. apply classify_code_change_iff in H. now destruct H.
  - intros branch H.
    assert (E : exists b, Gateway.classify text item_number
                          = Gateway.CompoundCreateAndChange b)
      by now exists branch.
    apply classify_compound_iff in E. now destruct E.
Qed.

(** C6.  The check of the controller takes a verb inside a branch name for
    a code change.  In the gateway a verb counts only between whitespace:
    "create branch hot-fix" has no such verb and is a plain create there.
    The controller asks for a word boundary before the verb only, and "-"
    is one: it finds the verb "fix" in "hot-fix" and leaves its fast path,
    where the name "branchfix-1" of its own comment goes through and is
    created. *)
Theorem C6_controller_matches_verb_in_name :
  (forall text item_number,
     ~ has_verb text ->
     Gateway.classify text item_number <> Gateway.CodeChange
     /\ forall branch,
          Gateway.classify text item_number
          <> Gateway.CompoundCreateAndChange branch)
  /\ ~ has_verb (py "create branch hot-fix")
  /\ Gateway.classify (py "@pr-agent create branch hot-fix") (Some 7%Z)
     = Gateway.CreateBranch (py "hot-fix")
  /\ Brain.has_code_change_keyword (py "create branch hot-fix") = true
  /\ run quiet_world
       (Brain.try_bypass_commands (py "create branch hot-fix") (py "octo/repo")
          (py "7")) []
     = (Ok None, [])
  /\ run quiet_world
       (Brain.try_bypass_commands (py "create branch branchfix-1")
          (py "octo/repo") (py "7")) []
     = (Ok (Some (ack_with (py "Low Risk Success"))),
        [Brain.writer (py "Event") (JObj
           [(py "actionGroup", JStr (py "GitHubManagement"));
            (py "function", JStr (py "create_branch"));
            (py "repo_full_name", JStr (py "octo/repo"));
            (py "parameters", JObj
               [(py "branch_name", JStr (py "branchfix-1"));
                (py "base_branch", JStr (py "main"))])]);
         Brain.comment_request (py "octo/repo") (py "7")
           (py "✅ **Low Risk Action:** Branch `branchfix-1` created successfully."
            ++ nl ++ py "No risk analysis required.")]).
Proof.
  split; [exact gateway_whole_word_matching|].
  split.
  { intros H. apply has_code_change_spec in H. vm_compute in H. discriminate. }
  repeat split; vm_compute; reflexivity.
Qed.

(** ** C8: the branch on resume *)

(** A call that is refused, or accepted, whenever it is made. *)
Definition fails (w : world) (c : call) : Prop :=
  forall tr, exists e, respond w tr c = Err e.

Definition succeeds (w : world) (c : call) : Prop :=
  forall tr, exists r, respond w tr c = Ok r.

Definition probes (repo : str) (names : list str) : list call :=
  map (fun name => GET (Brain.branch_url repo name)) names.

Lemma probe_none (w : world) (repo : str) (names : list str) (tr : list call) :
  (forall x, In x names -> fails w (GET (Brain.branch_url repo x))) ->
  run w (Brain.probe repo names) tr = (Ok None, tr ++ probes repo names).
Proof.
  revert tr; induction names as [|b more IH]; intros tr H; simpl.
  - now rewrite app_nil_r.
  - destruct (H b (or_introl eq_refl) tr) as [e ->].
    rewrite IH by (intros x Hx; apply H; now right).
    now rewrite <- app_assoc.
Qed.

Lemma probe_finds (w : world) (repo : str) (earlier : list str) (b : str)
    (later : list str) (tr : list call) :
  (forall x, In x earlier -> fails w (GET (Brain.branch_url repo x))) ->
  succeeds w (GET (Brain.branch_url repo b)) ->
  run w (Brain.probe repo (earlier ++ b :: later)) tr
  = (Ok (Some b), tr ++ probes repo (earlier ++ [b])).
Proof.
  revert tr; induction earlier as [|x earlier IH]; intros tr H Hb; simpl.
  - destruct (Hb tr) as [r ->]. reflexivity.
  - destruct (H x (or_introl eq_refl) tr) as [e ->].
    rewrite IH by (try assumption; intros y Hy; apply H; now right).
    now rewrite <- app_assoc.
Qed.

(** The reply of the host for a pull request, as far as the handler reads
    it. *)
Definition shows_pull_request (pr_data : json) (branch title : str) : Prop :=
  exists fields head,
    pr_data = JObj fields
    /\ jfind (py "head") fields None = Some (JObj head)
    /\ jfind (py "ref") head None = Some (JStr branch)
    /\ jfind (py "title") fields None = Some (JStr title).

Lemma find_branch_head (w : world) (repo pr_num : str) (tr : list call)
    (pr_data : json) (branch title : str) :
  respond w tr (GET (Brain.pr_url repo pr_num)) = Ok (RJson pr_data) ->
  shows_pull_request pr_data branch title ->
  run w (Brain.find_branch repo pr_num) tr
  = (Ok (Some branch, title), tr ++ [GET (Brain.pr_url repo pr_num)]).
Proof.
  intros Hr [fields [head [-> [Hh [Href Ht]]]]].
  unfold Brain.find_branch. cbn [run bind try_except perform].
  rewrite Hr. cbn [run bind try_except read_json jindex].
  rewrite Hh. cbn [run bind try_except jindex]. rewrite Href.
  cbn [run bind try_except Brain.as_opt_str jget_default jget].
  rewrite Ht. reflexivity.
Qed.

Lemma find_branch_probes (w : world) (repo pr_num : str) (tr : list call) :
  fails w (GET (Brain.pr_url repo pr_num)) ->
  run w (Brain.find_branch repo pr_num) tr
  = match run w (Brain.probe repo Brain.candidates)
                (tr ++ [GET (Brain.pr_url repo pr_num)]) with
    | (Ok branch_name, tr') => (Ok (branch_name, []), tr')
    | (Err e, tr') => (Err e, tr')
    end.
Proof.
  intros Hf. unfold Brain.find_branch. cbn [run bind try_except perform].
  destruct (Hf tr) as [e ->]. cbn [run bind try_except].
  rewrite run_bind. destruct (run w (Brain.probe repo Brain.candidates) _)
    as [[b | e'] tr']; reflexivity.
Qed.

Lemma run_first_call {A : Type} (w : world) (c : call)
    (k : result reply -> prog A) (tr : list call) :
  exists rest, snd (run w (Do c k) tr) = tr ++ c :: rest.
Proof.
  cbn [run]. destruct (run_extends w (k (respond w tr c)) (tr ++ [c]))
    as [ext E].
  exists ext. rewrite E. now rewrite <- app_assoc.
Qed.

(** The target of the file update: the first call of [apply_update] reads
    the file on the branch it was given. *)
Lemma apply_update_reads (w : world)
    (repo pr_num sender_name request_text target_file branch_name : str)
    (tr : list call) :
  exists rest,
    snd (run w (Brain.apply_update repo pr_num sender_name request_text
                  target_file branch_name) tr)
    = tr ++ GET (Brain.file_url repo target_file branch_name) :: rest.
Proof.
  unfold Brain.apply_update. cbn [bind try_except perform].
  apply run_first_call.
Qed.

Lemma run_bind_keeps {A B : Type} (w : world) (p : prog A) (f : A -> prog B)
    (tr : list call) (c : call) :
  In c (snd (run w p tr)) -> In c (snd (run w (bind p f) tr)).
Proof.
  intros H. rewrite run_bind. destruct (run w p tr) as [[a | e] tr'];
    simpl in H; [|exact H].
  destruct (run_extends w (f a) tr') as [ext E]. rewrite E.
  apply in_or_app. now left.
Qed.

Lemma candidates_listed :
  Brain.candidates =
  [py "test-v19"; py "test-v18"; py "test-v17"; py "test-v16"; py "test-v15";
   py "test-v14"; py "test-v13"; py "test-v12"; py "test-v11"; py "test-v10";
   py "test-v9"; py "test-v8"; py "test-v7"; py "test-v6"; py "test-v5";
   py "test-v4"; py "test-v3"; py "test-v2"; py "test-v1"].
Proof. vm_compute. reflexivity. Qed.

Lemma handle_approval_fresh_branch (w : world)
    (user_msg repo pr_num sender_name : str) (r : reply) :
  fails w (GET (Brain.pr_url repo pr_num)) ->
  (forall x, In x Brain.candidates -> fails w (GET (Brain.branch_url repo x))) ->
  let tr1 := GET (Brain.pr_url repo pr_num) :: probes repo Brain.candidates in
  let fresh := py "approved-change-" ++ str_of_Z (clock w tr1 mod 10000) in
  respond w tr1 (Brain.create_branch_request repo fresh) = Ok r ->
  run w (Brain.handle_approval user_msg repo pr_num sender_name) []
  = run w (try_except
             (Brain.resume user_msg repo pr_num sender_name fresh [])
             (Brain.approval_failed repo pr_num))
          (tr1 ++ [Brain.create_branch_request repo fresh]).
Proof.
  intros Hf Hc tr1 fresh Hr. unfold Brain.handle_approval.
  rewrite !run_try_except, run_bind.
  rewrite (find_branch_probes w repo pr_num [] Hf).
  rewrite (probe_none w repo Brain.candidates _ Hc).
  cbn [fst snd app run]. fold tr1. fold fresh. now rewrite Hr.
Qed.

Lemma proceed_target (w : world) (user_msg repo pr_num sender_name : str)
    (branch_name pr_title : str) (rec : Brain.Recovered) (target_file : str)
    (tr : list call) :
  let request_text :=
    Brain.request_text_of user_msg pr_title (Brain.recovered_request rec) in
  contains (py "Automatic Risk Analysis Trigger") request_text = false ->
  Brain.target_file_of request_text = Some target_file ->
  In (GET (Brain.file_url repo target_file
             (Brain.execution_branch branch_name request_text)))
     (snd (run w (Brain.proceed user_msg repo pr_num sender_name branch_name
                    pr_title rec) tr)).
Proof.
  intros request_text Hu Ht. unfold Brain.proceed. fold request_text.
  rewrite run_bind.
  assert (S : exists tr', run w (if truthy (Brain.commit_sha_recovered rec)
                then Brain.set_commit_status repo
                       (Brain.commit_sha_recovered rec) (py "success")
                       (py "Approved by " ++ sender_name)
                else Ret tt) tr = (Ok tt, tr')).
  { destruct (Brain.commit_sha_recovered rec) as [[|c sha]|]; simpl;
      try (now exists tr).
    eexists. apply set_commit_status_run. }
  destruct S as [tr' ->]. rewrite Hu, Ht.
  apply run_bind_keeps.
  destruct (apply_update_reads w repo pr_num sender_name request_text
              target_file (Brain.execution_branch branch_name request_text) tr')
    as [rest E].
  rewrite E. apply in_or_app. right. now left.
Qed.

(** Pull request 7 has the head branch feature-x and the title "update
    app.py on staging"; its thread has no comment; nothing else is found
    on the host. *)
Definition staging_world : world :=
  World (fun _ c =>
           match c with
           | urlopen (Request u _ _ _) =>
               if str_eqb u (Brain.pr_url (py "octo/repo") (py "7"))
               then Ok (RJson (JObj
                      [(py "head", JObj [(py "ref", JStr (py "feature-x"))]);
                       (py "title", JStr (py "update app.py on staging"))]))
               else if str_eqb u (Brain.comments_url (py "octo/repo") (py "7"))
               then Ok (RJson (JArr []))
               else Err (HTTPError 404 (py "Not Found"))
           | invoke _ _ _ => Ok RNone
           end)
        (fun _ => 1700000123%Z).

(** C8, as stated, with the pull request fetched: its head branch is
    feature-x, and the approved update reads (and would write) app.py on
    the branch staging, the name that follows "on" in the request. *)
Lemma C8_counterexample :
  firstn 3 (trace staging_world
              (Brain.handle_approval (py "approved") (py "octo/repo") (py "7")
                 (py "bob")))
  = [GET (Brain.pr_url (py "octo/repo") (py "7"));
     GET (Brain.comments_url (py "octo/repo") (py "7"));
     GET (Brain.file_url (py "octo/repo") (py "app.py") (py "staging"))].
Proof. vm_compute. reflexivity. Qed.

(** The handler goes on, after the calls [tr1], with the branch
    [branch] and the title [title]: the rest of its run is the run of
    [resume] on them, under the handler of the outer [try]. *)
Definition resumes_on (w : world) (user_msg repo pr_num sender_name : str)
    (branch title : str) (tr1 : list call) : Prop :=
  run w (Brain.handle_approval user_msg repo pr_num sender_name) []
  = run w (try_except
             (Brain.resume user_msg repo pr_num sender_name branch title)
             (Brain.approval_failed repo pr_num))
          tr1.

Lemma handle_approval_head_branch (w : world)
    (user_msg repo pr_num sender_name : str) (pr_data : json)
    (branch title : str) :
  respond w [] (GET (Brain.pr_url repo pr_num)) = Ok (RJson pr_data) ->
  shows_pull_request pr_data branch title ->
  branch <> [] ->
  resumes_on w user_msg repo pr_num sender_name branch title
             [GET (Brain.pr_url repo pr_num)].
Proof.
  intros Hr Hs Hn. unfold resumes_on, Brain.handle_approval.
  rewrite !run_try_except, run_bind.
  rewrite (find_branch_head w repo pr_num [] pr_data branch title Hr Hs).
  cbn [fst snd app]. destruct branch as [|c b]; [now destruct Hn|].
  reflexivity.
Qed.

Lemma candidates_nonempty (b : str) : In b Brain.candidates -> b <> [].
Proof.
  intros H.
  assert (F : forallb nonempty Brain.candidates = true)
    by (vm_compute; reflexivity).
  rewrite forallb_forall in F. specialize (F b H).
  intros ->. discriminate F.
Qed.

Lemma handle_approval_candidate (w : world)
    (user_msg repo pr_num sender_name : str) (earlier : list str) (b : str)
    (later : list str) :
  fails w (GET (Brain.pr_url repo pr_num)) ->
  Brain.candidates = earlier ++ b :: later ->
  (forall x, In x earlier -> fails w (GET (Brain.branch_url repo x))) ->
  succeeds w (GET (Brain.branch_url repo b)) ->
  resumes_on w user_msg repo pr_num sender_name b []
             (GET (Brain.pr_url repo pr_num) :: probes repo (earlier ++ [b])).
Proof.
  intros Hf Hc He Hb. unfold resumes_on, Brain.handle_approval.
  rewrite !run_try_except, run_bind.
  rewrite (find_branch_probes w repo pr_num [] Hf), Hc.
  rewrite (probe_finds w repo earlier b later _ He Hb).
  cbn [fst snd app].
  assert (N : b <> []).
  { apply candidates_nonempty. rewrite Hc. apply in_or_app. right. now left. }
  destruct b as [|c b]; [now destruct N|]. reflexivity.
Qed.

Lemma run_try_except_keeps {A : Type} (w : world) (p : prog A)
    (h : exn -> prog A) (tr : list call) (c : call) :
  In c (snd (run w p tr)) -> In c (snd (run w (try_except p h) tr)).
Proof.
  intros H. rewrite run_try_except.
  destruct (run w p tr) as [[a | e] tr']; simpl in H; [exact H|].
  destruct (run_extends w (h e) tr') as [ext E]. rewrite E.
  apply in_or_app. now left.
Qed.

(** Once the handler goes on with a branch, the scan of the thread is the
    next step, and the file of the request is read on that branch, or on
    the branch that the request names in its place. *)
Lemma resumed_target (w : world) (user_msg repo pr_num sender_name : str)
    (branch title : str) (tr1 : list call) :
  resumes_on w user_msg repo pr_num sender_name branch title tr1 ->
  exists rec,
    run w (Brain.recover_context repo pr_num) tr1
    = (Ok rec, tr1 ++ [GET (Brain.comments_url repo pr_num)])
    /\ let request_text :=
         Brain.request_text_of user_msg title (Brain.recovered_request rec) in
       contains (py "Automatic Risk Analysis Trigger") request_text = false ->
       forall target_file,
         Brain.target_file_of request_text = Some target_file ->
         In (GET (Brain.file_url repo target_file
                    (Brain.execution_branch branch request_text)))
            (trace w (Brain.handle_approval user_msg repo pr_num sender_name)).
Proof.
  intros H.
  assert (R : exists rec,
             run w (Brain.recover_context repo pr_num) tr1
             = (Ok rec, tr1 ++ [GET (Brain.comments_url repo pr_num)])).
  { unfold Brain.recover_context. apply run_guarded.
    intros r. repeat emits_step. }
  destruct R as [rec Hrec]. exists rec. split; [exact Hrec|].
  intros request_text Hc target_file Ht.
  unfold trace. rewrite H. apply run_try_except_keeps.
  unfold Brain.resume. rewrite run_bind, Hrec.
  exact (proceed_target w user_msg repo pr_num sender_name branch title rec
           target_file _ Hc Ht).
Qed.

(** C8, amended.  On resume the branch is first resolved in this order: the
    head branch of the pull request when the fetch succeeds; when the fetch
    fails, the first of test-v19, ..., test-v1 that exists; when none
    exists, a branch approved-change-N (N the clock modulo 10000) is
    requested from main.  In each case the handler goes on with that very
    branch: it scans the thread and then reads the file of the request on
    it, unless the request text names a branch after "create", "on" or
    "to": [execution_branch] puts the named branch in its place. *)
Theorem C8_branch_resolution (w : world)
    (user_msg repo pr_num sender_name : str) :
  (forall pr_data branch title,
     respond w [] (GET (Brain.pr_url repo pr_num)) = Ok (RJson pr_data) ->
     shows_pull_request pr_data branch title ->
     branch <> [] ->
     resumes_on w user_msg repo pr_num sender_name branch title
                [GET (Brain.pr_url repo pr_num)])
  /\ (forall earlier b later,
        fails w (GET (Brain.pr_url repo pr_num)) ->
        Brain.candidates = earlier ++ b :: later ->
        (forall x, In x earlier -> fails w (GET (Brain.branch_url repo x))) ->
        succeeds w (GET (Brain.branch_url repo b)) ->
        resumes_on w user_msg repo pr_num sender_name b []
                   (GET (Brain.pr_url repo pr_num)
                    :: probes repo (earlier ++ [b])))
  /\ (forall r,
        fails w (GET (Brain.pr_url repo pr_num)) ->
        (forall x, In x Brain.candidates ->
                   fails w (GET (Brain.branch_url repo x))) ->
        let tr1 := GET (Brain.pr_url repo pr_num) :: probes repo Brain.candidates in
        let fresh := py "approved-change-" ++ str_of_Z (clock w tr1 mod 10000) in
        respond w tr1 (Brain.create_branch_request repo fresh) = Ok r ->
        resumes_on w user_msg repo pr_num sender_name fresh []
                   (tr1 ++ [Brain.create_branch_request repo fresh]))
  /\ (forall branch title tr1,
        resumes_on w user_msg repo pr_num sender_name branch title tr1 ->
        exists rec,
          run w (Brain.recover_context repo pr_num) tr1
          = (Ok rec, tr1 ++ [GET (Brain.comments_url repo pr_num)])
          /\ let request_text :=
               Brain.request_text_of user_msg title
                                     (Brain.recovered_request rec) in
             contains (py "Automatic Risk Analysis Trigger") request_text
             = false ->
             forall target_file,
               Brain.target_file_of request_text = Some target_file ->
               In (GET (Brain.file_url repo target_file
                          (Brain.execution_branch branch request_text)))
                  (trace w (Brain.handle_approval user_msg repo pr_num
                                                  sender_name)))
  /\ (forall branch request_text,
        match search Brain.context_branch_re request_text with
        | None => Brain.execution_branch branch request_text = branch
        | Some named =>
            Brain.execution_branch branch request_text
            = if existsb (str_eqb (lower (group_str 1 named)))
                         [py "and"; py "update"; py "change"; py "services";
                          py "file"]
              then branch
              else group_str 1 named
        end).
Proof.
  split; [|split; [|split; [|split]]].
  - intros pr_data branch title. apply handle_approval_head_branch.
  - intros earlier b later. apply handle_approval_candidate.
  - intros r. apply handle_approval_fresh_branch.
  - intros branch title tr1. apply resumed_target.
  - intros branch request_text. unfold Brain.execution_branch.
    now destruct (search Brain.context_branch_re request_text).
Qed.

Lemma C8_witness :
  resumes_on staging_world (py "approved") (py "octo/repo") (py "7") (py "bob")
             (py "feature-x") (py "update app.py on staging")
             [GET (Brain.pr_url (py "octo/repo") (py "7"))].
Proof.
  refine (proj1 (C8_branch_resolution staging_world (py "approved")
                   (py "octo/repo") (py "7") (py "bob")) _ _ _ _ _ _).
  - vm_compute. reflexivity.
  - eexists. eexists. repeat split; vm_compute; reflexivity.
  - discriminate.
Defined.

(** ** C9: resuming without a token *)

Lemma oks_bind_strong {A B : Type} (Q : B -> Prop) (p : prog A)
    (f : A -> prog B) :
  oks (fun a => oks Q (f a)) p -> oks Q (bind p f).
Proof.
  intros H. induction p as [a | e | c k IH | k IH]; simpl in *; auto.
Qed.

Lemma apply_update_acknowledges
    (repo pr_num sender_name request_text target_file branch_name : str) :
  oks (fun r => match r with
                | inl response => acknowledges response
                | inr _ => True
                end)
      (Brain.apply_update repo pr_num sender_name request_text target_file
                          branch_name).
Proof.
  unfold Brain.apply_update. apply oks_try_except.
  - repeat oks_step.
  - intros [code reason | msg]; exact I.
Qed.

Lemma proceed_acknowledges (user_msg repo pr_num sender_name : str)
    (branch_name pr_title : str) (rec : Brain.Recovered) :
  oks acknowledges
      (Brain.proceed user_msg repo pr_num sender_name branch_name pr_title rec).
Proof.
  unfold Brain.proceed. apply oks_bind. intros u.
  destruct (contains _ _).
  - unfold Brain.unblock. repeat oks_step.
  - apply oks_bind_strong.
    assert (T : forall (p : prog (Response + str)),
              oks (fun r => match r with
                            | inl response => acknowledges response
                            | inr _ => True
                            end) p ->
              oks (fun a => oks acknowledges
                     match a with
                     | inl response => Ret response
                     | inr execution_log =>
                         Brain.update_ticket repo pr_num (Brain.jira_ticket rec)
                           (py "❌ **Rejected by " ++ sender_name
                            ++ py ":** Request denied by user.") ;;;
                         Brain.post_github_comment repo pr_num
                           (py "✅ **Approved Action Executed**" ++ nl ++ nl
                            ++ py "Request: "
                            ++ Brain.request_text_of user_msg pr_title
                                 (Brain.recovered_request rec)
                            ++ nl ++ nl
                            ++ py "**Status:** " ++ execution_log ++ nl
                            ++ py "**Approved By:** " ++ sender_name ++ nl
                            ++ py "**Jira Updated:** " ++ Brain.jira_ticket rec) ;;;
                         Ret (ack_with (py "Autopilot Execution Complete"))
                     end) p).
    { intros p. induction p as [a | e | c k IH | k IH]; cbn [oks]; auto.
      destruct a as [response | execution_log]; [auto|].
      intros _. unfold Brain.update_ticket, Brain.post_github_comment.
      repeat oks_step. }
    apply T. destruct (Brain.target_file_of _).
    + apply apply_update_acknowledges.
    + exact I.
Qed.

Lemma handle_approval_body_acknowledges
    (user_msg repo pr_num sender_name : str) (h : exn -> prog Response) :
  (forall e, oks acknowledges (h e)) ->
  oks acknowledges
      (try_except
         (found <- Brain.find_branch repo pr_num ;;
          let pr_title := snd found in
          match fst found with
          | Some (c :: b) =>
              Brain.resume user_msg repo pr_num sender_name (c :: b) pr_title
          | _ =>
              Now (fun now =>
                let branch_name :=
                  py "approved-change-" ++ str_of_Z (now mod 10000) in
                Do (Brain.create_branch_request repo branch_name) (fun r =>
                  match r with
                  | Ok _ =>
                      Brain.resume user_msg repo pr_num sender_name branch_name
                                   pr_title
                  | Err e =>
                      Brain.post_github_comment repo pr_num
                        (py "⚠️ **Approval Failed**: Could not create branch `"
                         ++ branch_name ++ py "`" ++ nl ++ nl
                         ++ py "Error: " ++ exn_str e) ;;;
                      Ret (ack_with (py "Branch creation failed: " ++ exn_str e))
                  end))
          end)
         h).
Proof.
  intros Hh. apply oks_try_except; [|exact Hh].
  apply oks_bind. intros found.
  assert (R : forall b t, oks acknowledges
                (Brain.resume user_msg repo pr_num sender_name b t)).
  { intros b t. unfold Brain.resume. apply oks_bind. intros rec.
    apply proceed_acknowledges. }
  cbv zeta. destruct (fst found) as [[|c b]|]; try apply R;
    (cbn [oks]; intros t [x | e]; [apply R | repeat oks_step]).
Qed.

(** The approval handler acknowledges whenever its comments are accepted:
    nothing it finds or misses on the way makes it fail. *)
Lemma approval_acknowledges (w : world)
    (user_msg repo pr_num sender_name : str) (tr : list call) :
  events_delivered w ->
  exists r,
    fst (run w (Brain.handle_approval user_msg repo pr_num sender_name) tr)
    = Ok r /\ acknowledges r.
Proof.
  intros Hd.
  assert (O : oks acknowledges
                (Brain.handle_approval user_msg repo pr_num sender_name)).
  { apply handle_approval_body_acknowledges. intros e.
    unfold Brain.approval_failed. repeat oks_step. }
  unfold Brain.handle_approval in *. rewrite run_try_except.
  match goal with
  | |- context [run w ?p tr] => destruct (run w p tr) as [[a | e] tr'] eqn:E
  end.
  - exists a. split; [reflexivity|].
    match type of E with
    | run w ?p tr = _ =>
        assert (B : oks acknowledges p)
    end.
    { pose proof (handle_approval_body_acknowledges user_msg repo pr_num
                    sender_name (fun e => Ret ack)) as B.
      assert (G : forall (p : prog Response) (h : exn -> prog Response),
                oks acknowledges (try_except p h) -> oks acknowledges p).
      { intros p h. induction p as [x | e | c k IH | k IH]; simpl; auto. }
      eapply G. apply B. intros e. reflexivity. }
    refine (oks_run acknowledges w _ tr a B _). now rewrite E.
  - unfold Brain.approval_failed, Brain.post_github_comment.
    cbn [run bind perform].
    match goal with
    | |- context [respond w tr' (Brain.comment_request ?a ?b ?c)] =>
        destruct (Hd tr' (py "PR-Agent-GitHub-Writer")
                    (match Brain.comment_request a b c with
                     | invoke _ _ p => p
                     | _ => JNull
                     end)) as [r2 Hr2];
        change (respond w tr' (Brain.comment_request a b c) = Ok r2) in Hr2;
        rewrite Hr2
    end.
    cbn [run bind fst]. exists (ack_with (py "Autopilot Execution Complete")).
    split; reflexivity.
Qed.

(** No comment of the thread carries a token that decodes. *)
Definition no_token (comments : list json) : Prop :=
  forall c body, In c comments -> Brain.body_of c = Some body ->
                 Brain.token_of body = None.

(** No comment of the thread shows a ticket label. *)
Definition no_label (comments : list json) : Prop :=
  forall c body, In c comments -> Brain.body_of c = Some body ->
                 search Brain.jira_re body = None.

Lemma scan_without_token (comments : list json) (st : Brain.Recovered) :
  no_token comments ->
  Brain.recovered_request (Brain.scan_comments comments st)
  = Brain.recovered_request st
  /\ Brain.commit_sha_recovered (Brain.scan_comments comments st)
     = Brain.commit_sha_recovered st.
Proof.
  revert st; induction comments as [|c more IH]; intros st H; simpl;
    [now split|].
  assert (Hm : no_token more).
  { intros c' body Hin. apply H. now right. }
  destruct (Brain.body_of c) as [body|] eqn:B; [|now split].
  destruct (Brain.is_analysis_comment body); [|now apply IH].
  assert (S : Brain.recovered_request (Brain.scan_comment body st)
              = Brain.recovered_request st
              /\ Brain.commit_sha_recovered (Brain.scan_comment body st)
                 = Brain.commit_sha_recovered st).
  { unfold Brain.scan_comment.
    rewrite (H c body (or_introl eq_refl) B). now split. }
  destruct (_ && _); [exact S|].
  destruct (IH (Brain.scan_comment body st) Hm) as [I1 I2].
  destruct S as [S1 S2]. split; congruence.
Qed.

Lemma scan_without_label (comments : list json) (st : Brain.Recovered) :
  no_label comments ->
  Brain.jira_ticket st = py "UNKNOWN" ->
  Brain.jira_ticket (Brain.scan_comments comments st) = py "UNKNOWN".
Proof.
  revert st; induction comments as [|c more IH]; intros st H Hu; simpl;
    [assumption|].
  assert (Hm : no_label more).
  { intros c' body Hin. apply H. now right. }
  destruct (Brain.body_of c) as [body|] eqn:B; [|assumption].
  destruct (Brain.is_analysis_comment body); [|now apply IH].
  assert (S : Brain.jira_ticket (Brain.scan_comment body st) = py "UNKNOWN").
  { unfold Brain.scan_comment. rewrite Hu.
    rewrite (H c body (or_introl eq_refl) B).
    destruct (Brain.token_of body); reflexivity. }
  destruct (_ && _); [exact S|]. now apply IH.
Qed.

(** C9, as stated: the newest analysis comment shows a ticket but carries
    no token; nothing decodes, and the recovered ticket id is SCRUM-5, not
    "UNKNOWN". *)
Lemma C9_counterexample :
  let body := py "**AI Risk Analysis**" ++ nl ++ nl
              ++ py "**Jira Ticket:** SCRUM-5" ++ nl in
  Brain.token_of body = None
  /\ Brain.scan_comments [JObj [(py "body", JStr body)]] Brain.nothing_recovered
     = Brain.MkRecovered (py "SCRUM-5") None None.
Proof. split; vm_compute; reflexivity. Qed.

(** C9, amended.  When the scan finds no decodable token, no request and
    no commit sha are recovered and the handler goes on with what it has:
    the ticket id is the one that a scanned analysis comment shows, and
    the literal "UNKNOWN" when none shows one; the request text is the
    title of the pull request unless the approval message itself carries
    "Context:".  The run continues with [proceed] and, when its comments
    are accepted, the handler acknowledges. *)
Theorem C9_resume_without_token (w : world)
    (user_msg repo pr_num sender_name branch_name pr_title : str)
    (comments : list json) (tr : list call) :
  respond w tr (GET (Brain.comments_url repo pr_num))
  = Ok (RJson (JArr comments)) ->
  no_token comments ->
  let ticket :=
    Brain.jira_ticket (Brain.scan_comments comments Brain.nothing_recovered) in
  run w (Brain.resume user_msg repo pr_num sender_name branch_name pr_title) tr
  = run w (Brain.proceed user_msg repo pr_num sender_name branch_name pr_title
             (Brain.MkRecovered ticket None None))
          (tr ++ [GET (Brain.comments_url repo pr_num)])
  /\ (~ occurs (py "Context:") user_msg ->
      Brain.request_text_of user_msg pr_title None = pr_title)
  /\ (no_label comments -> ticket = py "UNKNOWN")
  /\ (events_delivered w ->
      exists r,
        fst (run w (Brain.handle_approval user_msg repo pr_num sender_name) [])
        = Ok r /\ acknowledges r).
Proof.
  intros Hr Hn ticket. split; [|split; [|split]].
  - unfold Brain.resume, Brain.recover_context.
    rewrite run_bind. cbn [run bind try_except perform].
    rewrite Hr. cbn [run bind try_except read_json as_list].
    destruct (scan_without_token comments Brain.nothing_recovered Hn)
      as [S1 S2].
    destruct (Brain.scan_comments comments Brain.nothing_recovered)
      as [t rq sha] eqn:E.
    simpl in S1, S2. subst rq sha. subst ticket. reflexivity.
  - intros Hc. unfold Brain.request_text_of.
    destruct (contains (py "Context:") user_msg) eqn:E; [|reflexivity].
    apply contains_spec in E. now destruct Hc.
  - intros Hl. now apply scan_without_label.
  - apply approval_acknowledges.
Qed.

(** The thread of pull request 7 holds one analysis comment without
    ticket and without token; the pull request is titled "update app.py". *)
Definition bare_thread : list json :=
  [JObj [(py "body", JStr (py "AI Risk Analysis: nothing to report"))]].

Definition bare_world : world :=
  World (fun _ c =>
           match c with
           | urlopen (Request u _ _ _) =>
               if str_eqb u (Brain.comments_url (py "octo/repo") (py "7"))
               then Ok (RJson (JArr bare_thread))
               else Err (HTTPError 404 (py "Not Found"))
           | invoke _ _ _ => Ok RNone
           end)
        (fun _ => 1700000123%Z).

Lemma bare_thread_no_token : no_token bare_thread.
Proof.
  intros c body [<- | []] H. injection H as <-. vm_compute. reflexivity.
Qed.

Lemma C9_witness :
  run bare_world
    (Brain.resume (py "approved") (py "octo/repo") (py "7") (py "bob")
       (py "feature-x") (py "update app.py")) []
  = run bare_world
      (Brain.proceed (py "approved") (py "octo/repo") (py "7") (py "bob")
         (py "feature-x") (py "update app.py")
         (Brain.MkRecovered (py "UNKNOWN") None None))
      [GET (Brain.comments_url (py "octo/repo") (py "7"))].
Proof.
  refine (proj1 (C9_resume_without_token bare_world (py "approved")
                   (py "octo/repo") (py "7") (py "bob") (py "feature-x")
                   (py "update app.py") bare_thread [] _ _)).
  - vm_compute. reflexivity.
  - exact bare_thread_no_token.
Defined.

(** ** C3: the round trip of the continuation token *)

(** *** Base64 *)

Lemma code_bound (c : ascii) : (code c < 256)%N.
Proof. apply N_ascii_bounded. Qed.

Lemma ascii_of_code (c : ascii) : ascii_of_N (code c) = c.
Proof. apply ascii_N_embedding. Qed.

Definition to_urlsafe (c : ascii) : ascii :=
  if is_char "+" c then "-"%char else if is_char "/" c then "_"%char else c.

Definition from_urlsafe (c : ascii) : ascii :=
  if is_char "-" c then "+"%char else if is_char "_" c then "/"%char else c.

(** The character that the decoder sees for the sextet [v]. *)
Definition sextet_char (v : N) : ascii := from_urlsafe (to_urlsafe (b64_char v)).

Lemma sextet_char_spec (v : N) :
  (v < 64)%N ->
  is_char "=" (sextet_char v) = false
  /\ b64_value (sextet_char v) = Some v
  /\ (code (to_urlsafe (b64_char v)) <? 128)%N = true
  /\ Brain.token_char (to_urlsafe (b64_char v)) = true.
Proof.
  intros H.
  assert (A : forallb (fun n =>
                let v := N.of_nat n in
                negb (is_char "=" (sextet_char v))
                && match b64_value (sextet_char v) with
                   | Some x => (x =? v)%N
                   | None => false
                   end
                && (code (to_urlsafe (b64_char v)) <? 128)%N
                && Brain.token_char (to_urlsafe (b64_char v)))
              (List.seq 0 64) = true) by (vm_compute; reflexivity).
  rewrite forallb_forall in A.
  specialize (A (N.to_nat v)). rewrite N2Nat.id in A.
  assert (I : In (N.to_nat v) (List.seq 0 64)) by (apply in_seq; lia).
  apply A in I. rewrite !andb_true_iff in I.
  destruct I as [[[I1 I2] I3] I4].
  repeat split; auto.
  - now apply negb_true_iff in I1.
  - destruct (b64_value (sextet_char v)) as [x|]; [|discriminate].
    apply N.eqb_eq in I2. now subst.
Qed.

Lemma a2b_step (v : N) (t : str) (quad_pos : nat) (leftchar : N) (pads : nat)
    (out : bytes) :
  (v < 64)%N ->
  a2b_base64 (sextet_char v :: t) quad_pos leftchar pads out =
  match quad_pos with
  | 0%nat => a2b_base64 t 1 v 0 out
  | 1%nat =>
      a2b_base64 t 2 (v mod 16) 0 (ascii_of_N (leftchar * 4 + v / 16) :: out)
  | 2%nat =>
      a2b_base64 t 3 (v mod 4) 0 (ascii_of_N (leftchar * 16 + v / 4) :: out)
  | _ => a2b_base64 t 0 0 0 (ascii_of_N (leftchar * 64 + v) :: out)
  end.
Proof.
  intros H. destruct (sextet_char_spec v H) as [H1 [H2 _]].
  cbn [a2b_base64]. now rewrite H1, H2.
Qed.

Ltac euclid := zify; Z.to_euclidean_division_equations; lia.

Lemma sextets_bounded (a b : N) :
  (a < 256)%N -> (b < 256)%N ->
  (a / 4 < 64 /\ a mod 4 * 16 + b / 16 < 64 /\ a mod 16 * 4 + b / 64 < 64
   /\ a mod 64 < 64 /\ a mod 4 * 16 < 64 /\ a mod 16 * 4 < 64)%N.
Proof. intros Ha Hb. repeat split; euclid. Qed.

Lemma sextets_join (a b c : N) :
  (a < 256)%N -> (b < 256)%N -> (c < 256)%N ->
  (a / 4 * 4 + (a mod 4 * 16 + b / 16) / 16 = a
   /\ (a mod 4 * 16 + b / 16) mod 16 * 16 + (b mod 16 * 4 + c / 64) / 4 = b
   /\ (b mod 16 * 4 + c / 64) mod 4 * 64 + c mod 64 = c
   /\ a / 4 * 4 + (a mod 4 * 16) / 16 = a
   /\ (a mod 4 * 16 + b / 16) mod 16 * 16 + (b mod 16 * 4) / 4 = b)%N.
Proof. intros Ha Hb Hc. repeat split; euclid. Qed.

Lemma a2b_pad (t : str) (quad_pos : nat) (leftchar : N) (pads : nat)
    (out : bytes) :
  a2b_base64 ("="%char :: t) quad_pos leftchar pads out =
  if (2 <=? quad_pos)%nat
  then if (4 <=? quad_pos + S pads)%nat
       then Some (rev out)
       else a2b_base64 t quad_pos leftchar (S pads) out
  else a2b_base64 t quad_pos leftchar pads out.
Proof. reflexivity. Qed.

Definition seen (c : ascii) : ascii := from_urlsafe (to_urlsafe c).

Lemma a2b_encoded (n : nat) (bs : bytes) (out : bytes) :
  (length bs <= n)%nat ->
  a2b_base64 (map seen (b64encode bs)) 0 0 0 out = Some (rev out ++ bs).
Proof.
  revert bs out; induction n as [|n IH]; intros bs out Hn.
  - destruct bs; [|simpl in Hn; lia]. simpl. now rewrite app_nil_r.
  - destruct bs as [|b1 [|b2 [|b3 more]]].
    + simpl. now rewrite app_nil_r.
    + pose proof (code_bound b1) as B1.
      destruct (sextets_bounded (code b1) 0 B1 ltac:(lia))
        as [S1 [_ [_ [_ [S2 _]]]]].
      destruct (sextets_join (code b1) 0 0 B1 ltac:(lia) ltac:(lia))
        as [_ [_ [_ [J _]]]].
      cbn [b64encode map].
      change (seen (b64_char (code b1 / 4))) with (sextet_char (code b1 / 4)).
      change (seen (b64_char (code b1 mod 4 * 16)))
        with (sextet_char (code b1 mod 4 * 16)).
      change (seen "=") with "="%char.
      rewrite (a2b_step _ _ _ _ _ _ S1), (a2b_step _ _ _ _ _ _ S2).
      rewrite !a2b_pad. cbn [Nat.leb Nat.add rev].
      rewrite J, ascii_of_code. reflexivity.
    + pose proof (code_bound b1) as B1. pose proof (code_bound b2) as B2.
      destruct (sextets_bounded (code b1) (code b2) B1 B2)
        as [S1 [S2 _]].
      destruct (sextets_bounded (code b2) 0 B2 ltac:(lia))
        as [_ [_ [_ [_ [_ S3]]]]].
      destruct (sextets_join (code b1) (code b2) 0 B1 B2 ltac:(lia))
        as [J1 [_ [_ [_ J2]]]].
      cbn [b64encode map].
      change (seen (b64_char (code b1 / 4))) with (sextet_char (code b1 / 4)).
      change (seen (b64_char (code b1 mod 4 * 16 + code b2 / 16)))
        with (sextet_char (code b1 mod 4 * 16 + code b2 / 16)).
      change (seen (b64_char (code b2 mod 16 * 4)))
        with (sextet_char (code b2 mod 16 * 4)).
      change (seen "=") with "="%char.
      rewrite (a2b_step _ _ _ _ _ _ S1), (a2b_step _ _ _ _ _ _ S2),
        (a2b_step _ _ _ _ _ _ S3).
      rewrite a2b_pad. cbn [Nat.leb Nat.add rev].
      rewrite J1, J2, !ascii_of_code. now rewrite <- !app_assoc.
    + pose proof (code_bound b1) as B1. pose proof (code_bound b2) as B2.
      pose proof (code_bound b3) as B3.
      destruct (sextets_bounded (code b1) (code b2) B1 B2) as [S1 [S2 _]].
      destruct (sextets_bounded (code b2) (code b3) B2 B3) as [_ [_ [S3 _]]].
      destruct (sextets_bounded (code b3) 0 B3 ltac:(lia))
        as [_ [_ [_ [S4 _]]]].
      destruct (sextets_join (code b1) (code b2) (code b3) B1 B2 B3)
        as [J1 [J2 [J3 _]]].
      cbn [b64encode map].
      change (seen (b64_char (code b1 / 4))) with (sextet_char (code b1 / 4)).
      change (seen (b64_char (code b1 mod 4 * 16 + code b2 / 16)))
        with (sextet_char (code b1 mod 4 * 16 + code b2 / 16)).
      change (seen (b64_char (code b2 mod 16 * 4 + code b3 / 64)))
        with (sextet_char (code b2 mod 16 * 4 + code b3 / 64)).
      change (seen (b64_char (code b3 mod 64)))
        with (sextet_char (code b3 mod 64)).
      rewrite (a2b_step _ _ _ _ _ _ S1), (a2b_step _ _ _ _ _ _ S2),
        (a2b_step _ _ _ _ _ _ S3), (a2b_step _ _ _ _ _ _ S4).
      rewrite J1, J2, J3, !ascii_of_code.
      rewrite IH by (simpl in Hn; lia).
      cbn [rev]. now rewrite <- !app_assoc.
Qed.

Lemma urlsafe_encoded_chars (bs : bytes) :
  Forall (fun c => (code c <? 128)%N = true /\ Brain.token_char c = true)
         (urlsafe_b64encode bs).
Proof.
  unfold urlsafe_b64encode.
  change (fun c : ascii => if is_char "+" c then "-"%char
                           else if is_char "/" c then "_"%char else c)
    with to_urlsafe.
  assert (P : forall v, (v < 64)%N ->
               (code (to_urlsafe (b64_char v)) <? 128)%N = true
               /\ Brain.token_char (to_urlsafe (b64_char v)) = true).
  { intros v Hv. now destruct (sextet_char_spec v Hv) as [_ [_ H]]. }
  assert (E : (code (to_urlsafe "=") <? 128)%N = true
              /\ Brain.token_char (to_urlsafe "=") = true)
    by (split; reflexivity).
  assert (G : forall n (l : bytes), (length l <= n)%nat ->
              Forall (fun c => (code c <? 128)%N = true
                               /\ Brain.token_char c = true)
                     (map to_urlsafe (b64encode l))).
  { induction n as [|n IH]; intros l Hl.
    - destruct l; [constructor | simpl in Hl; lia].
    - destruct l as [|b1 [|b2 [|b3 more]]]; cbn [b64encode map].
      + constructor.
      + pose proof (code_bound b1) as B1.
        destruct (sextets_bounded (code b1) 0 B1 ltac:(lia))
          as [S1 [_ [_ [_ [S2 _]]]]].
        repeat constructor; try (apply P; assumption); apply E.
      + pose proof (code_bound b1) as B1. pose proof (code_bound b2) as B2.
        destruct (sextets_bounded (code b1) (code b2) B1 B2) as [S1 [S2 _]].
        destruct (sextets_bounded (code b2) 0 B2 ltac:(lia))
          as [_ [_ [_ [_ [_ S3]]]]].
        repeat constructor; try (apply P; assumption); apply E.
      + pose proof (code_bound b1) as B1. pose proof (code_bound b2) as B2.
        pose proof (code_bound b3) as B3.
        destruct (sextets_bounded (code b1) (code b2) B1 B2) as [S1 [S2 _]].
        destruct (sextets_bounded (code b2) (code b3) B2 B3)
          as [_ [_ [S3 _]]].
        destruct (sextets_bounded (code b3) 0 B3 ltac:(lia))
          as [_ [_ [_ [S4 _]]]].
        repeat (constructor; [apply P; assumption|]).
        apply IH. simpl in Hl. lia. }
  now apply (G (length bs)).
Qed.

(** [base64.urlsafe_b64decode] inverts [base64.urlsafe_b64encode]. *)
Lemma urlsafe_b64_roundtrip (bs : bytes) :
  urlsafe_b64decode (urlsafe_b64encode bs) = Some bs.
Proof.
  unfold urlsafe_b64decode.
  assert (A : is_ascii_text (urlsafe_b64encode bs) = true).
  { unfold is_ascii_text. apply forallb_forall. intros c Hc.
    pose proof (urlsafe_encoded_chars bs) as F.
    rewrite Forall_forall in F. now destruct (F c Hc). }
  rewrite A. unfold urlsafe_b64encode. rewrite map_map.
  change (map (fun x : ascii =>
                 if is_char "-" (if is_char "+" x then "-"%char
                                 else if is_char "/" x then "_"%char else x)
                 then "+"%char
                 else if is_char "_" (if is_char "+" x then "-"%char
                                      else if is_char "/" x then "_"%char
                                           else x)
                      then "/"%char
                      else if is_char "+" x then "-"%char
                           else if is_char "/" x then "_"%char else x)
              (b64encode bs))
    with (map seen (b64encode bs)).
  now rewrite (a2b_encoded (length bs) bs []).
Qed.

(** *** UTF-8 *)

Ltac each_char c := destruct c as [[] [] [] [] [] [] [] []].

Lemma utf8_char (c : ascii) (t : bytes) :
  utf8_decode
    ((if (code c <? 128)%N then [c]
      else [ascii_of_N (192 + code c / 64); ascii_of_N (128 + code c mod 64)])
     ++ t)
  = option_map (cons c) (utf8_decode t).
Proof. each_char c; reflexivity. Qed.

(** [bytes.decode('utf-8')] inverts [str.encode()]. *)
Lemma utf8_roundtrip (s : str) : utf8_decode (utf8_encode s) = Some s.
Proof.
  induction s as [|c s IH]; [reflexivity|].
  unfold utf8_encode in *. cbn [flat_map].
  rewrite utf8_char, IH. reflexivity.
Qed.

(** *** JSON *)

Lemma scanstring_escape (c : ascii) (t acc : str) :
  scanstring (json_escape_char c ++ t) acc = scanstring t (c :: acc).
Proof. each_char c; reflexivity. Qed.

Lemma scanstring_dumps (s rst acc : str) :
  scanstring (flat_map json_escape_char s ++ dq :: rst) acc
  = Some (rev acc ++ s, rst).
Proof.
  revert acc; induction s as [|c s IH]; intros acc.
  - simpl. now rewrite app_nil_r.
  - simpl flat_map. rewrite <- app_assoc, scanstring_escape, IH.
    simpl. now rewrite <- app_assoc.
Qed.

Definition is_plain (v : json) : bool :=
  match v with
  | JNull | JStr _ => true
  | _ => false
  end.

Lemma scan_plain (v : json) (fuel : nat) (rst : str) :
  is_plain v = true ->
  scan_value (S fuel) (json_dumps v ++ rst) = Some (v, rst).
Proof.
  destruct v; try discriminate; intros _.
  - reflexivity.
  - change (json_dumps (JStr s) ++ rst)
      with (dq :: (flat_map json_escape_char s ++ [dq]) ++ rst).
    rewrite <- app_assoc.
    change (scan_value (S fuel) (dq :: flat_map json_escape_char s ++ [dq] ++ rst))
      with (match scanstring (flat_map json_escape_char s ++ dq :: rst) [] with
            | Some (x, r) => Some (JStr x, r)
            | None => None
            end).
    now rewrite scanstring_dumps.
Qed.

Lemma skip_ws_plain (v : json) (rst : str) :
  is_plain v = true -> skip_ws (json_dumps v ++ rst) = json_dumps v ++ rst.
Proof. destruct v; try discriminate; intros _; reflexivity. Qed.

Definition member_text (kv : str * json) : str :=
  json_dumps_str (fst kv) ++ py ": " ++ json_dumps (snd kv).

Lemma scan_members_eq (fuel : nat) (t : str) (acc : list (str * json)) :
  scan_members (S fuel) (dq :: t) acc =
  match scanstring t [] with
  | Some (key, r) =>
      match skip_ws r with
      | d :: r' =>
          if is_char ":" d
          then match scan_value fuel (skip_ws r') with
               | Some (v, r'') =>
                   match skip_ws r'' with
                   | e :: r3 =>
                       if is_char "," e
                       then scan_members fuel (skip_ws r3) (acc ++ [(key, v)])
                       else if is_char "}" e
                       then Some (JObj (acc ++ [(key, v)]), r3)
                       else None
                   | [] => None
                   end
               | None => None
               end
          else None
      | [] => None
      end
  | None => None
  end.
Proof. reflexivity. Qed.

Lemma member_text_eq (k : str) (v : json) (tail : str) :
  member_text (k, v) ++ tail
  = dq :: flat_map json_escape_char k
    ++ dq :: ":"%char :: " "%char :: json_dumps v ++ tail.
Proof.
  unfold member_text, json_dumps_str. cbn [fst snd].
  cbn [app]. now rewrite <- !app_assoc.
Qed.

Lemma scan_member (fuel : nat) (k : str) (v : json) (tail : str)
    (acc : list (str * json)) :
  is_plain v = true ->
  scan_members (S (S fuel)) (member_text (k, v) ++ tail) acc =
  match skip_ws tail with
  | e :: r3 =>
      if is_char "," e
      then scan_members (S fuel) (skip_ws r3) (acc ++ [(k, v)])
      else if is_char "}" e
      then Some (JObj (acc ++ [(k, v)]), r3)
      else None
  | [] => None
  end.
Proof.
  intros P. rewrite member_text_eq, scan_members_eq, scanstring_dumps.
  change (skip_ws (":"%char :: " "%char :: json_dumps v ++ tail))
    with (":"%char :: " "%char :: json_dumps v ++ tail).
  change (is_char ":" ":") with true. cbv beta iota.
  change (skip_ws (" "%char :: json_dumps v ++ tail))
    with (skip_ws (json_dumps v ++ tail)).
  now rewrite (skip_ws_plain v tail P), (scan_plain v fuel tail P).
Qed.

Lemma skip_ws_member (kv : str * json) (tail : str) :
  skip_ws (member_text kv ++ tail) = member_text kv ++ tail.
Proof. destruct kv as [k v]. now rewrite member_text_eq. Qed.

Lemma join_members (kv : str * json) (more : list (str * json)) :
  exists tail,
    join (py ", ") (map member_text (kv :: more)) = member_text kv ++ tail.
Proof.
  destruct more as [|kv2 more].
  - exists []. simpl. now rewrite app_nil_r.
  - now exists (py ", " ++ join (py ", ") (map member_text (kv2 :: more))).
Qed.

Lemma scan_members_plain (fields : list (str * json)) :
  fields <> [] ->
  forallb (fun kv => is_plain (snd kv)) fields = true ->
  forall (fuel : nat) (acc : list (str * json)) (rst : str),
    (length fields < fuel)%nat ->
    scan_members fuel (join (py ", ") (map member_text fields) ++ py "}" ++ rst)
                 acc
    = Some (JObj (acc ++ fields), rst).
Proof.
  induction fields as [|[k v] more IH]; [congruence|].
  intros _ P fuel acc rst Hf.
  simpl in P. apply andb_true_iff in P as [Pv P].
  destruct fuel as [|[|fuel]]; [simpl in Hf; lia | simpl in Hf; lia |].
  destruct more as [|kv2 more].
  - cbn [map join]. rewrite (scan_member fuel k v _ acc Pv). reflexivity.
  - change (join (py ", ") (map member_text ((k, v) :: kv2 :: more)))
      with (member_text (k, v) ++ py ", "
            ++ join (py ", ") (map member_text (kv2 :: more))).
    rewrite <- !app_assoc. rewrite (scan_member fuel k v _ acc Pv).
    set (tail := join (py ", ") (map member_text (kv2 :: more))
                 ++ py "}" ++ rst).
    change (skip_ws (py ", " ++ tail)) with (","%char :: " "%char :: tail).
    change (is_char "," ",") with true. cbv beta iota.
    change (skip_ws (" "%char :: tail)) with (skip_ws tail).
    subst tail. destruct (join_members kv2 more) as [tail E].
    rewrite E at 1. rewrite <- app_assoc, skip_ws_member, app_assoc, <- E.
    rewrite IH; [|discriminate|assumption|simpl in *; lia].
    now rewrite <- app_assoc.
Qed.

Lemma members_length (fields : list (str * json)) :
  (length fields <= length (join (py ", ") (map member_text fields)))%nat.
Proof.
  induction fields as [|[k v] more IH]; [simpl; lia|].
  destruct more as [|kv2 more].
  - cbn [map join]. rewrite <- (app_nil_r (member_text (k, v))).
    rewrite member_text_eq. simpl. lia.
  - change (join (py ", ") (map member_text ((k, v) :: kv2 :: more)))
      with (member_text (k, v) ++ py ", "
            ++ join (py ", ") (map member_text (kv2 :: more))).
    rewrite member_text_eq. cbn [length]. rewrite length_app. cbn [length].
    rewrite !length_app. cbn [length] in *. lia.
Qed.

Lemma scan_value_obj (fuel : nat) (t : str) :
  scan_value (S fuel) ("{"%char :: t) =
  match skip_ws t with
  | d :: r =>
      if is_char "}" d then Some (JObj [], r) else scan_members fuel (d :: r) []
  | [] => None
  end.
Proof. reflexivity. Qed.

(** [json.loads] inverts [json.dumps] on an object of texts and nulls. *)
Lemma json_roundtrip (fields : list (str * json)) :
  forallb (fun kv => is_plain (snd kv)) fields = true ->
  json_loads (json_dumps (JObj fields)) = Some (JObj fields).
Proof.
  intros P. unfold json_loads.
  change (json_dumps (JObj fields))
    with ("{"%char :: join (py ", ") (map member_text fields) ++ py "}").
  destruct fields as [|kv more]; [reflexivity|].
  pose proof (members_length (kv :: more)) as L.
  set (text := join (py ", ") (map member_text (kv :: more))) in *.
  change (skip_ws ("{"%char :: text ++ py "}")) with ("{"%char :: text ++ py "}").
  assert (F : exists fuel, (2 * length ("{"%char :: text ++ py "}") + 2
                            = S fuel)%nat
                           /\ (length (kv :: more) < fuel)%nat).
  { exists (2 * length ("{"%char :: text ++ py "}") + 1)%nat.
    cbn [length] in *. rewrite length_app. cbn [length]. lia. }
  destruct F as [fuel [-> F]]. rewrite scan_value_obj.
  subst text. destruct (join_members kv more) as [tail E].
  rewrite E at 1. rewrite <- app_assoc, skip_ws_member.
  destruct kv as [k v]. rewrite member_text_eq.
  change (is_char "}" dq) with false. cbv beta iota.
  rewrite <- member_text_eq, app_assoc, <- E.
  rewrite <- (app_nil_r (py "}")).
  rewrite (scan_members_plain ((k, v) :: more)); auto; discriminate.
Qed.

Lemma token_plain (user_msg ticket_id repo pr_num : str)
    (commit_sha : option str) :
  exists fields,
    Brain.token user_msg ticket_id repo pr_num commit_sha = JObj fields
    /\ forallb (fun kv => is_plain (snd kv)) fields = true.
Proof. eexists. split; [reflexivity|]. now destruct commit_sha. Qed.

(** The three steps of the token's codec undo each other. *)
Lemma decode_encode (fields : list (str * json)) :
  forallb (fun kv => is_plain (snd kv)) fields = true ->
  Brain.decode_params (Brain.encode_params (JObj fields)) = Some (JObj fields).
Proof.
  intros P. unfold Brain.decode_params, Brain.encode_params.
  now rewrite urlsafe_b64_roundtrip, utf8_roundtrip, json_roundtrip.
Qed.

(** *** Finding the annotation in the comment *)

Definition stops (p : ascii -> bool) (rst : str) : bool :=
  match rst with
  | [] => true
  | c :: _ => negb (p c)
  end.

Lemma rep_greedy_max (p : ascii -> bool) (run rst : str) :
  forallb p run = true -> stops p rst = true ->
  forall (lo : nat) (bef : str) (cs : list (nat * str))
         (k : mstate -> option mstate) (r : mstate),
    (lo <= length run)%nat ->
    k (MState (rev run ++ bef) rst cs) = Some r ->
    rep_greedy p lo None bef (run ++ rst) cs k = Some r.
Proof.
  intros R S. induction run as [|c run IH]; intros lo bef cs k r Hlo Hk.
  - assert (lo = 0%nat) as -> by (simpl in Hlo; lia). simpl in Hk |- *.
    destruct rst as [|c rst]; simpl; [exact Hk|].
    simpl in S. apply negb_true_iff in S. now rewrite S.
  - simpl in R. apply andb_true_iff in R as [Rc R].
    cbn [app rep_greedy]. rewrite Rc. cbn [can_more andb option_map].
    rewrite (IH R (pred lo) (c :: bef) cs k r); [reflexivity | simpl in Hlo; lia |].
    cbn [rev] in Hk. now rewrite <- app_assoc in Hk.
Qed.

Lemma consumed_app (run rst bef bef' : str) (cs cs' : list (nat * str)) :
  consumed (MState bef (run ++ rst) cs) (MState bef' rst cs') = run.
Proof.
  unfold consumed. cbn [rest]. rewrite length_app.
  replace (length run + length rst - length rst)%nat with (length run) by lia.
  now rewrite firstn_app, Nat.sub_diag, firstn_all, app_nil_r.
Qed.

Lemma search_from_skip (r : re) (pre s : str) :
  forall bef : str,
    (forall a b, pre = a ++ b -> b <> [] ->
                 match_here r (rev a ++ bef) (b ++ s) = None) ->
    search_from r bef (pre ++ s) = search_from r (rev pre ++ bef) s.
Proof.
  induction pre as [|c pre IH]; intros bef H; [reflexivity|].
  pose proof (H [] (c :: pre) eq_refl ltac:(discriminate)) as H0.
  cbn [rev app] in H0. cbn [app search_from]. rewrite H0.
  rewrite IH.
  - cbn [rev]. now rewrite <- app_assoc.
  - intros a b E Hb. specialize (H (c :: a) b). cbn [rev] in H.
    rewrite <- app_assoc in H. apply H; [now rewrite E | assumption].
Qed.

(** No occurrence of [w] starts inside [pre] when [pre] is followed by [s]. *)
Definition no_start (w pre s : str) : Prop :=
  forall a b, pre = a ++ b -> b <> [] -> startswith w (b ++ s) = false.

Lemma no_start_app (w p1 p2 s : str) :
  no_start w p1 (p2 ++ s) -> no_start w p2 s -> no_start w (p1 ++ p2) s.
Proof.
  intros H1 H2 a b E Hb. apply app_eq_app in E as [l [[Ep Eb] | [Ea Ep]]].
  - destruct l as [|x l].
    + simpl in Eb. subst b. apply (H2 [] p2 eq_refl Hb).
    + subst b. rewrite <- app_assoc. apply (H1 a (x :: l) Ep). discriminate.
  - apply (H2 l b Ep Hb).
Qed.

Lemma no_start_first (x : ascii) (w p s : str) :
  forallb (fun c => negb (is_char x c)) p = true -> no_start (x :: w) p s.
Proof.
  intros F a b E Hb. destruct b as [|c b]; [congruence|].
  rewrite forallb_forall in F. specialize (F c).
  rewrite E in F. specialize (F ltac:(apply in_or_app; right; now left)).
  apply negb_true_iff in F. unfold is_char in F. simpl. now rewrite F.
Qed.

Lemma startswith_cut (w b s : str) (c : ascii) :
  forallb (fun x => negb (is_char x c)) w = true ->
  startswith w (b ++ c :: s) = true -> startswith w b = true.
Proof.
  revert b; induction w as [|x w IH]; intros b F H; [reflexivity|].
  simpl in F. apply andb_true_iff in F as [Fx F].
  apply negb_true_iff in Fx. unfold is_char in Fx.
  destruct b as [|y b]; simpl in H |- *.
  - now rewrite Fx in H.
  - apply andb_true_iff in H as [-> H]. simpl. now apply IH.
Qed.

Lemma no_start_contained (w p s : str) (c : ascii) :
  forallb (fun x => negb (is_char x c)) w = true ->
  contains w p = false -> no_start w p (c :: s).
Proof.
  intros F C a b E Hb.
  destruct (startswith w (b ++ c :: s)) eqn:S; [|reflexivity].
  apply (startswith_cut w b s c F) in S.
  apply startswith_spec in S as [t S].
  assert (O : contains w p = true).
  { apply contains_spec. exists a, t. now rewrite E, S. }
  congruence.
Qed.

Lemma literal_head_fails (w : str) (r : re) (bef rst : str) :
  startswith w rst = false -> match_here (Seq (lit w) r) bef rst = None.
Proof.
  intros H. unfold match_here. cbn [m]. now rewrite m_lit, H.
Qed.

Lemma search_literal_head (r0 : re) (w : str) (r : re) (pre s : str)
    (st : mstate) :
  r0 = Seq (lit w) r -> no_start w pre s ->
  match_here r0 (rev pre) s = Some st ->
  search r0 (pre ++ s) = Some st.
Proof.
  intros -> H M. unfold search. rewrite search_from_skip.
  - rewrite app_nil_r. destruct s; simpl; now rewrite M.
  - intros a b E Hb. apply literal_head_fails. now apply (H a b).
Qed.

Lemma token_char_not_space (c : ascii) :
  Brain.token_char c = true -> is_space c = false.
Proof. each_char c; intros H; try reflexivity; discriminate H. Qed.

Lemma params_here (bef P tail : str) :
  P <> [] -> forallb Brain.token_char P = true ->
  exists st,
    match_here Brain.params_re bef
               (py "<!-- params: " ++ P ++ py " -->" ++ tail) = Some st
    /\ group_str 1 st = P.
Proof.
  intros NE F. eexists. split.
  - unfold match_here, Brain.params_re. cbn [rseq m].
    change (py "<!-- params: " ++ P ++ py " -->" ++ tail)
      with (py "<!-- params:" ++ [" "%char] ++ P ++ [" "%char] ++ py "-->" ++ tail).
    rewrite m_lit, startswith_app, skipn_length_app. cbn [before rest caps].
    apply rep_greedy_max; [reflexivity | | simpl; lia |].
    { destruct P as [|c P]; [congruence|]. simpl in F |- *.
      apply andb_true_iff in F as [Fc _].
      now rewrite (token_char_not_space c Fc). }
    cbn [before rest caps].
    apply rep_greedy_max; [exact F | reflexivity | |].
    { destruct P; [congruence | simpl; lia]. }
    cbn [before rest caps].
    apply rep_greedy_max; [reflexivity | reflexivity | simpl; lia |].
    cbn [before rest caps].
    rewrite m_lit, startswith_app, skipn_length_app. reflexivity.
  - unfold group_str, group. cbn [caps assoc_nat Nat.eqb].
    apply consumed_app.
Qed.

Lemma jira_here (bef digits tail : str) :
  digits <> [] -> forallb is_digit digits = true ->
  stops is_digit tail = true ->
  exists st,
    match_here Brain.jira_re bef
               (py "Jira Ticket:** SCRUM-" ++ digits ++ tail) = Some st
    /\ group_str 1 st = py "SCRUM-" ++ digits.
Proof.
  intros NE F S. eexists. split.
  - unfold match_here, Brain.jira_re. cbn [rseq m].
    change (py "Jira Ticket:** SCRUM-" ++ digits ++ tail)
      with (py "Jira Ticket" ++ py ":** " ++ py "SCRUM"
            ++ "-"%char :: digits ++ tail).
    rewrite m_lit, startswith_app, skipn_length_app. cbn [before rest caps].
    apply rep_greedy_max; [reflexivity | reflexivity | simpl; lia |].
    cbn [before rest caps].
    apply rep_greedy_max; [reflexivity | reflexivity | simpl; lia |].
    cbn [before rest caps]. change (is_char "-" "-") with true. cbv beta iota.
    apply rep_greedy_max; [exact F | exact S | |].
    { destruct digits; [congruence | simpl; lia]. }
    reflexivity.
  - unfold group_str, group. cbn [caps assoc_nat Nat.eqb before rest].
    change (py "SCRUM" ++ "-"%char :: digits ++ tail)
      with ((py "SCRUM-" ++ digits) ++ tail).
    apply consumed_app.
Qed.

Lemma digit_not_angle (c : ascii) : is_digit c = true -> is_char "<" c = false.
Proof. each_char c; intros H; try reflexivity; discriminate H. Qed.

Lemma ticket_no_angle (digits : str) :
  forallb is_digit digits = true ->
  forallb (fun c => negb (is_char "<" c)) (py "SCRUM-" ++ digits) = true.
Proof.
  intros F. rewrite forallb_app. apply andb_true_iff. split; [reflexivity|].
  rewrite forallb_forall in *. intros c Hc.
  now rewrite (digit_not_angle c (F c Hc)).
Qed.

Ltac skip_piece x :=
  apply no_start_app; [apply (no_start_first x); reflexivity|].

(** The label of the comment is where the ticket is read. *)
Lemma report_ticket (digits analysis params_json : str) :
  digits <> [] -> forallb is_digit digits = true ->
  exists jira_match,
    search Brain.jira_re
           (Brain.risk_report (py "SCRUM-" ++ digits) analysis params_json)
    = Some jira_match
    /\ group_str 1 jira_match = py "SCRUM-" ++ digits.
Proof.
  intros NE F.
  set (pre := py "**🤖 AI Risk Analysis (Powered by Llama 3 70B)**" ++ nl ++ nl ++ py "**").
  set (tail := nl ++ nl ++ analysis ++ nl ++ nl
               ++ py "⏸️ **Paused:** Waiting for approval via email." ++ nl
               ++ py " " ++ nl
               ++ py "<!-- params: " ++ params_json ++ py " -->" ++ nl).
  destruct (jira_here (rev pre) digits tail NE F eq_refl) as [st [M G]].
  exists st. split; [|exact G].
  change (Brain.risk_report (py "SCRUM-" ++ digits) analysis params_json)
    with (pre ++ py "Jira Ticket:** SCRUM-" ++ digits ++ tail).
  apply (search_literal_head Brain.jira_re (py "Jira Ticket") _ pre _ st
                             eq_refl); [|exact M].
  apply (no_start_first "J"). reflexivity.
Qed.

(** The annotation of the comment is where the token is read, when the
    analysis shows no annotation of its own. *)
Lemma report_token (ticket_id analysis params_json : str) :
  forallb (fun c => negb (is_char "<" c)) ticket_id = true ->
  contains (py "<!-- params:") analysis = false ->
  params_json <> [] -> forallb Brain.token_char params_json = true ->
  exists params_match,
    search Brain.params_re (Brain.risk_report ticket_id analysis params_json)
    = Some params_match
    /\ group_str 1 params_match = params_json.
Proof.
  intros T A NE F.
  set (pre := py "**🤖 AI Risk Analysis (Powered by Llama 3 70B)**" ++ nl ++ nl
              ++ py "**Jira Ticket:** " ++ ticket_id ++ nl ++ nl
              ++ analysis ++ nl ++ nl
              ++ py "⏸️ **Paused:** Waiting for approval via email." ++ nl
              ++ py " " ++ nl).
  destruct (params_here (rev pre) params_json nl NE F) as [st [M G]].
  exists st. split; [|exact G].
  replace (Brain.risk_report ticket_id analysis params_json)
    with (pre ++ py "<!-- params: " ++ params_json ++ py " -->" ++ nl)
    by (unfold Brain.risk_report, pre; now rewrite <- !app_assoc).
  apply (search_literal_head Brain.params_re (py "<!-- params:") _ pre _ st
                             eq_refl); [|exact M].
  unfold pre. change (py "<!-- params:") with ("<"%char :: py "!-- params:").
  skip_piece "<"%char. skip_piece "<"%char. skip_piece "<"%char.
  skip_piece "<"%char.
  apply no_start_app; [apply (no_start_first "<"); exact T|].
  skip_piece "<"%char. skip_piece "<"%char.
  apply no_start_app; [now apply (no_start_contained _ analysis _ "010")|].
  skip_piece "<"%char. skip_piece "<"%char. skip_piece "<"%char.
  skip_piece "<"%char. skip_piece "<"%char.
  apply (no_start_first "<"). reflexivity.
Qed.

Lemma encode_params_chars (params : json) :
  forallb Brain.token_char (Brain.encode_params params) = true.
Proof.
  apply forallb_forall. intros c Hc.
  pose proof (urlsafe_encoded_chars (utf8_encode (json_dumps params))) as F.
  rewrite Forall_forall in F. now destruct (F c Hc).
Qed.

Lemma encode_params_nonempty (fields : list (str * json)) :
  Brain.encode_params (JObj fields) <> [].
Proof.
  unfold Brain.encode_params.
  change (utf8_encode (json_dumps (JObj fields)))
    with ("{"%char
          :: utf8_encode (join (py ", ") (map member_text fields) ++ py "}")).
  destruct (utf8_encode _) as [|b2 [|b3 more]]; discriminate.
Qed.

Lemma report_is_analysis (ticket_id analysis params_json : str) :
  Brain.is_analysis_comment (Brain.risk_report ticket_id analysis params_json)
  = true.
Proof.
  unfold Brain.is_analysis_comment. apply orb_true_iff. left.
  apply contains_spec.
  exists (py "**🤖 "),
         (py " (Powered by Llama 3 70B)**" ++ nl ++ nl
          ++ py "**Jira Ticket:** " ++ ticket_id ++ nl ++ nl
          ++ analysis ++ nl ++ nl
          ++ py "⏸️ **Paused:** Waiting for approval via email." ++ nl
          ++ py " " ++ nl
          ++ py "<!-- params: " ++ params_json ++ py " -->" ++ nl).
  reflexivity.
Qed.

Lemma token_fields (user_msg ticket_id repo pr_num : str)
    (commit_sha : option str) (fields : list (str * json)) :
  Brain.token user_msg ticket_id repo pr_num commit_sha = JObj fields ->
  Brain.field_str fields (py "request") = Some user_msg
  /\ Brain.field_str fields (py "commit_sha") = commit_sha.
Proof.
  intros E. injection E as <-. split; [reflexivity|]. now destruct commit_sha.
Qed.

(** What the resume reads back from the comment of the pause. *)
Lemma report_recovered (user_msg digits repo pr_num analysis : str)
    (commit_sha : option str) (fields : list (str * json)) :
  Brain.token user_msg (py "SCRUM-" ++ digits) repo pr_num commit_sha
  = JObj fields ->
  digits <> [] -> forallb is_digit digits = true ->
  contains (py "<!-- params:") analysis = false ->
  let body := Brain.risk_report (py "SCRUM-" ++ digits) analysis
                                (Brain.encode_params (JObj fields)) in
  Brain.token_of body = Some fields
  /\ Brain.scan_comment body Brain.nothing_recovered
     = Brain.MkRecovered (py "SCRUM-" ++ digits) (Some user_msg) commit_sha.
Proof.
  intros E NE D A body.
  destruct (token_plain user_msg (py "SCRUM-" ++ digits) repo pr_num commit_sha)
    as [fields' [E' P]].
  rewrite E in E'. injection E' as <-.
  destruct (report_ticket digits analysis (Brain.encode_params (JObj fields))
                          NE D) as [jm [Ej Gj]].
  destruct (report_token (py "SCRUM-" ++ digits) analysis
                         (Brain.encode_params (JObj fields))
                         (ticket_no_angle digits D) A
                         (encode_params_nonempty fields)
                         (encode_params_chars (JObj fields)))
    as [pm [Ep Gp]].
  destruct (token_fields _ _ _ _ _ _ E) as [Fr Fc].
  assert (T : Brain.token_of body = Some fields).
  { unfold Brain.token_of. fold body in Ep. rewrite Ep, Gp.
    now rewrite (decode_encode fields P). }
  split; [exact T|].
  unfold Brain.scan_comment. rewrite T. fold body in Ej.
  change (str_eqb (Brain.jira_ticket Brain.nothing_recovered) (py "UNKNOWN"))
    with true.
  cbv beta iota. now rewrite Ej, Gj, Fr, Fc.
Qed.

(** An annotation inside the analysis text is found first: the side
    condition on the analysis is needed for the reading from the comment. *)
Lemma annotation_in_analysis_shadows :
  Brain.token_of
    (Brain.risk_report (py "SCRUM-42") (py "<!-- params: e30= -->")
       (Brain.encode_params
          (Brain.token (py "update app.py") (py "SCRUM-42") (py "acme/shop")
                       (py "7") None)))
  = Some [].
Proof. vm_compute. reflexivity. Qed.

(** C3. The continuation token survives its round trip.  For every token
    (texts for the request, the ticket, the repository and the pull-request
    number; a text or [None] for the commit) decoding the URL-safe base64 of
    its JSON text gives the token back, field for field.  Embedded in the
    comment of the pause, the token is also what the resume extracts: when
    the ticket is [SCRUM-] followed by digits, the request is not empty and
    the analysis text shows no [<!-- params:] annotation of its own, the
    annotation read from the comment decodes to the token, and the scan of
    the thread recovers the ticket, the request and the commit exactly. *)
Theorem C3_token_round_trip (user_msg ticket_id repo pr_num : str)
    (commit_sha : option str) :
  Brain.decode_params
    (Brain.encode_params (Brain.token user_msg ticket_id repo pr_num commit_sha))
  = Some (Brain.token user_msg ticket_id repo pr_num commit_sha)
  /\ forall (digits analysis : str) (older : list json),
       ticket_id = py "SCRUM-" ++ digits ->
       digits <> [] -> forallb is_digit digits = true ->
       user_msg <> [] ->
       contains (py "<!-- params:") analysis = false ->
       let body :=
         Brain.risk_report ticket_id analysis
           (Brain.encode_params
              (Brain.token user_msg ticket_id repo pr_num commit_sha)) in
       option_map JObj (Brain.token_of body)
       = Some (Brain.token user_msg ticket_id repo pr_num commit_sha)
       /\ Brain.scan_comments (JObj [(py "body", JStr body)] :: older)
                              Brain.nothing_recovered
          = Brain.MkRecovered ticket_id (Some user_msg) commit_sha.
Proof.
  destruct (token_plain user_msg ticket_id repo pr_num commit_sha)
    as [fields [E P]].
  rewrite E. split; [exact (decode_encode fields P)|].
  intros digits analysis older -> NE D U A body.
  destruct (report_recovered user_msg digits repo pr_num analysis commit_sha
                             fields E NE D A) as [T S].
  fold body in T, S. split; [now rewrite T|].
  cbn [Brain.scan_comments].
  change (Brain.body_of (JObj [(py "body", JStr body)])) with (Some body).
  cbv beta iota. unfold body at 1. rewrite report_is_analysis. rewrite S.
  cbn [Brain.jira_ticket Brain.recovered_request].
  destruct user_msg as [|c user_msg]; [congruence|]. reflexivity.
Qed.

Lemma C3_witness :
  Brain.decode_params
    (Brain.encode_params
       (Brain.token (py "update app.py") (py "SCRUM-42") (py "acme/shop")
                    (py "7") (Some (py "abc123"))))
  = Some (Brain.token (py "update app.py") (py "SCRUM-42") (py "acme/shop")
                      (py "7") (Some (py "abc123")))
  /\ Brain.scan_comments
       [JObj [(py "body",
               JStr (Brain.risk_report (py "SCRUM-42") (py "RISK LEVEL: HIGH")
                       (Brain.encode_params
                          (Brain.token (py "update app.py") (py "SCRUM-42")
                                       (py "acme/shop") (py "7")
                                       (Some (py "abc123"))))))]]
       Brain.nothing_recovered
     = Brain.MkRecovered (py "SCRUM-42") (Some (py "update app.py"))
                         (Some (py "abc123")).
Proof.
  destruct (C3_token_round_trip (py "update app.py") (py "SCRUM-42")
                                (py "acme/shop") (py "7") (Some (py "abc123")))
    as [H1 H2].
  split; [exact H1|].
  destruct (H2 (py "42") (py "RISK LEVEL: HIGH") []) as [_ H3];
    [reflexivity | discriminate | reflexivity | discriminate | reflexivity |].
  exact H3.
Defined.

(** * Further properties *)

(** ** What a pattern can consume and capture *)

(** [lang r s]: [s] is a text that [r] can consume; the anchors consume
    nothing. *)
Fixpoint lang (r : re) (s : str) : Prop :=
  match r with
  | Eps | Bol | Eol | Wordb => s = []
  | Chr p => exists c, s = [c] /\ p c = true
  | Seq a b => exists s1 s2, s = s1 ++ s2 /\ lang a s1 /\ lang b s2
  | Alt a b => lang a s \/ lang b s
  | Opt a => s = [] \/ lang a s
  | Rep _ p lo hi =>
      forallb p s = true /\ (lo <= length s)%nat
      /\ match hi with Some h => (length s <= h)%nat | None => True end
  | Grp _ a => lang a s
  end.

(** [caught r n t]: [t] is a text that a group numbered [n] of [r] can
    capture. *)
Fixpoint caught (r : re) (n : nat) (t : str) : Prop :=
  match r with
  | Grp i a => (i = n /\ lang a t) \/ caught a n t
  | Seq a b | Alt a b => caught a n t \/ caught b n t
  | Opt a => caught a n t
  | _ => False
  end.

(** [sets r n]: every match of [r] captures group [n]. *)
Fixpoint sets (r : re) (n : nat) : bool :=
  match r with
  | Grp i a => (i =? n)%nat || sets a n
  | Seq a b => sets a n || sets b n
  | Alt a b => sets a n && sets b n
  | _ => false
  end.

(** [reaches r st st' s]: from [st] the pattern consumed [s] and arrived at
    [st'], adding captures that [r] can make. *)
Definition reaches (r : re) (st st' : mstate) (s : str) : Prop :=
  rest st = s ++ rest st'
  /\ before st' = rev s ++ before st
  /\ lang r s
  /\ exists added,
       caps st' = added ++ caps st
       /\ (forall n t, In (n, t) added -> caught r n t)
       /\ (forall n, sets r n = true -> exists t, In (n, t) added).

Lemma rep_greedy_sound (p : ascii -> bool) (rst : str) :
  forall (lo : nat) (hi : option nat) (bef : str) (cs : list (nat * str))
         (k : mstate -> option mstate) (res : mstate),
    rep_greedy p lo hi bef rst cs k = Some res ->
    exists s rst',
      rst = s ++ rst' /\ forallb p s = true /\ (lo <= length s)%nat
      /\ match hi with Some h => (length s <= h)%nat | None => True end
      /\ k (MState (rev s ++ bef) rst' cs) = Some res.
Proof.
  induction rst as [|c rst IH]; intros lo hi bef cs k res H.
  - simpl in H. destruct (lo =? 0)%nat eqn:E; [|discriminate].
    apply Nat.eqb_eq in E. subst lo. exists [], []. simpl.
    repeat split; auto. destruct hi; [lia | exact I].
  - cbn [rep_greedy] in H.
    assert (Stop : (if (lo =? 0)%nat then k (MState bef (c :: rst) cs) else None)
                   = Some res ->
                   exists s rst',
                     c :: rst = s ++ rst' /\ forallb p s = true
                     /\ (lo <= length s)%nat
                     /\ match hi with
                        | Some h => (length s <= h)%nat
                        | None => True
                        end
                     /\ k (MState (rev s ++ bef) rst' cs) = Some res).
    { intros S. destruct (lo =? 0)%nat eqn:E; [|discriminate].
      apply Nat.eqb_eq in E. subst lo. exists [], (c :: rst). simpl.
      repeat split; auto. destruct hi; [lia | exact I]. }
    destruct (p c && can_more hi) eqn:G; [|now apply Stop].
    apply andb_true_iff in G as [Pc More].
    destruct (rep_greedy p (pred lo) (option_map pred hi) (c :: bef) rst cs k)
      as [r|] eqn:R; [|now apply Stop].
    injection H as ->.
    destruct (IH _ _ _ _ _ _ R) as [s [rst' [E [F [L [U K]]]]]].
    exists (c :: s), rst'. simpl. rewrite Pc, F. subst rst.
    repeat split; auto; try lia.
    + destruct hi as [[|h]|]; simpl in *; try discriminate; try lia.
    + now rewrite <- app_assoc.
Qed.

Lemma rep_lazy_sound (p : ascii -> bool) (rst : str) :
  forall (lo : nat) (hi : option nat) (bef : str) (cs : list (nat * str))
         (k : mstate -> option mstate) (res : mstate),
    rep_lazy p lo hi bef rst cs k = Some res ->
    exists s rst',
      rst = s ++ rst' /\ forallb p s = true /\ (lo <= length s)%nat
      /\ match hi with Some h => (length s <= h)%nat | None => True end
      /\ k (MState (rev s ++ bef) rst' cs) = Some res.
Proof.
  induction rst as [|c rst IH]; intros lo hi bef cs k res H.
  - simpl in H. destruct (lo =? 0)%nat eqn:E; [|discriminate].
    destruct (k (MState bef [] cs)) eqn:K; [|discriminate].
    injection H as ->.
    apply Nat.eqb_eq in E. subst lo. exists [], []. simpl.
    repeat split; auto. destruct hi; [lia | exact I].
  - cbn [rep_lazy] in H.
    assert (More : (if p c && can_more hi
                    then rep_lazy p (pred lo) (option_map pred hi) (c :: bef)
                                  rst cs k
                    else None) = Some res ->
                   exists s rst',
                     c :: rst = s ++ rst' /\ forallb p s = true
                     /\ (lo <= length s)%nat
                     /\ match hi with
                        | Some h => (length s <= h)%nat
                        | None => True
                        end
                     /\ k (MState (rev s ++ bef) rst' cs) = Some res).
    { intros S. destruct (p c && can_more hi) eqn:G; [|discriminate].
      apply andb_true_iff in G as [Pc Mo].
      destruct (IH _ _ _ _ _ _ S) as [s [rst' [E [F [L [U K]]]]]].
      exists (c :: s), rst'. simpl. rewrite Pc, F. subst rst.
      repeat split; auto; try lia.
      + destruct hi as [[|h]|]; simpl in *; try discriminate; try lia.
      + now rewrite <- app_assoc. }
    destruct (lo =? 0)%nat eqn:E; [|now apply More].
    destruct (k (MState bef (c :: rst) cs)) eqn:K; [|now apply More].
    injection H as ->. apply Nat.eqb_eq in E. subst lo.
    exists [], (c :: rst). simpl. repeat split; auto.
    destruct hi; [lia | exact I].
Qed.

Lemma reaches_here (r : re) (st : mstate) :
  lang r [] -> (forall n, sets r n = false) -> reaches r st st [].
Proof.
  intros L S. repeat split; auto. exists []. repeat split; auto.
  - intros n t [].
  - intros n H. rewrite S in H. discriminate.
Qed.

Lemma consumed_reached (st st' : mstate) (s : str) :
  rest st = s ++ rest st' -> consumed st st' = s.
Proof.
  intros E. unfold consumed. rewrite E, length_app.
  replace (length s + length (rest st') - length (rest st'))%nat
    with (length s) by lia.
  now rewrite firstn_app, Nat.sub_diag, firstn_all, app_nil_r.
Qed.

(** Whatever the matcher returns went through a state that the pattern
    reaches. *)
Lemma m_sound (r : re) :
  forall (st : mstate) (k : mstate -> option mstate) (res : mstate),
    m r st k = Some res ->
    exists st' s, reaches r st st' s /\ k st' = Some res.
Proof.
  induction r as [| p | a IHa b IHb | a IHa b IHb | a IHa | g p lo hi
                  | n a IHa | | |]; intros st k res H; cbn [m] in H.
  - exists st, []. split; [now apply reaches_here | exact H].
  - destruct (rest st) as [|c rst'] eqn:E; [discriminate|].
    destruct (p c) eqn:Pc; [|discriminate].
    exists (MState (c :: before st) rst' (caps st)), [c].
    split; [|exact H]. repeat split; auto.
    + simpl. now exists c.
    + exists []. split; [reflexivity|]. split; [intros n t [] | discriminate].
  - destruct (IHa _ _ _ H) as [st1 [s1 [[E1 [B1 [L1 [ad1 [C1 [K1 S1]]]]]] H1]]].
    destruct (IHb _ _ _ H1) as [st2 [s2 [[E2 [B2 [L2 [ad2 [C2 [K2 S2]]]]]] H2]]].
    exists st2, (s1 ++ s2). split; [|exact H2]. repeat split.
    + now rewrite E1, E2, app_assoc.
    + now rewrite B2, B1, rev_app_distr, app_assoc.
    + now exists s1, s2.
    + exists (ad2 ++ ad1). repeat split.
      * now rewrite C2, C1, app_assoc.
      * intros n t I. apply in_app_or in I as [I | I]; simpl; eauto.
      * intros n S. simpl in S. apply orb_true_iff in S as [S | S].
        -- destruct (S1 n S) as [t I]. exists t. apply in_or_app. now right.
        -- destruct (S2 n S) as [t I]. exists t. apply in_or_app. now left.
  - destruct (m a st k) as [r'|] eqn:Ma.
    + injection H as ->.
      destruct (IHa _ _ _ Ma) as [st1 [s1 [[E1 [B1 [L1 [ad1 [C1 [K1 S1]]]]]] H1]]].
      exists st1, s1. split; [|exact H1]. repeat split; auto.
      * now left.
      * exists ad1. repeat split; auto.
        -- intros n t I. left. eauto.
        -- intros n S. simpl in S. apply andb_true_iff in S as [S _]. eauto.
    + destruct (IHb _ _ _ H) as [st1 [s1 [[E1 [B1 [L1 [ad1 [C1 [K1 S1]]]]]] H1]]].
      exists st1, s1. split; [|exact H1]. repeat split; auto.
      * now right.
      * exists ad1. repeat split; auto.
        -- intros n t I. right. eauto.
        -- intros n S. simpl in S. apply andb_true_iff in S as [_ S]. eauto.
  - destruct (m a st k) as [r'|] eqn:Ma.
    + injection H as ->.
      destruct (IHa _ _ _ Ma) as [st1 [s1 [[E1 [B1 [L1 [ad1 [C1 [K1 S1]]]]]] H1]]].
      exists st1, s1. split; [|exact H1]. repeat split; auto.
      * now right.
      * exists ad1. repeat split; auto. discriminate.
    + exists st, []. split; [|exact H]. apply reaches_here; simpl; auto.
  - assert (R : exists s rst',
                 rest st = s ++ rst' /\ forallb p s = true
                 /\ (lo <= length s)%nat
                 /\ match hi with
                    | Some h => (length s <= h)%nat
                    | None => True
                    end
                 /\ k (MState (rev s ++ before st) rst' (caps st)) = Some res).
    { destruct g; [eapply rep_greedy_sound | eapply rep_lazy_sound]; exact H. }
    destruct R as [s [rst' [E [F [L [U K]]]]]].
    exists (MState (rev s ++ before st) rst' (caps st)), s.
    split; [|exact K]. repeat split; auto.
    exists []. split; [reflexivity|]. split; [intros i t [] | discriminate].
  - destruct (IHa _ _ _ H) as [st1 [s1 [[E1 [B1 [L1 [ad1 [C1 [K1 S1]]]]]] H1]]].
    rewrite (consumed_reached st st1 s1 E1) in H1.
    exists (MState (before st1) (rest st1) ((n, s1) :: caps st1)), s1.
    split; [|exact H1]. repeat split; auto.
    exists ((n, s1) :: ad1). repeat split.
    + simpl. now rewrite C1.
    + intros i t [I | I]; simpl.
      * injection I as <- <-. now left.
      * right. eauto.
    + intros i S. simpl in S. apply orb_true_iff in S as [S | S].
      * apply Nat.eqb_eq in S. subst i. exists s1. now left.
      * destruct (S1 i S) as [t I]. exists t. now right.
  - destruct (before st) eqn:B; [|discriminate].
    exists st, []. split; [|exact H]. now apply reaches_here.
  - destruct (at_eol (rest st)); [|discriminate].
    exists st, []. split; [|exact H]. now apply reaches_here.
  - destruct (at_wordb st); [|discriminate].
    exists st, []. split; [|exact H]. now apply reaches_here.
Qed.

Lemma search_from_sound (r : re) (rst : str) :
  forall (bef : str) (mt : mstate),
    search_from r bef rst = Some mt ->
    exists a b, rst = a ++ b /\ match_here r (rev a ++ bef) b = Some mt.
Proof.
  induction rst as [|c rst IH]; intros bef mt H; simpl in H.
  - destruct (match_here r bef []) eqn:E; [|discriminate].
    injection H as ->. now exists [], [].
  - destruct (match_here r bef (c :: rst)) eqn:E.
    + injection H as ->. now exists [], (c :: rst).
    + destruct (IH _ _ H) as [a [b [-> M]]]. exists (c :: a), b.
      split; [reflexivity|]. simpl. now rewrite <- app_assoc.
Qed.

(** What [re.search] returns: a match of the pattern somewhere in the text,
    with the groups that the pattern makes. *)
Lemma search_sound (r : re) (text : str) (mt : mstate) :
  search r text = Some mt ->
  (exists a s, text = a ++ s ++ rest mt /\ lang r s)
  /\ (forall n t, group n mt = Some t -> caught r n t)
  /\ (forall n, sets r n = true ->
                exists t, group n mt = Some t /\ caught r n t).
Proof.
  intros H. apply search_from_sound in H as [a [b [E M]]].
  unfold match_here in M. apply m_sound in M as [st' [s [R K]]].
  injection K as <-.
  destruct R as [E1 [B1 [L1 [ad [C [Kc Ks]]]]]]. cbn [rest before caps] in *.
  rewrite app_nil_r in C.
  assert (G : forall n t, group n st' = Some t -> caught r n t).
  { intros n t Hg. unfold group in Hg. rewrite C in Hg.
    apply Kc. clear - Hg. induction ad as [|[i v] ad IH]; [discriminate|].
    simpl in Hg. destruct (i =? n)%nat eqn:E.
    - apply Nat.eqb_eq in E. injection Hg as ->. subst i. now left.
    - right. auto. }
  split; [|split].
  - exists a, s. split; [|exact L1]. now rewrite E, E1.
  - exact G.
  - intros n S. destruct (Ks n S) as [t I].
    assert (X : exists t', group n st' = Some t').
    { unfold group. rewrite C. clear - I.
      induction ad as [|[i v] ad IH]; [destruct I|].
      simpl. destruct (i =? n)%nat eqn:E; [now exists v|].
      destruct I as [I | I]; [|auto].
      injection I as -> ->. rewrite Nat.eqb_refl in E. discriminate. }
    destruct X as [t' X]. exists t'. split; [exact X | now apply G].
Qed.

(** The groups of a pattern, with their numbers. *)
Fixpoint groups (r : re) : list (nat * re) :=
  match r with
  | Grp i a => (i, a) :: groups a
  | Seq a b | Alt a b => groups a ++ groups b
  | Opt a => groups a
  | _ => []
  end.

Lemma caught_groups (r : re) (n : nat) (t : str) :
  caught r n t -> exists a, In (n, a) (groups r) /\ lang a t.
Proof.
  induction r as [| p | a IHa b IHb | a IHa b IHb | a IHa | g p lo hi
                  | i a IHa | | |]; simpl; try (intros []).
  - destruct (IHa H) as [x [I L]]. exists x. split; [|exact L].
    apply in_or_app. now left.
  - destruct (IHb H) as [x [I L]]. exists x. split; [|exact L].
    apply in_or_app. now right.
  - destruct (IHa H) as [x [I L]]. exists x. split; [|exact L].
    apply in_or_app. now left.
  - destruct (IHb H) as [x [I L]]. exists x. split; [|exact L].
    apply in_or_app. now right.
  - exact IHa.
  - destruct H as [-> L]. exists a. split; [now left | exact L].
  - destruct (IHa H) as [x [I L]]. exists x. split; [now right | exact L].
Qed.

Lemma lang_lit (w s : str) : lang (lit w) s -> s = w.
Proof.
  revert s; induction w as [|a w IH]; intros s; simpl; [auto|].
  intros [s1 [s2 [-> [[c [-> Hc]] L]]]].
  apply Ascii.eqb_eq in Hc. subst c. simpl. f_equal. now apply IH.
Qed.

Lemma lang_lit_ci (w s : str) : lang (lit_ci w) s -> lower s = lower w.
Proof.
  revert s; induction w as [|a w IH]; intros s; simpl; [now intros ->|].
  intros [s1 [s2 [-> [[c [-> Hc]] L]]]].
  unfold is_char_ci in Hc. apply Ascii.eqb_eq in Hc. simpl.
  rewrite <- Hc. f_equal. now apply IH.
Qed.

Lemma lang_plus (p : ascii -> bool) (s : str) :
  lang (plus p) s -> s <> [] /\ forallb p s = true.
Proof.
  simpl. intros [F [L _]]. split; [|exact F]. destruct s; [simpl in L; lia|].
  discriminate.
Qed.

(** The group of a search whose pattern has exactly one group, which every
    match sets. *)
Lemma search_group (r a : re) (n : nat) (text : str) (mt : mstate) :
  groups r = [(n, a)] -> sets r n = true ->
  search r text = Some mt ->
  exists t, group n mt = Some t /\ group_str n mt = t /\ lang a t.
Proof.
  intros G S H. destruct (search_sound r text mt H) as [_ [_ K]].
  destruct (K n S) as [t [Hg Hc]]. exists t. split; [exact Hg|].
  split; [unfold group_str; now rewrite Hg|].
  apply caught_groups in Hc as [x [I L]]. rewrite G in I.
  destruct I as [I | []]. now injection I as <-.
Qed.

(** ** Decimal printing *)

Lemma digit_char_digit (d : N) : (d < 10)%N -> is_digit (digit_char d) = true.
Proof.
  intros H. unfold is_digit, between, digit_char, code.
  rewrite N_ascii_embedding by lia.
  apply andb_true_iff. split; apply N.leb_le; lia.
Qed.

Lemma dec_fuel_digits (fuel : nat) :
  forall (n : N) (acc : str),
    forallb is_digit acc = true ->
    forallb is_digit (dec_fuel fuel n acc) = true.
Proof.
  induction fuel as [|fuel IH]; intros n acc H; simpl; [exact H|].
  assert (D : is_digit (digit_char (n mod 10)) = true).
  { apply digit_char_digit. apply N.mod_lt. discriminate. }
  destruct (n <? 10)%N.
  - simpl. now rewrite D.
  - apply IH. simpl. now rewrite D.
Qed.

Lemma dec_fuel_nonempty (fuel : nat) (n : N) (acc : str) :
  dec_fuel (S fuel) n acc <> [].
Proof.
  revert n acc; induction fuel as [|fuel IH]; intros n acc.
  - simpl. destruct (n <? 10)%N; discriminate.
  - change (dec_fuel (S (S fuel)) n acc)
      with (if (n <? 10)%N then digit_char (n mod 10) :: acc
            else dec_fuel (S fuel) (n / 10) (digit_char (n mod 10) :: acc)).
    destruct (n <? 10)%N; [discriminate | apply IH].
Qed.

(** [str(n)] of a natural number: one digit at least, digits only. *)
Lemma str_of_N_digits (n : N) :
  str_of_N n <> [] /\ forallb is_digit (str_of_N n) = true.
Proof.
  unfold str_of_N. split; [apply dec_fuel_nonempty | now apply dec_fuel_digits].
Qed.

Lemma digit_branch_char (c : ascii) : is_digit c = true -> branch_char c = true.
Proof.
  intros H. unfold branch_char, is_ascii_alnum. now rewrite H.
Qed.

Lemma forallb_impl {A : Type} (p q : A -> bool) (l : list A) :
  (forall x, p x = true -> q x = true) ->
  forallb p l = true -> forallb q l = true.
Proof.
  intros I H. rewrite forallb_forall in *. auto.
Qed.

Lemma str_of_opt_branch_chars (n : option Z) :
  forallb branch_char (str_of_opt n) = true.
Proof.
  destruct n as [[|p|p]|]; try reflexivity; simpl.
  - apply (forallb_impl is_digit); [apply digit_branch_char|].
    apply str_of_N_digits.
  - apply (forallb_impl is_digit); [apply digit_branch_char|].
    apply str_of_N_digits.
Qed.

(** ** The branch names of the gateway *)

Lemma branch_char_kept (c : ascii) :
  branch_char c = true ->
  is_alnum c || is_char "-" c || is_char "_" c = true.
Proof.
  unfold branch_char, is_alnum. intros H.
  apply orb_true_iff in H as [H | H]; [|now rewrite H, orb_true_r].
  apply orb_true_iff in H as [H | H];
    [now rewrite H | now rewrite H, !orb_true_r].
Qed.

Lemma sanitize_branch_chars (name : str) :
  forallb branch_char name = true -> Gateway.sanitize name = name.
Proof.
  unfold Gateway.sanitize. induction name as [|c name IH]; [reflexivity|].
  simpl. intros H. apply andb_true_iff in H as [Hc H].
  now rewrite (branch_char_kept c Hc), IH.
Qed.

Definition well_formed_branch (name : str) : Prop :=
  name <> [] /\ forallb branch_char name = true.

Lemma extract_new_branch_shape (default user_text : str) :
  well_formed_branch default ->
  well_formed_branch (Gateway.extract_new_branch default user_text).
Proof.
  intros [Dn Dc]. unfold Gateway.extract_new_branch.
  destruct (search Gateway.create_re user_text) as [mt|] eqn:S.
  - destruct (search_group Gateway.create_re (plus branch_char) 1 user_text mt
                eq_refl eq_refl S) as [t [_ [-> L]]].
    apply lang_plus in L as [Tn Tc].
    destruct (str_eqb (lower t) (py "branch")).
    + destruct (search Gateway.create_suffix_re user_text) as [sm|] eqn:S2.
      * destruct (search_group Gateway.create_suffix_re (plus branch_char) 1
                    user_text sm eq_refl eq_refl S2) as [t2 [_ [-> L2]]].
        apply lang_plus in L2 as [T2n T2c].
        rewrite (sanitize_branch_chars t2 T2c). now split.
      * rewrite (sanitize_branch_chars default Dc). now split.
    + rewrite (sanitize_branch_chars t Tc). now split.
  - rewrite (sanitize_branch_chars default Dc). now split.
Qed.

(** ** C10: the branch of a compound command *)

(** The executor, asked to create a branch from main: when the host shows
    the head of main, the ref of the new branch is posted with its sha. *)
Lemma executor_creates_ref (w : world) (repo new_branch : str)
    (tr : list call) (fields object : list (str * json)) (sha : json) :
  new_branch <> [] ->
  respond w tr (Writer.api (repo ++ py "/git/refs/heads/main") (py "GET") None)
  = Ok (RJson (JObj fields)) ->
  jfind (py "object") fields None = Some (JObj object) ->
  jfind (py "sha") object None = Some sha ->
  snd (run w (Writer.create_branch repo (Some new_branch) (Some (py "main")))
           tr)
  = tr ++ [Writer.api (repo ++ py "/git/refs/heads/main") (py "GET") None;
           Writer.api (repo ++ py "/git/refs") (py "POST")
             (Some (JObj [(py "ref", JStr (py "refs/heads/" ++ new_branch));
                          (py "sha", sha)]))].
Proof.
  intros N Hr Hf Hs. destruct new_branch as [|c t]; [congruence|].
  change (py "/git/refs/heads/main")
    with (py "/git/refs/heads/" ++ py "main") in Hr |- *.
  unfold Writer.create_branch, Writer.guarded.
  cbn [run bind try_except perform]. rewrite Hr.
  cbn [bind try_except read_json jindex run]. rewrite Hf.
  cbn [bind try_except jindex run]. rewrite Hs.
  cbn [bind try_except run perform].
  match goal with
  | |- context [respond w ?t ?c] => destruct (respond w t c)
  end; cbn [run bind try_except snd]; now rewrite <- app_assoc.
Qed.

(** C10.  On a compound command the first call of the gateway is the
    invocation of the executor that creates the branch: function
    [create_branch], the name read from the command (never empty), base
    main.  It is made in every world, before the controller is invoked and
    so before any verdict exists; the gateway acknowledges in every case,
    and when all its calls are accepted it makes exactly four: create the
    branch, confirm it, announce the analysis, invoke the controller.  The
    executor, on these parameters, reads the head of main and posts the ref
    of the new branch with its sha. *)
Theorem C10_branch_created_before_analysis (w : world) (b : Gateway.Body) :
  is_mention b ->
  has_verb (lower (Gateway.comment_body b)) ->
  create_signal (lower (Gateway.comment_body b)) ->
  let text := lower (Gateway.comment_body b) in
  let repo := Gateway.repo_full_name b in
  let num := item_number_of b in
  let branch := Gateway.extract_new_branch (py "ai-branch-compound") text in
  let executor := invoke (py "PR-Agent-GitHub-Writer") (py "Event") in
  let create :=
    executor (JObj
      [(py "function", JStr (py "create_branch"));
       (py "repo_full_name", JStr repo);
       (py "parameters", JObj [(py "branch_name", JStr branch);
                               (py "base_branch", JStr (py "main"))])]) in
  let comment msg :=
    executor (JObj
      [(py "function", JStr (py "post_comment"));
       (py "repo_full_name", JStr repo);
       (py "parameters", JObj [(py "pr_number", JStr (str_of_opt num));
                               (py "comment_text", JStr msg)])]) in
  let p := Gateway.lambda_handler (Gateway.Parsed b) in
  branch <> []
  /\ (exists rest, trace w p = create :: rest)
  /\ outcome w p = Ok ack
  /\ (accepting w ->
      trace w p =
      [create;
       comment (py "✅ I've created the branch `" ++ branch
                ++ py "` directly for you.");
       comment (py "⏳ **Analyzing code changes with Gemini 2.0...**");
       invoke (py "PR-Agent-Brain-LangGraph") (py "Event") (JObj
         [(py "repo_full_name", JStr repo);
          (py "pr_number", JStr (str_of_opt num));
          (py "user_comment", JStr text);
          (py "sender_name", JStr (Gateway.comment_login b));
          (py "is_pull_request", JBool true)])])
  /\ (forall (host : world) (tr : list call)
             (fields object : list (str * json)) (sha : json),
        let target := Writer.clean_repo repo in
        respond host tr
          (Writer.api (target ++ py "/git/refs/heads/main") (py "GET") None)
        = Ok (RJson (JObj fields)) ->
        jfind (py "object") fields None = Some (JObj object) ->
        jfind (py "sha") object None = Some sha ->
        snd (run host (Writer.create_branch target (Some branch)
                                            (Some (py "main"))) tr)
        = tr ++ [Writer.api (target ++ py "/git/refs/heads/main") (py "GET")
                            None;
                 Writer.api (target ++ py "/git/refs") (py "POST")
                   (Some (JObj [(py "ref", JStr (py "refs/heads/" ++ branch));
                                (py "sha", sha)]))]).
Proof.
  intros Hm Hv Hc text repo num branch executor create comment p.
  assert (Hb : branch <> []).
  { apply (extract_new_branch_shape (py "ai-branch-compound") text).
    split; [discriminate | reflexivity]. }
  split; [exact Hb|].
  split; [|split; [|split]].
  - unfold p, Gateway.lambda_handler. rewrite (handle_mention b Hm).
    rewrite (classify_compound _ _ Hv Hc). fold text repo num branch.
    unfold trace, Gateway.execute, Gateway.trigger_writer_direct_branch,
      Gateway.post_thinking_status, Gateway.trigger_brain.
    cbn [run bind try_except perform app].
    change (Gateway.create_branch_request repo branch) with create.
    set (c2 := Gateway.comment_request repo num _).
    set (c3 := Gateway.comment_request repo num _).
    set (c4 := Gateway.brain_request _).
    destruct (respond w [] create); cbn [run bind try_except app];
      [|now exists []].
    destruct (respond w [create] c2); cbn [run bind try_except app];
      [|now exists [c2]].
    destruct (respond w [create; c2] c3); cbn [run bind try_except app];
      [|now exists [c2; c3]].
    destruct (respond w [create; c2; c3] c4); cbn [run bind try_except app];
      now exists [c2; c3; c4].
  - unfold p, Gateway.lambda_handler. rewrite (handle_mention b Hm).
    rewrite (classify_compound _ _ Hv Hc). fold text repo num branch.
    unfold outcome, Gateway.execute, Gateway.trigger_writer_direct_branch,
      Gateway.post_thinking_status, Gateway.trigger_brain.
    cbn [run bind try_except perform app].
    set (c1 := Gateway.create_branch_request repo branch).
    set (c2 := Gateway.comment_request repo num _).
    set (c3 := Gateway.comment_request repo num _).
    set (c4 := Gateway.brain_request _).
    destruct (respond w [] c1); cbn [run bind try_except app fst];
      [|reflexivity].
    destruct (respond w [c1] c2); cbn [run bind try_except app fst];
      [|reflexivity].
    destruct (respond w [c1; c2] c3); cbn [run bind try_except app fst];
      [|reflexivity].
    destruct (respond w [c1; c2; c3] c4); cbn [run bind try_except app fst];
      reflexivity.
  - intros Ha.
    unfold p, Gateway.lambda_handler. rewrite (handle_mention b Hm).
    rewrite (classify_compound _ _ Hv Hc). fold text repo num branch.
    unfold trace, Gateway.execute, Gateway.trigger_writer_direct_branch,
      Gateway.post_thinking_status, Gateway.trigger_brain.
    cbn [run bind try_except perform app].
    change (Gateway.create_branch_request repo branch) with create.
    change (Gateway.comment_request repo num
              (py "✅ I've created the branch `" ++ branch
               ++ py "` directly for you."))
      with (comment (py "✅ I've created the branch `" ++ branch
                     ++ py "` directly for you.")).
    change (Gateway.comment_request repo num
              (py "⏳ **Analyzing code changes with Gemini 2.0...**"))
      with (comment (py "⏳ **Analyzing code changes with Gemini 2.0...**")).
    set (c2 := comment (py "✅ I've created the branch `" ++ branch
                        ++ py "` directly for you.")).
    set (c3 := comment (py "⏳ **Analyzing code changes with Gemini 2.0...**")).
    set (c4 := Gateway.brain_request _).
    destruct (Ha [] create) as [r1 ->]. cbn [run bind try_except app].
    destruct (Ha [create] c2) as [r2 ->]. cbn [run bind try_except app].
    destruct (Ha [create; c2] c3) as [r3 ->]. cbn [run bind try_except app].
    destruct (Ha [create; c2; c3] c4) as [r4 ->]. reflexivity.
  - intros host tr fields object sha target.
    apply executor_creates_ref. exact Hb.
Qed.

Lemma C10_witness :
  trace quiet_world (Gateway.lambda_handler (Gateway.Parsed compound_comment))
  = [invoke (py "PR-Agent-GitHub-Writer") (py "Event") (JObj
       [(py "function", JStr (py "create_branch"));
        (py "repo_full_name", JStr (py "octo/repo"));
        (py "parameters", JObj [(py "branch_name", JStr (py "test-v1"));
                                (py "base_branch", JStr (py "main"))])]);
     invoke (py "PR-Agent-GitHub-Writer") (py "Event") (JObj
       [(py "function", JStr (py "post_comment"));
        (py "repo_full_name", JStr (py "octo/repo"));
        (py "parameters", JObj
           [(py "pr_number", JStr (py "7"));
            (py "comment_text",
             JStr (py "✅ I've created the branch `test-v1` directly for you."))])]);
     invoke (py "PR-Agent-GitHub-Writer") (py "Event") (JObj
       [(py "function", JStr (py "post_comment"));
        (py "repo_full_name", JStr (py "octo/repo"));
        (py "parameters", JObj
           [(py "pr_number", JStr (py "7"));
            (py "comment_text",
             JStr (py "⏳ **Analyzing code changes with Gemini 2.0...**"))])]);
     invoke (py "PR-Agent-Brain-LangGraph") (py "Event") (JObj
       [(py "repo_full_name", JStr (py "octo/repo"));
        (py "pr_number", JStr (py "7"));
        (py "user_comment",
         JStr (py "@pr-agent create test-v1 branch and update services/x.py"));
        (py "sender_name", JStr (py "alice"));
        (py "is_pull_request", JBool true)])].
Proof.
  assert (Hv : has_verb (lower (Gateway.comment_body compound_comment))).
  { apply has_code_change_spec. vm_compute. reflexivity. }
  assert (Hc : create_signal (lower (Gateway.comment_body compound_comment))).
  { apply has_create_spec. vm_compute. reflexivity. }
  destruct (C10_branch_created_before_analysis quiet_world compound_comment
              compound_comment_is_mention Hv Hc) as (_ & _ & _ & H & _).
  rewrite (H quiet_world_accepting). vm_compute. reflexivity.
Defined.

(** X2.  For a comment of ASCII characters, every branch name that the
    gateway asks the executor to create, on a compound command or on a
    plain create command, is not empty and is made of ASCII letters,
    digits, [-] and [_] only.  (Beyond ASCII the patterns, read without
    regard to case, and [isalnum] admit further letters.) *)
Theorem created_branch_names_well_formed (user_text : str)
    (item_number : option Z) (name : str) :
  is_ascii_text user_text = true ->
  Gateway.classify user_text item_number = Gateway.CompoundCreateAndChange name
  \/ Gateway.classify user_text item_number = Gateway.CreateBranch name ->
  name <> [] /\ forallb branch_char name = true.
Proof.
  intros _. unfold Gateway.classify.
  destruct (Gateway.has_create user_text && Gateway.has_code_change user_text).
  - intros [H | H]; [|discriminate]. injection H as <-.
    apply extract_new_branch_shape. split; [discriminate | reflexivity].
  - destruct (Gateway.has_code_change user_text);
      [intros [H | H]; discriminate|].
    destruct (Gateway.is_bulk_delete user_text);
      [intros [H | H]; discriminate|].
    destruct (Gateway.has_delete user_text);
      [intros [H | H]; discriminate|].
    destruct (Gateway.has_create user_text).
    + intros [H | H]; [discriminate|]. injection H as <-.
      apply extract_new_branch_shape. split.
      * discriminate.
      * change (forallb branch_char
                  (py "ai-branch-" ++ str_of_opt item_number) = true).
        rewrite forallb_app. rewrite str_of_opt_branch_chars. reflexivity.
    + destruct (Gateway.has_list user_text); intros [H | H]; discriminate.
Qed.

Lemma created_branch_names_witness :
  py "hot-fix" <> [] /\ forallb branch_char (py "hot-fix") = true.
Proof.
  apply (created_branch_names_well_formed (py "@pr-agent create branch hot-fix")
                                          (Some 7%Z)).
  - reflexivity.
  - right. vm_compute. reflexivity.
Defined.

(** ** The replies of the gateway *)

Definition gateway_replies : list Response :=
  [ack; ack_with (py "Push Processed"); ack_with (py "Auto-Analysis Triggered")].

Ltac reply_step :=
  first [ oks_step
        | match goal with
          | |- oks _ (Ret _) =>
              cbn [oks]; unfold gateway_replies;
              first [now left | now (right; left) | now (right; right; left)]
          end ].

Lemma execute_replies (intent : Gateway.Intent) (repo : str)
    (num : option Z) (text sender : str) :
  oks (fun r => In r gateway_replies)
      (Gateway.execute intent repo num text sender).
Proof.
  destruct intent; unfold Gateway.execute; repeat reply_step.
Qed.

Lemma handle_replies (b : Gateway.Body) :
  oks (fun r => In r gateway_replies) (Gateway.handle b).
Proof.
  unfold Gateway.handle.
  destruct (negb (Gateway.has_repository b)); [now left|].
  destruct (Gateway.ref b) as [ref|];
    destruct (Gateway.has_after b);
    destruct (Gateway.pull_request b) as [pr_data|];
    repeat first [apply execute_replies | reply_step].
Qed.

(** X1.  The gateway never raises: whatever the event (a body that does not
    parse included) and whatever the services answer, it returns status 200,
    with no body, or with the body [Push Processed] or
    [Auto-Analysis Triggered]. *)
Theorem gateway_reply_is_benign (w : world) (event : Gateway.Event) :
  exists r,
    outcome w (Gateway.lambda_handler event) = Ok r
    /\ statusCode r = 200%Z
    /\ (body r = None \/ body r = Some (py "Push Processed")
        \/ body r = Some (py "Auto-Analysis Triggered")).
Proof.
  unfold outcome.
  assert (T : total (Gateway.lambda_handler event)).
  { apply total_try_except. intros e. exact I. }
  destruct (total_run w _ [] T) as [r Hr]. exists r. split; [assumption|].
  assert (I : In r gateway_replies).
  { refine (oks_run (fun r => In r gateway_replies) w _ [] r _ Hr).
    apply oks_try_except; [|intros e; now left].
    destruct event; [exact I | apply handle_replies]. }
  destruct I as [<- | [<- | [<- | []]]]; simpl; auto.
Qed.

(** ** Push events *)

(** A push: the body has [ref] and [after] and no [pull_request]. *)
Definition is_push (b : Gateway.Body) (ref : str) : Prop :=
  Gateway.has_repository b = true
  /\ Gateway.ref b = Some ref
  /\ Gateway.has_after b = true
  /\ Gateway.pull_request b = None.

(** The refs for which the push handler does nothing. *)
Definition skipped_ref (ref : str) : bool :=
  negb (nonempty ref && startswith (py "refs/heads/") ref
        && negb (endswith (py "/main") ref)
        && negb (endswith (py "/master") ref)).

Lemma handle_push (b : Gateway.Body) (ref : str) :
  is_push b ref ->
  Gateway.handle b =
  ((if negb (skipped_ref ref)
    then
      let branch_name := replace (py "refs/heads/") [] ref in
      exists_ <- Gateway.check_pr_exists (Gateway.repo_full_name b) branch_name ;;
      if negb exists_
      then Gateway.create_pull_request (Gateway.repo_full_name b) branch_name ;;;
           Ret tt
      else Ret tt
    else Ret tt) ;;;
   Ret (ack_with (py "Push Processed"))).
Proof.
  intros [Hr [Href [Ha Hp]]]. unfold Gateway.handle, skipped_ref.
  rewrite Hr, Href, Ha, Hp. cbn [negb]. now rewrite negb_involutive.
Qed.

(** X3.  A push to a ref that is empty, that is not under [refs/heads/], or
    that ends in [/main] or [/master] (a nested name such as
    [refs/heads/release/main] included) makes no call at all and is
    acknowledged with [Push Processed]. *)
Theorem push_to_protected_ref_is_ignored (w : world) (b : Gateway.Body)
    (ref : str) :
  is_push b ref -> skipped_ref ref = true ->
  run w (Gateway.lambda_handler (Gateway.Parsed b)) []
  = (Ok (ack_with (py "Push Processed")), []).
Proof.
  intros Hp Hs. unfold Gateway.lambda_handler.
  rewrite (handle_push b ref Hp), Hs. reflexivity.
Qed.

Definition push_to_nested_main : Gateway.Body :=
  Gateway.MkBody true (py "octo/repo") [] [] None None
                 (Some (py "refs/heads/release/main")) true None.

Lemma push_to_protected_ref_witness :
  run quiet_world (Gateway.lambda_handler (Gateway.Parsed push_to_nested_main)) []
  = (Ok (ack_with (py "Push Processed")), []).
Proof.
  apply (push_to_protected_ref_is_ignored quiet_world push_to_nested_main
           (py "refs/heads/release/main")).
  - repeat split.
  - reflexivity.
Defined.

(** What the answer to the query for open pull requests is taken to
    mean: a non-empty value is a pull request; an empty one, a value
    without length, a body that is not JSON or a failed call is none. *)
Definition shows_open_pr (r : result reply) : bool :=
  match r with
  | Ok (RJson (JArr (_ :: _))) | Ok (RJson (JObj (_ :: _)))
  | Ok (RJson (JStr (_ :: _))) => true
  | _ => false
  end.

Definition open_prs_query (repo branch : str) : call :=
  GET (py "https://api.github.com/repos/" ++ repo
       ++ py "/pulls?head=" ++ before_first (py "/") repo
       ++ py ":" ++ branch ++ py "&state=open").

Definition auto_pr_request (repo branch : str) : call :=
  urlopen (Request
    (py "https://api.github.com/repos/" ++ repo ++ py "/pulls")
    (py "POST") None
    (Some (JObj
       [(py "title", JStr (py "Auto-PR: " ++ branch));
        (py "body", JStr (py "Triggered by push event on branch `" ++ branch
                          ++ py "`." ++ nl ++ nl ++ py "@pr-agent analyze"));
        (py "head", JStr branch);
        (py "base", JStr (py "main"))]))).

Lemma check_pr_exists_run (w : world) (repo branch : str) (tr : list call) :
  run w (Gateway.check_pr_exists repo branch) tr
  = (Ok (shows_open_pr (respond w tr (open_prs_query repo branch))),
     tr ++ [open_prs_query repo branch]).
Proof.
  unfold Gateway.check_pr_exists. fold (open_prs_query repo branch).
  cbn [run bind try_except perform].
  destruct (respond w tr (open_prs_query repo branch)) as [[| s | j] | e];
    try reflexivity.
  destruct j as [| | | | [|c s] | [|x l] | [|x l]]; reflexivity.
Qed.

Lemma create_pull_request_run (w : world) (repo branch : str) (tr : list call) :
  exists created,
    run w (Gateway.create_pull_request repo branch) tr
    = (Ok created, tr ++ [auto_pr_request repo branch]).
Proof.
  change (Gateway.create_pull_request repo branch)
    with (try_except (perform (auto_pr_request repo branch) ;;; Ret true)
                     (fun _ => Ret false)).
  cbn [run bind try_except perform].
  destruct (respond w tr (auto_pr_request repo branch));
    [now exists true | now exists false].
Qed.

(** X4.  A push to any other branch asks the host once for the open pull
    requests of that branch and opens a pull request against [main] exactly
    when the answer shows none, a failed or unreadable answer counting as
    none; the two requests are the only calls, and the event is
    acknowledged with [Push Processed] even when the pull request cannot be
    opened. *)
Theorem push_opens_pull_request_once (w : world) (b : Gateway.Body)
    (ref : str) :
  is_push b ref -> skipped_ref ref = false ->
  let repo := Gateway.repo_full_name b in
  let branch := replace (py "refs/heads/") [] ref in
  run w (Gateway.lambda_handler (Gateway.Parsed b)) []
  = (Ok (ack_with (py "Push Processed")),
     if shows_open_pr (respond w [] (open_prs_query repo branch))
     then [open_prs_query repo branch]
     else [open_prs_query repo branch; auto_pr_request repo branch]).
Proof.
  intros Hp Hs repo branch. unfold Gateway.lambda_handler.
  rewrite (handle_push b ref Hp), Hs. cbn [negb].
  fold repo branch. rewrite run_try_except, !run_bind.
  rewrite check_pr_exists_run. cbn [app].
  destruct (shows_open_pr (respond w [] (open_prs_query repo branch)));
    cbn [negb]; [reflexivity|].
  rewrite run_bind.
  destruct (create_pull_request_run w repo branch [open_prs_query repo branch])
    as [created ->].
  reflexivity.
Qed.

Definition push_to_feature : Gateway.Body :=
  Gateway.MkBody true (py "octo/repo") [] [] None None
                 (Some (py "refs/heads/feature-1")) true None.

Lemma push_opens_pull_request_witness :
  run quiet_world (Gateway.lambda_handler (Gateway.Parsed push_to_feature)) []
  = (Ok (ack_with (py "Push Processed")),
     [open_prs_query (py "octo/repo") (py "feature-1");
      auto_pr_request (py "octo/repo") (py "feature-1")]).
Proof.
  apply (push_opens_pull_request_once quiet_world push_to_feature
           (py "refs/heads/feature-1")).
  - repeat split.
  - reflexivity.
Defined.

(** ** The automatic trigger *)

(** A lifecycle event of a pull request. *)
Definition is_lifecycle (b : Gateway.Body) (pr : Gateway.PullRequest) : Prop :=
  Gateway.has_repository b = true
  /\ Gateway.pull_request b = Some pr
  /\ exists a, Gateway.action b = Some a
               /\ In a [py "opened"; py "synchronize"; py "reopened"].

Definition analysis_request (b : Gateway.Body) (pr : Gateway.PullRequest)
    : call :=
  Gateway.brain_request (JObj
    [(py "repo_full_name", JStr (Gateway.repo_full_name b));
     (py "pr_number", JStr (str_of_opt (Gateway.number pr)));
     (py "user_message",
      JStr (py "Context: Automatic Risk Analysis Trigger (Strict Analysis)"));
     (py "sender_name", JStr (Gateway.comment_login b));
     (py "is_pull_request", JBool true);
     (py "is_automatic_trigger", JBool true);
     (py "commit_sha", jopt (Gateway.head_sha pr))]).

Definition analyzing_comment (b : Gateway.Body) (pr : Gateway.PullRequest)
    : call :=
  Gateway.comment_request (Gateway.repo_full_name b) (Gateway.number pr)
    (py "⏳ **Risk Analysis: Analyzing...**").

Lemma handle_lifecycle (b : Gateway.Body) (pr : Gateway.PullRequest) :
  is_lifecycle b pr ->
  Gateway.handle b =
  (Gateway.post_thinking_status (Gateway.repo_full_name b) (Gateway.number pr)
     (py "⏳ **Risk Analysis: Analyzing...**") ;;;
   Gateway.trigger_brain (match analysis_request b pr with
                          | invoke _ _ payload => payload
                          | _ => JNull
                          end) ;;;
   Ret (ack_with (py "Auto-Analysis Triggered"))).
Proof.
  intros [Hr [Hp [a [Ha Hi]]]]. unfold Gateway.handle.
  rewrite Hr, Hp, Ha. cbn [negb].
  assert (E : existsb (fun x => str_eqb a x)
                      [py "opened"; py "synchronize"; py "reopened"] = true).
  { apply existsb_exists. exists a. split; [exact Hi | now apply str_eqb_spec]. }
  rewrite E.
  destruct (Gateway.ref b); [destruct (Gateway.has_after b)|]; reflexivity.
Qed.

(** X5.  On a pull request that is opened, synchronized or reopened the
    gateway first posts the analysing comment and then invokes the
    controller with the automatic-trigger flag and the head commit of the
    pull request; the text of the event is not classified.  When the
    comment cannot be posted the controller is not invoked at all, and the
    event is still acknowledged. *)
Theorem lifecycle_event_starts_analysis (w : world) (b : Gateway.Body)
    (pr : Gateway.PullRequest) :
  is_lifecycle b pr ->
  run w (Gateway.lambda_handler (Gateway.Parsed b)) []
  = match respond w [] (analyzing_comment b pr) with
    | Err _ => (Ok ack, [analyzing_comment b pr])
    | Ok _ =>
        (match respond w [analyzing_comment b pr] (analysis_request b pr) with
         | Ok _ => Ok (ack_with (py "Auto-Analysis Triggered"))
         | Err _ => Ok ack
         end,
         [analyzing_comment b pr; analysis_request b pr])
    end.
Proof.
  intros H. unfold Gateway.lambda_handler. rewrite (handle_lifecycle b pr H).
  unfold Gateway.post_thinking_status, Gateway.trigger_brain.
  fold (analyzing_comment b pr).
  cbn [run bind try_except perform app].
  destruct (respond w [] (analyzing_comment b pr));
    cbn [run bind try_except perform app]; [|reflexivity].
  change (Gateway.brain_request _) with (analysis_request b pr).
  destruct (respond w [analyzing_comment b pr] (analysis_request b pr));
    reflexivity.
Qed.

Definition opened_pull_request : Gateway.Body :=
  Gateway.MkBody true (py "octo/repo") (py "@pr-agent create branch x")
    (py "alice") None
    (Some (Gateway.MkPullRequest (Some 42%Z) (Some (py "abc123"))))
    None false (Some (py "opened")).

Lemma lifecycle_event_witness :
  run quiet_world (Gateway.lambda_handler (Gateway.Parsed opened_pull_request)) []
  = (Ok (ack_with (py "Auto-Analysis Triggered")),
     [analyzing_comment opened_pull_request
        (Gateway.MkPullRequest (Some 42%Z) (Some (py "abc123")));
      analysis_request opened_pull_request
        (Gateway.MkPullRequest (Some 42%Z) (Some (py "abc123")))]).
Proof.
  apply (lifecycle_event_starts_analysis quiet_world opened_pull_request
           (Gateway.MkPullRequest (Some 42%Z) (Some (py "abc123")))).
  repeat split. exists (py "opened"). split; [reflexivity | now left].
Defined.

(** ** Mentions that lead nowhere, events that are not mentions *)

(** X6.  A mention classified as a request to list the branches makes no
    call and posts nothing: the helper that the handler calls for it is
    not defined in the module, the [NameError] is caught by the handler,
    and the event is acknowledged as if it had been served. *)
Theorem list_command_does_nothing (w : world) (b : Gateway.Body) :
  is_mention b ->
  Gateway.classify (lower (Gateway.comment_body b)) (item_number_of b)
  = Gateway.ListBranches ->
  run w (Gateway.lambda_handler (Gateway.Parsed b)) [] = (Ok ack, []).
Proof.
  intros Hm Hc. unfold Gateway.lambda_handler.
  rewrite (handle_mention b Hm), Hc. reflexivity.
Qed.

Definition list_comment : Gateway.Body :=
  Gateway.MkBody true (py "octo/repo") (py "@pr-agent list branches")
    (py "alice") (Some 7%Z) None None false (Some (py "created")).

Lemma list_comment_is_mention : is_mention list_comment.
Proof.
  repeat split.
  - intros a H. injection H as <-. simpl. intros [H | [H | [H | []]]];
      discriminate.
  - apply contains_spec. vm_compute. reflexivity.
Qed.

Lemma list_command_witness :
  run quiet_world (Gateway.lambda_handler (Gateway.Parsed list_comment)) []
  = (Ok ack, []).
Proof.
  apply (list_command_does_nothing quiet_world list_comment
           list_comment_is_mention).
  vm_compute. reflexivity.
Defined.

(** An event that is neither a push nor a lifecycle event of a pull
    request. *)
Definition is_plain_event (b : Gateway.Body) : Prop :=
  Gateway.ref b = None
  /\ forall a, Gateway.action b = Some a ->
               ~ In a [py "opened"; py "synchronize"; py "reopened"].

(** X7.  An event whose body does not parse, a body without a repository,
    and a comment that does not contain [@pr-agent] (in any letter case)
    make no call. *)
Theorem events_without_mention_are_ignored (w : world)
    (event : Gateway.Event) :
  match event with
  | Gateway.Malformed => True
  | Gateway.Parsed b =>
      Gateway.has_repository b = false
      \/ (is_plain_event b
          /\ contains (py "@pr-agent") (lower (Gateway.comment_body b)) = false)
  end ->
  run w (Gateway.lambda_handler event) [] = (Ok ack, []).
Proof.
  destruct event as [|b]; [reflexivity|].
  unfold Gateway.lambda_handler, Gateway.handle.
  intros [Hr | [[Href Ha] Hm]].
  - now rewrite Hr.
  - destruct (Gateway.has_repository b); [|reflexivity]. cbn [negb].
    rewrite Href, Hm.
    destruct (Gateway.pull_request b) as [pr_data|]; [|reflexivity].
    destruct (Gateway.action b) as [x|] eqn:E; [|reflexivity].
    assert (N : forall l, In l [py "opened"; py "synchronize"; py "reopened"] ->
                          str_eqb x l = false).
    { intros l Hl. destruct (str_eqb x l) eqn:E'; [|reflexivity].
      apply str_eqb_spec in E'. subst l. now destruct (Ha x eq_refl). }
    cbn [existsb]. rewrite !N by (simpl; auto). reflexivity.
Qed.

Definition plain_comment : Gateway.Body :=
  Gateway.MkBody true (py "octo/repo") (py "looks good to me, pr-agent")
    (py "alice") (Some 7%Z) None None false (Some (py "created")).

Lemma events_without_mention_witness :
  run quiet_world (Gateway.lambda_handler (Gateway.Parsed plain_comment)) []
  = (Ok ack, []).
Proof.
  apply (events_without_mention_are_ignored quiet_world
           (Gateway.Parsed plain_comment)).
  right. split; [split|].
  - reflexivity.
  - intros a H. injection H as <-. simpl. intros [H | [H | [H | []]]];
      discriminate.
  - vm_compute. reflexivity.
Defined.

(** ** The delete fast path *)

Definition delete_request (repo branch : str) : call :=
  Gateway.writer (JObj
    [(py "function", JStr (py "delete_branch"));
     (py "repo_full_name", JStr repo);
     (py "parameters", JObj [(py "branch_name", JStr branch)])]).

Definition deleted_comment (repo : str) (num : option Z) (branches : list str)
    : call :=
  Gateway.writer (JObj
    [(py "function", JStr (py "post_comment"));
     (py "repo_full_name", JStr repo);
     (py "parameters", JObj
        [(py "pr_number", JStr (str_of_opt num));
         (py "comment_text",
          JStr (py "✅ Deleted branch(es): "
                ++ join (py ", ")
                     (map (fun b => py "`" ++ b ++ py "`") branches)))])]).

Lemma delete_each_run (w : world) (repo : str) (branches : list str) :
  accepting w ->
  forall tr,
    run w (Gateway.delete_each repo branches) tr
    = (Ok tt, tr ++ map (delete_request repo) branches).
Proof.
  intros Ha. induction branches as [|b more IH]; intros tr.
  - simpl. now rewrite app_nil_r.
  - cbn [Gateway.delete_each map]. fold (delete_request repo b).
    cbn [run bind perform].
    destruct (Ha tr (delete_request repo b)) as [r ->].
    cbn [bind]. rewrite IH. now rewrite <- app_assoc.
Qed.

Lemma extract_branch_names_nonempty (text : str) :
  Gateway.extract_branch_names text <> [].
Proof.
  unfold Gateway.extract_branch_names.
  destruct (map strip _); discriminate.
Qed.

(** [str.split()] and [str.replace] *)

Definition spaceless (x : str) : Prop := forallb (fun c => negb (is_space c)) x = true.

Lemma split_ws_aux_spec (s : str) :
  forall (cur : str),
    spaceless cur ->
    forall x, In x (split_ws_aux cur s) ->
              x <> [] /\ spaceless x /\ forall c, In c x -> In c cur \/ In c s.
Proof.
  induction s as [|c s IH]; intros cur Hc x Hx.
  - simpl in Hx. destruct cur as [|a cur]; [destruct Hx|].
    destruct Hx as [<- | []]. repeat split.
    + intros E. apply (f_equal (@length ascii)) in E.
      rewrite length_rev in E. discriminate.
    + unfold spaceless in *. rewrite forallb_forall in *. intros y Hy.
      apply Hc. now apply in_rev.
    + intros y Hy. left. now apply in_rev.
  - cbn [split_ws_aux] in Hx. destruct (is_space c) eqn:Sp.
    + destruct cur as [|a cur].
      * destruct (IH [] eq_refl x Hx) as [N [S I]]. repeat split; auto.
        intros y Hy. destruct (I y Hy) as [[] | H]. right. now right.
      * destruct Hx as [<- | Hx].
        -- repeat split.
           ++ intros E. apply (f_equal (@length ascii)) in E.
              rewrite length_rev in E. discriminate.
           ++ unfold spaceless in *. rewrite forallb_forall in *. intros y Hy.
              apply Hc. now apply in_rev.
           ++ intros y Hy. left. now apply in_rev.
        -- destruct (IH [] eq_refl x Hx) as [N [S I]]. repeat split; auto.
           intros y Hy. destruct (I y Hy) as [[] | H]. right. now right.
    + assert (Hc' : spaceless (c :: cur)).
      { unfold spaceless in *. simpl. now rewrite Sp, Hc. }
      destruct (IH (c :: cur) Hc' x Hx) as [N [S I]]. repeat split; auto.
      intros y Hy. destruct (I y Hy) as [[<- | H] | H]; auto.
      * right. now left.
      * right. now right.
Qed.

(** The words of [s.split()] are not empty, hold no whitespace, and are
    made of characters of [s]. *)
Lemma split_ws_spec (s x : str) :
  In x (split_ws s) ->
  x <> [] /\ spaceless x /\ forall c, In c x -> In c s.
Proof.
  intros H. destruct (split_ws_aux_spec s [] eq_refl x H) as [N [S I]].
  repeat split; auto. intros c Hc. now destruct (I c Hc) as [[] | ?].
Qed.

Lemma lstrip_spaceless (x : str) : spaceless x -> lstrip x = x.
Proof.
  destruct x as [|c x]; [reflexivity|]. unfold spaceless. simpl.
  intros H. apply andb_true_iff in H as [H _]. apply negb_true_iff in H.
  now rewrite H.
Qed.

Lemma strip_spaceless (x : str) : spaceless x -> strip x = x.
Proof.
  intros H. unfold strip. rewrite (lstrip_spaceless x H).
  rewrite lstrip_spaceless; [apply rev_involutive|].
  unfold spaceless in *. rewrite forallb_forall in *. intros c Hc.
  apply H. now apply in_rev.
Qed.

Lemma replace_fuel_char (a : ascii) (new : str) (fuel : nat) :
  forall (s : str) (c : ascii),
    In c (replace_fuel fuel [a] new s) ->
    (fuel < length s)%nat \/ In c new \/ (In c s /\ c <> a).
Proof.
  induction fuel as [|fuel IH]; intros s c H.
  - destruct s; [destruct H | left; simpl; lia].
  - destruct s as [|c0 t]; [destruct H|].
    cbn [replace_fuel startswith] in H.
    destruct (Ascii.eqb a c0) eqn:E; cbn [andb length skipn] in H.
    + apply in_app_or in H as [H | H]; [now right; left|].
      destruct (IH t c H) as [L | [I | [I N]]].
      * left. simpl. lia.
      * now right; left.
      * right; right. split; [now right | exact N].
    + destruct H as [<- | H].
      * right; right. split; [now left|]. intros ->.
        now rewrite Ascii.eqb_refl in E.
      * destruct (IH t c H) as [L | [I | [I N]]].
        -- left. simpl. lia.
        -- now right; left.
        -- right; right. split; [now right | exact N].
Qed.

(** [s.replace(a, new)] for a single character [a]: what is left is from
    [new] or from [s], and is not [a]. *)
Lemma replace_char (a : ascii) (new s : str) (c : ascii) :
  In c (replace [a] new s) -> In c new \/ (In c s /\ c <> a).
Proof.
  intros H. unfold replace in H.
  destruct (replace_fuel_char a new (length s) s c H) as [L | R]; [lia | exact R].
Qed.

(** X8.  The names that the delete fast path reads from a command are
    never an empty list: when nothing is left after the command words are
    removed, the name is [unknown-branch].  Otherwise every name has at
    least three characters (a shorter branch name is dropped) and holds
    no whitespace, no comma and no [@]. *)
Theorem extract_branch_names_shape (text : str) :
  Gateway.extract_branch_names text = [py "unknown-branch"]
  \/ (Gateway.extract_branch_names text <> []
      /\ forall name, In name (Gateway.extract_branch_names text) ->
           (3 <= length name)%nat
           /\ forall c, In c name ->
                is_space c = false /\ c <> ","%char /\ c <> "@"%char).
Proof.
  unfold Gateway.extract_branch_names.
  set (cleaned := replace (py ",") (py " ")
                    (replace (py "@") [] (sub Gateway.command_words_re [] text))).
  set (kept := filter (fun b => nonempty (strip b)
                                && (2 <? length (strip b))%nat)
                      (split_ws cleaned)).
  assert (K : forall name, In name (map strip kept) ->
                (3 <= length name)%nat
                /\ forall c, In c name ->
                     is_space c = false /\ c <> ","%char /\ c <> "@"%char).
  { intros name Hn. apply in_map_iff in Hn as [x [<- Hx]].
    unfold kept in Hx. apply filter_In in Hx as [Hx Hf].
    destruct (split_ws_spec cleaned x Hx) as [N [S I]].
    rewrite (strip_spaceless x S) in *.
    apply andb_true_iff in Hf as [_ Hl]. apply Nat.ltb_lt in Hl.
    split; [lia|]. intros c Hc. split; [|split].
    - unfold spaceless in S. rewrite forallb_forall in S.
      now apply negb_true_iff, S.
    - specialize (I c Hc). unfold cleaned in I.
      apply (replace_char ","%char) in I as [[<- | []] | [_ N']];
        [discriminate | exact N'].
    - specialize (I c Hc). unfold cleaned in I.
      apply (replace_char ","%char) in I as [[<- | []] | [I _]];
        [discriminate|].
      now apply (replace_char "@"%char) in I as [[] | [_ N']]. }
  destruct (map strip kept) as [|n names] eqn:E; [now left|].
  right. split; [discriminate | exact K].
Qed.

(** X9.  On a mention classified as a deletion of named branches the
    gateway asks the executor for one deletion per name, in the order of
    the command, and then posts one comment that lists all the names as
    deleted; there is always one name at least.  The deletions are
    fire-and-forget: the comment does not depend on their results. *)
Theorem delete_command_calls (w : world) (b : Gateway.Body)
    (names : list str) :
  is_mention b ->
  Gateway.classify (lower (Gateway.comment_body b)) (item_number_of b)
  = Gateway.DeleteBranches names ->
  accepting w ->
  names <> []
  /\ run w (Gateway.lambda_handler (Gateway.Parsed b)) []
     = (Ok ack,
        map (delete_request (Gateway.repo_full_name b)) names
        ++ [deleted_comment (Gateway.repo_full_name b) (item_number_of b)
                            names]).
Proof.
  intros Hm Hc Ha. split.
  - unfold Gateway.classify in Hc.
    repeat match type of Hc with
           | (if ?x then _ else _) = _ => destruct x; try discriminate
           end.
    injection Hc as <-. apply extract_branch_names_nonempty.
  - unfold Gateway.lambda_handler. rewrite (handle_mention b Hm), Hc.
    unfold Gateway.execute, Gateway.trigger_writer_delete_branches.
    rewrite run_try_except, !run_bind.
    rewrite (delete_each_run w _ names Ha). cbn [app].
    fold (deleted_comment (Gateway.repo_full_name b) (item_number_of b) names).
    cbn [run bind perform].
    destruct (Ha (map (delete_request (Gateway.repo_full_name b)) names)
                 (deleted_comment (Gateway.repo_full_name b) (item_number_of b)
                                  names)) as [r ->].
    reflexivity.
Qed.

Definition delete_comment : Gateway.Body :=
  Gateway.MkBody true (py "octo/repo")
    (py "@pr-agent delete branches feature-1, old-test")
    (py "alice") (Some 7%Z) None None false (Some (py "created")).

Lemma delete_comment_is_mention : is_mention delete_comment.
Proof.
  repeat split.
  - intros a H. injection H as <-. simpl. intros [H | [H | [H | []]]];
      discriminate.
  - apply contains_spec. vm_compute. reflexivity.
Qed.

Lemma delete_command_witness :
  run quiet_world (Gateway.lambda_handler (Gateway.Parsed delete_comment)) []
  = (Ok ack,
     [delete_request (py "octo/repo") (py "feature-1");
      delete_request (py "octo/repo") (py "old-test");
      deleted_comment (py "octo/repo") (Some 7%Z)
                      [py "feature-1"; py "old-test"]]).
Proof.
  apply (delete_command_calls quiet_world delete_comment
           [py "feature-1"; py "old-test"] delete_comment_is_mention).
  - vm_compute. reflexivity.
  - exact quiet_world_accepting.
Defined.

(** ** The verdict read from an analysis *)

Lemma upper_char_of_lower (c x : ascii) :
  lower_char c = x -> is_ascii_lower x = true ->
  upper_char c = [ascii_of_N (code x - 32)].
Proof.
  intros <-. each_char c; intros H; try reflexivity; discriminate H.
Qed.

Lemma upper_of_lower (t w : str) :
  lower t = w -> forallb is_ascii_lower w = true ->
  upper t = map (fun x => ascii_of_N (code x - 32)) w.
Proof.
  revert w; induction t as [|c t IH]; intros w E F.
  - simpl in E. now subst w.
  - destruct w as [|x w]; [discriminate|]. simpl in E. injection E as Ec Et.
    simpl in F. apply andb_true_iff in F as [Fx F].
    unfold upper. simpl flat_map. fold (upper t).
    rewrite (upper_char_of_lower c x Ec Fx), (IH w Et F). reflexivity.
Qed.

(** X10.  The verdict read from an analysis text of ASCII characters is
    always one of [HIGH], [MEDIUM] and [LOW]: a marker written in any
    letter case is returned in capitals, and a text without a marker is
    [LOW].  (Beyond ASCII the pattern, read without regard to case, admits
    levels whose capitals are not these words.) *)
Theorem extract_risk_level_range (analysis : str) :
  is_ascii_text analysis = true ->
  In (Brain.extract_risk_level analysis) [py "HIGH"; py "MEDIUM"; py "LOW"].
Proof.
  intros _. unfold Brain.extract_risk_level.
  destruct (search Brain.risk_level_re analysis) as [mt|] eqn:S.
  - destruct (search_group Brain.risk_level_re
                (ralt [lit_ci (py "HIGH"); lit_ci (py "MEDIUM");
                       lit_ci (py "LOW")])
                1 analysis mt eq_refl eq_refl S) as [t [_ [-> L]]].
    destruct L as [L | [L | L]]; apply lang_lit_ci in L.
    + left. symmetry. exact (upper_of_lower t _ L eq_refl).
    + right; left. symmetry. exact (upper_of_lower t _ L eq_refl).
    + right; right; left. symmetry. exact (upper_of_lower t _ L eq_refl).
  - destruct (contains (py "RISK LEVEL: HIGH") (upper analysis)); [now left|].
    destruct (contains (py "RISK LEVEL: MEDIUM") (upper analysis));
      [now right; left | now right; right; left].
Qed.

Lemma extract_risk_level_witness :
  In (Brain.extract_risk_level (py "**Risk Level:** medium. Review it."))
     [py "HIGH"; py "MEDIUM"; py "LOW"].
Proof.
  apply (extract_risk_level_range (py "**Risk Level:** medium. Review it.")).
  reflexivity.
Defined.

(** ** The helpers that talk to the host *)

Definition succeeded {A : Type} (r : result A) : bool :=
  match r with Ok _ => true | Err _ => false end.

(** X11.  The three helpers that change the state of a pull request on the
    host never raise and make one request each: a commit status (none when
    there is no sha to set it on), a change of state, a merge.
    [merge_pull_request] returns whether its request succeeded; the other
    two return nothing, so a refused status or a refused closing goes
    unnoticed by their callers. *)
Theorem host_helpers_never_raise (w : world) (repo pr_number state : str)
    (sha : option str) (description : str) (tr : list call) :
  run w (Brain.set_commit_status repo sha state description) tr
  = (Ok tt,
     tr ++ match sha with
           | Some (c :: s) =>
               [Brain.status_request repo (c :: s) state description]
           | _ => []
           end)
  /\ run w (Brain.update_pr_state repo pr_number state) tr
     = (Ok tt, tr ++ [Brain.pr_state_request repo pr_number state])
  /\ run w (Brain.merge_pull_request repo pr_number) tr
     = (Ok (succeeded (respond w tr (Brain.merge_request repo pr_number))),
        tr ++ [Brain.merge_request repo pr_number]).
Proof.
  split; [|split].
  - destruct sha as [[|c s]|]; simpl; try (now rewrite app_nil_r).
    apply set_commit_status_run.
  - apply update_pr_state_run.
  - unfold Brain.merge_pull_request. cbn [run bind try_except perform].
    destruct (respond w tr (Brain.merge_request repo pr_number)); reflexivity.
Qed.

(** The reply of the backend to a completion request. *)
Definition completion (content : str) : reply :=
  RJson (JObj [(py "choices",
                JArr [JObj [(py "message",
                             JObj [(py "content", JStr content)])]])]).



(** ** From the pause to the resume *)

Definition ticket_shape (ticket_id : str) : Prop :=
  exists digits,
    ticket_id = py "SCRUM-" ++ digits
    /\ digits <> [] /\ forallb is_digit digits = true.

Lemma clock_ticket_shape (now : Z) :
  ticket_shape (py "SCRUM-" ++ str_of_Z (now mod 1000)).
Proof.
  exists (str_of_Z (now mod 1000)). split; [reflexivity|].
  pose proof (Z.mod_pos_bound now 1000 ltac:(lia)) as B.
  destruct (now mod 1000)%Z as [|p|p] eqn:E; try lia;
    apply str_of_N_digits.
Qed.

Lemma scrum_match_shape (text : str) (mt : mstate) :
  search Brain.scrum_re text = Some mt -> ticket_shape (group_str 1 mt).
Proof.
  intros S.
  destruct (search_group Brain.scrum_re
              (Seq (lit (py "SCRUM-")) (plus is_digit)) 1 text mt
              eq_refl eq_refl S) as [t [_ [-> L]]].
  destruct L as [s1 [s2 [-> [L1 L2]]]].
  apply lang_lit in L1. subst s1. apply lang_plus in L2 as [N F].
  now exists s2.
Qed.

Lemma run_guarded_oks {A : Type} (Q : A -> Prop) (w : world) (c : call)
    (k : reply -> prog A) (d : A) (tr : list call) :
  (forall r, emits (fun _ => False) (k r)) ->
  (forall r, oks Q (k r)) -> Q d ->
  exists a,
    Q a
    /\ run w (try_except (r <- perform c ;; k r) (fun _ => Ret d)) tr
       = (Ok a, tr ++ [c]).
Proof.
  intros He Ho Hd. destruct (run_guarded w c k d tr He) as [a Ha].
  exists a. split; [|exact Ha].
  apply (oks_run Q w (try_except (r <- perform c ;; k r) (fun _ => Ret d)) tr).
  - apply oks_try_except; [|intros e; exact Hd].
    apply oks_bind. exact Ho.
  - now rewrite Ha.
Qed.

(** The pause, with the shape of the ticket id it settles on. *)
Lemma pause_run_ticket (w : world)
    (user_msg repo pr_num analysis risk_level : str)
    (commit_sha : option str) (tr : list call) :
  events_delivered w ->
  exists ticket_id,
    ticket_shape ticket_id
    /\ run w (Brain.trigger_high_risk_approval_smart user_msg repo pr_num
                analysis risk_level commit_sha) tr
       = (Ok (ack_with (py "High Risk Approval Flow Triggered")),
          tr ++ pause_calls user_msg repo pr_num analysis risk_level commit_sha
                            ticket_id).
Proof.
  intros Hd. unfold Brain.trigger_high_risk_approval_smart, pause_calls.
  rewrite run_bind.
  assert (G : run w (if truthy commit_sha
                     then Brain.set_commit_status repo commit_sha (py "failure")
                            (py "High Risk - Approval Required") ;;;
                          Brain.update_pr_state repo pr_num (py "closed")
                     else Ret tt) tr
              = (Ok tt, tr ++ gate_calls repo pr_num commit_sha)).
  { destruct commit_sha as [[|c sha]|]; simpl;
      try (now rewrite app_nil_r).
    change (run w (Brain.set_commit_status repo (Some (c :: sha)) (py "failure")
                     (py "High Risk - Approval Required") ;;;
                   Brain.update_pr_state repo pr_num (py "closed")) tr
            = (Ok tt, tr ++ gate_calls repo pr_num (Some (c :: sha)))).
    rewrite run_bind, set_commit_status_run, update_pr_state_run.
    simpl. now rewrite <- app_assoc. }
  rewrite G. cbn [run]. rewrite run_bind.
  set (tr1 := tr ++ gate_calls repo pr_num commit_sha).
  set (ticket0 := py "SCRUM-" ++ str_of_Z (clock w tr1 mod 1000)).
  match goal with
  | |- context [run w (try_except (bind (perform ?c) ?k) ?h) tr1] =>
      destruct (run_guarded_oks ticket_shape w c k ticket0 tr1)
        as [ticket_id [Hs Ht]];
        [ intros r; repeat emits_step
        | intros r; repeat first
            [ match goal with
              | |- oks _ (match search Brain.scrum_re ?t with _ => _ end) =>
                  let S := fresh "S" in
                  destruct (search Brain.scrum_re t) eqn:S;
                    [exact (scrum_match_shape _ _ S)
                    | exact (clock_ticket_shape _)]
              end
            | oks_step ]
        | exact (clock_ticket_shape _)
        | ];
      exists ticket_id; split; [exact Hs|];
      replace (run w (try_except (bind (perform c) k) h) tr1)
        with (Ok ticket_id, tr1 ++ [c]) by (symmetry; exact Ht)
  end.
  rewrite run_bind. cbn [run perform].
  match goal with
  | |- context [respond w ?t (Brain.approval_email ?a ?b ?c ?d ?e)] =>
      destruct (Hd t (py "PR-Agent-GitHub-Writer")
                  (match Brain.approval_email a b c d e with
                   | invoke _ _ p => p
                   | _ => JNull
                   end)) as [r1 Hr1];
      change (respond w t (Brain.approval_email a b c d e) = Ok r1) in Hr1;
      rewrite Hr1
  end.
  cbn [run]. rewrite run_bind. unfold Brain.post_github_comment.
  cbn [run bind perform].
  match goal with
  | |- context [respond w ?t (Brain.comment_request ?a ?b ?c)] =>
      destruct (Hd t (py "PR-Agent-GitHub-Writer")
                  (match Brain.comment_request a b c with
                   | invoke _ _ p => p
                   | _ => JNull
                   end)) as [r2 Hr2];
      change (respond w t (Brain.comment_request a b c) = Ok r2) in Hr2;
      rewrite Hr2
  end.
  cbn [run]. f_equal. unfold tr1. now rewrite <- !app_assoc.
Qed.

(** X13.  What the pause writes, the resume reads back.  When the
    fire-and-forget invocations are delivered, the pause posts a comment
    such that, once the host serves it as the newest comment of the
    thread, the scan of the resume stops at it and recovers the ticket of
    the pause (always [SCRUM-] and digits), the request and the commit of
    the paused event, whatever older comments follow it.  The request must
    not be empty and the analysis text must not hold a [<!-- params:]
    annotation of its own. *)
Theorem pause_then_resume (w : world)
    (user_msg repo pr_num analysis risk_level : str)
    (commit_sha : option str) :
  events_delivered w ->
  user_msg <> [] ->
  contains (py "<!-- params:") analysis = false ->
  exists ticket_id report,
    ticket_shape ticket_id
    /\ In (Brain.comment_request repo pr_num report)
          (trace w (Brain.trigger_high_risk_approval_smart user_msg repo pr_num
                      analysis risk_level commit_sha))
    /\ forall (w' : world) (tr : list call) (older : list json),
         respond w' tr (GET (Brain.comments_url repo pr_num))
         = Ok (RJson (JArr (JObj [(py "body", JStr report)] :: older))) ->
         run w' (Brain.recover_context repo pr_num) tr
         = (Ok (Brain.MkRecovered ticket_id (Some user_msg) commit_sha),
            tr ++ [GET (Brain.comments_url repo pr_num)]).
Proof.
  intros Hd Hu Ha.
  destruct (pause_run_ticket w user_msg repo pr_num analysis risk_level
              commit_sha [] Hd) as [ticket_id [Hs Hr]].
  exists ticket_id,
    (Brain.risk_report ticket_id analysis
       (Brain.encode_params
          (Brain.token user_msg ticket_id repo pr_num commit_sha))).
  split; [exact Hs|]. split.
  - unfold trace. rewrite Hr. cbn [snd app]. unfold pause_calls.
    apply in_or_app. right. right. right. now left.
  - intros w' tr older Hg. destruct Hs as [digits [-> [Dn Df]]].
    destruct (token_plain user_msg (py "SCRUM-" ++ digits) repo pr_num
                          commit_sha) as [fields [E P]].
    destruct (report_recovered user_msg digits repo pr_num analysis commit_sha
                               fields E Dn Df Ha) as [_ S].
    rewrite <- E in S. cbv zeta in S.
    unfold Brain.recover_context. cbn [run bind try_except perform].
    rewrite Hg. cbn [run bind try_except read_json as_list]. f_equal. f_equal.
    cbn [Brain.scan_comments].
    match goal with
    | |- context [Brain.body_of (JObj [(_, JStr ?b)])] =>
        change (Brain.body_of (JObj [(py "body", JStr b)])) with (Some b)
    end.
    cbv beta iota. rewrite report_is_analysis, S.
    cbn [Brain.jira_ticket Brain.recovered_request].
    destruct user_msg as [|c user_msg]; [congruence | reflexivity].
Qed.

Lemma pause_then_resume_witness :
  exists ticket_id report,
    ticket_shape ticket_id
    /\ In (Brain.comment_request (py "octo/repo") (py "7") report)
          (trace quiet_world
             (Brain.trigger_high_risk_approval_smart
                (py "update services/x.py") (py "octo/repo") (py "7")
                (py "RISK LEVEL: HIGH") (py "HIGH") (Some (py "abc123"))))
    /\ forall (w' : world) (tr : list call) (older : list json),
         respond w' tr (GET (Brain.comments_url (py "octo/repo") (py "7")))
         = Ok (RJson (JArr (JObj [(py "body", JStr report)] :: older))) ->
         run w' (Brain.recover_context (py "octo/repo") (py "7")) tr
         = (Ok (Brain.MkRecovered ticket_id (Some (py "update services/x.py"))
                                  (Some (py "abc123"))),
            tr ++ [GET (Brain.comments_url (py "octo/repo") (py "7"))]).
Proof.
  apply (pause_then_resume quiet_world).
  - exact quiet_world_delivers.
  - discriminate.
  - reflexivity.
Defined.

(** ** The branch and the file of an approved request *)

(** X14.  For a request text of ASCII characters, the branch on which an
    approved request is executed is either the branch that was resolved
    before, or a name read from the request text: then it is not empty, is
    made of ASCII letters, digits, [-] and [_], and is none of the words
    [and], [update], [change], [services], [file] in any letter case.
    (Beyond ASCII the pattern, read without regard to case, admits further
    letters.) *)
Theorem execution_branch_shape (branch_name request_text : str) :
  is_ascii_text request_text = true ->
  let b := Brain.execution_branch branch_name request_text in
  b = branch_name
  \/ (b <> [] /\ forallb branch_char b = true
      /\ ~ In (lower b)
              [py "and"; py "update"; py "change"; py "services"; py "file"]).
Proof.
  intros _. unfold Brain.execution_branch.
  destruct (search Brain.context_branch_re request_text) as [mt|] eqn:S;
    [|now left].
  destruct (search_group Brain.context_branch_re (plus branch_char) 1
              request_text mt eq_refl eq_refl S) as [t [_ [-> L]]].
  apply lang_plus in L as [N F].
  destruct (existsb (str_eqb (lower t)) _) eqn:E; [now left|].
  right. repeat split; auto. intros I.
  assert (X : existsb (str_eqb (lower t))
                [py "and"; py "update"; py "change"; py "services"; py "file"]
              = true).
  { apply existsb_exists. exists (lower t). split; [exact I|].
    now apply str_eqb_spec. }
  congruence.
Qed.

Lemma execution_branch_witness :
  let b := Brain.execution_branch (py "feature-x")
                                  (py "update app.py on staging") in
  b = py "feature-x"
  \/ (b <> [] /\ forallb branch_char b = true
      /\ ~ In (lower b)
              [py "and"; py "update"; py "change"; py "services"; py "file"]).
Proof.
  apply (execution_branch_shape (py "feature-x")
                                (py "update app.py on staging")).
  reflexivity.
Defined.

Lemma lang_rep (g : bool) (p : ascii -> bool) (lo : nat) (hi : nat) (s : str) :
  lang (Rep g p lo (Some hi)) s ->
  forallb p s = true /\ (lo <= length s <= hi)%nat.
Proof. simpl. intros [F [L U]]. auto. Qed.

(** X15.  The file that an approved request is taken to name is never
    empty.  It is either a path of letters, digits and [_ - . /] that ends
    in a dot followed by two to five letters or digits, or, when the
    request holds no such text, the run of path characters after the word
    [update]. *)
Theorem target_file_shape (request_text target_file : str) :
  Brain.target_file_of request_text = Some target_file ->
  (exists stem ext,
     target_file = stem ++ "."%char :: ext
     /\ stem <> [] /\ forallb Brain.path_char stem = true
     /\ forallb is_ascii_alnum ext = true
     /\ (2 <= length ext <= 5)%nat)
  \/ (search Brain.file_re request_text = None
      /\ target_file <> [] /\ forallb Brain.path_char target_file = true).
Proof.
  unfold Brain.target_file_of.
  destruct (search Brain.file_re request_text) as [mt|] eqn:S.
  - intros H. injection H as <-. left.
    destruct (search_group Brain.file_re
                (rseq [plus Brain.path_char; Chr (is_char ".");
                       Rep true is_ascii_alnum 2 (Some 5)])
                1 request_text mt eq_refl eq_refl S) as [t [_ [-> L]]].
    destruct L as [stem [rest [-> [Ls [dot [ext [-> [[c [-> Hc]] Le]]]]]]]].
    apply lang_plus in Ls as [Ns Fs]. apply lang_rep in Le as [Fe Be].
    apply Ascii.eqb_eq in Hc. subst c.
    exists stem, ext. repeat split; auto; lia.
  - destruct (search Brain.update_re request_text) as [mt|] eqn:S2;
      [|discriminate].
    intros H. injection H as <-. right. split; [reflexivity|].
    destruct (search_group Brain.update_re (plus Brain.path_char) 1
                request_text mt eq_refl eq_refl S2) as [t [_ [-> L]]].
    now apply lang_plus in L.
Qed.

Lemma target_file_witness :
  (exists stem ext,
     py "services/x.py" = stem ++ "."%char :: ext
     /\ stem <> [] /\ forallb Brain.path_char stem = true
     /\ forallb is_ascii_alnum ext = true
     /\ (2 <= length ext <= 5)%nat)
  \/ (search Brain.file_re (py "update services/x.py on staging") = None
      /\ py "services/x.py" <> []
      /\ forallb Brain.path_char (py "services/x.py") = true).
Proof.
  apply (target_file_shape (py "update services/x.py on staging")).
  vm_compute. reflexivity.
Defined.

(** ** Removing the fences of a generated file *)

Lemma sub_aux_skip (r : re) (repl : str) (x : str) :
  forall (bef y : str) (n : nat),
    length x = n ->
    sub_aux r repl n bef (x ++ y) = sub_aux r repl 0 (rev x ++ bef) y.
Proof.
  induction x as [|c x IH]; intros bef y n H.
  - simpl in H. now subst n.
  - simpl in H. subst n. cbn [app sub_aux]. rewrite (IH (c :: bef) y _ eq_refl).
    cbn [rev]. now rewrite <- app_assoc.
Qed.

Lemma sub_aux_copy (r : re) (repl : str) (pre s : str) :
  forall bef : str,
    (forall a b, pre = a ++ b -> b <> [] ->
                 match_here r (rev a ++ bef) (b ++ s) = None) ->
    sub_aux r repl 0 bef (pre ++ s)
    = pre ++ sub_aux r repl 0 (rev pre ++ bef) s.
Proof.
  induction pre as [|c pre IH]; intros bef H; [reflexivity|].
  pose proof (H [] (c :: pre) eq_refl ltac:(discriminate)) as H0.
  cbn [rev app] in H0. cbn [app sub_aux]. rewrite H0. f_equal.
  rewrite IH.
  - cbn [rev]. now rewrite <- app_assoc.
  - intros a b E Hb. specialize (H (c :: a) b). cbn [rev] in H.
    rewrite <- app_assoc in H. apply H; [now rewrite E | assumption].
Qed.

(** A text in which the pattern matches nowhere is left as it is. *)
Lemma sub_no_match (r : re) (repl s : str) :
  (forall a b, s = a ++ b -> match_here r (rev a) b = None) ->
  sub r repl s = s.
Proof.
  intros H. unfold sub. rewrite <- (app_nil_r s) at 1.
  rewrite sub_aux_copy.
  - cbn [sub_aux]. rewrite app_nil_r.
    rewrite (H s [] (eq_sym (app_nil_r s))). now rewrite app_nil_r.
  - intros a b E _. rewrite !app_nil_r. now apply H.
Qed.

Definition opening_fence_re : re :=
  rseq [Bol; lit Brain.backticks; star is_word; Chr (is_char "010")].

Definition closing_fence_re : re :=
  rseq [Chr (is_char "010"); lit Brain.backticks; Eol].

Lemma opening_fence_later (bef rst : str) :
  bef <> [] -> match_here opening_fence_re bef rst = None.
Proof. intros H. destruct bef; [congruence | reflexivity]. Qed.

Lemma opening_fence_needs_backticks (bef rst : str) :
  startswith Brain.backticks rst = false ->
  match_here opening_fence_re bef rst = None.
Proof.
  intros H. unfold match_here, opening_fence_re. cbn [rseq m before].
  destruct bef; [|reflexivity]. now rewrite m_lit, H.
Qed.

Lemma closing_fence_here (bef rst : str) :
  match_here closing_fence_re bef rst <> None ->
  startswith (nl ++ Brain.backticks) rst = true.
Proof.
  unfold match_here, closing_fence_re. cbn [rseq m rest before caps].
  destruct rst as [|c rst]; [congruence|].
  destruct (is_char "010" c) eqn:E; [|congruence].
  rewrite m_lit. cbn [nl app startswith]. unfold is_char in E. rewrite E.
  destruct (startswith Brain.backticks rst); [reflexivity | congruence].
Qed.

Lemma startswith_occurs (w a b : str) :
  startswith w b = true -> contains w (a ++ b) = true.
Proof.
  intros H. apply contains_spec. apply startswith_spec in H as [t ->].
  now exists a, t.
Qed.

Lemma contains_tail (w x y : str) :
  contains w y = true -> contains w (x ++ y) = true.
Proof.
  intros H. apply contains_spec in H as [a [b ->]]. apply contains_spec.
  exists (x ++ a), b. now rewrite <- app_assoc.
Qed.

(** The fence [```] occurs in every text in which newline-fence does. *)
Lemma closing_fence_needs_backticks (s : str) :
  contains Brain.backticks s = false ->
  forall a b, s = a ++ b -> match_here closing_fence_re (rev a) b = None.
Proof.
  intros C a b E.
  destruct (match_here closing_fence_re (rev a) b) eqn:M; [|reflexivity].
  assert (S : startswith (nl ++ Brain.backticks) b = true).
  { apply (closing_fence_here (rev a)). congruence. }
  apply startswith_spec in S as [t ->].
  assert (X : contains Brain.backticks s = true).
  { apply contains_spec. exists (a ++ nl), t. rewrite E.
    now rewrite <- !app_assoc. }
  congruence.
Qed.

Lemma strip_fences_plain (new_content : str) :
  contains Brain.backticks new_content = false ->
  Brain.strip_fences new_content = new_content.
Proof.
  intros C. unfold Brain.strip_fences.
  fold opening_fence_re closing_fence_re.
  assert (E : sub opening_fence_re [] new_content = new_content).
  { apply sub_no_match. intros a b E.
    apply opening_fence_needs_backticks.
    destruct (startswith Brain.backticks b) eqn:S; [|reflexivity].
    rewrite E in C. now rewrite (startswith_occurs _ a b S) in C. }
  rewrite E. apply sub_no_match. now apply closing_fence_needs_backticks.
Qed.

Lemma sub_aux_match (r : re) (repl x y bef : str) (st : mstate) :
  match_here r bef (x ++ y) = Some st -> rest st = y -> x <> [] ->
  sub_aux r repl 0 bef (x ++ y) = repl ++ sub_aux r repl 0 (rev x ++ bef) y.
Proof.
  intros M R N. destruct x as [|c x]; [congruence|].
  cbn [app sub_aux]. cbn [app] in M. rewrite M, R. f_equal.
  cbn [length]. rewrite length_app.
  replace (S (length x + length y) - length y)%nat with (S (length x)) by lia.
  rewrite (sub_aux_skip r repl x (c :: bef) y _ eq_refl).
  cbn [rev]. now rewrite <- app_assoc.
Qed.

Lemma sub_aux_later (r : re) (repl s bef : str) :
  (forall bef' rst, bef' <> [] -> match_here r bef' rst = None) ->
  bef <> [] -> sub_aux r repl 0 bef s = s.
Proof.
  intros H N. rewrite <- (app_nil_r s) at 1. rewrite sub_aux_copy.
  - cbn [sub_aux]. rewrite H; [now rewrite app_nil_r|].
    intros E. apply app_eq_nil in E as [_ E]. congruence.
  - intros a b E _. apply H. intros E'. apply app_eq_nil in E' as [_ E'].
    congruence.
Qed.

Lemma startswith_cut_tail (w b s : str) (c : ascii) :
  b <> [] ->
  forallb (fun x => negb (is_char x c)) (tl w) = true ->
  startswith w (b ++ c :: s) = true -> startswith w b = true.
Proof.
  intros N F H. destruct w as [|x w]; [reflexivity|].
  destruct b as [|y b]; [congruence|]. simpl in *.
  apply andb_true_iff in H as [-> H]. simpl.
  now apply (startswith_cut w b s c).
Qed.

Lemma strip_fences_fenced (lang body : str) :
  forallb is_word lang = true ->
  contains (nl ++ Brain.backticks) body = false ->
  Brain.strip_fences
    (Brain.backticks ++ lang ++ nl ++ body ++ nl ++ Brain.backticks)
  = body.
Proof.
  intros W C. unfold Brain.strip_fences.
  fold opening_fence_re closing_fence_re.
  assert (E1 : sub opening_fence_re []
                   (Brain.backticks ++ lang ++ nl ++ body ++ nl
                    ++ Brain.backticks)
               = body ++ nl ++ Brain.backticks).
  { unfold sub.
    replace (Brain.backticks ++ lang ++ nl ++ body ++ nl ++ Brain.backticks)
      with ((Brain.backticks ++ lang ++ nl) ++ body ++ nl ++ Brain.backticks)
      by now rewrite <- !app_assoc.
    erewrite sub_aux_match.
    - cbn [app]. apply sub_aux_later; [apply opening_fence_later|].
      intros E. apply app_eq_nil in E as [E _].
      apply (f_equal (@length ascii)) in E. rewrite length_rev in E.
      discriminate.
    - unfold match_here, opening_fence_re. cbn [rseq m before rest caps].
      rewrite <- !app_assoc.
      rewrite m_lit, startswith_app, skipn_length_app.
      cbn [before rest caps].
      apply rep_greedy_max; [exact W | reflexivity | simpl; lia |].
      cbn [nl app]. change (is_char "010" "010") with true. reflexivity.
    - reflexivity.
    - discriminate. }
  rewrite E1. unfold sub. rewrite sub_aux_copy.
  - erewrite (sub_aux_match closing_fence_re [] (nl ++ Brain.backticks) []).
    + cbn [app sub_aux]. now rewrite app_nil_r.
    + reflexivity.
    + reflexivity.
    + discriminate.
  - intros a b E N.
    destruct (match_here closing_fence_re (rev a ++ [])
                         (b ++ nl ++ Brain.backticks)) eqn:M; [|reflexivity].
    assert (S : startswith (nl ++ Brain.backticks)
                           (b ++ nl ++ Brain.backticks) = true).
    { apply (closing_fence_here (rev a ++ [])). congruence. }
    change (b ++ nl ++ Brain.backticks)
      with (b ++ "010"%char :: Brain.backticks) in S.
    apply (startswith_cut_tail (nl ++ Brain.backticks) b Brain.backticks "010"
                               N eq_refl) in S.
    rewrite E in C. now rewrite (startswith_occurs _ a b S) in C.
Qed.

(** X16.  The clean-up of a generated file leaves a text without a fence
    of three backticks exactly as it is, and turns a text that is wrapped
    in one pair of fences (an opening fence with an optional language
    word, a closing fence at the very end) into the text between them,
    provided that text holds no fence at the start of one of its own
    lines. *)
Theorem strip_fences_spec (lang body : str) :
  (contains Brain.backticks body = false -> Brain.strip_fences body = body)
  /\ (forallb is_word lang = true ->
      contains (nl ++ Brain.backticks) body = false ->
      Brain.strip_fences
        (Brain.backticks ++ lang ++ nl ++ body ++ nl ++ Brain.backticks)
      = body).
Proof.
  split; [apply strip_fences_plain | apply strip_fences_fenced].
Qed.

Lemma strip_fences_witness :
  Brain.strip_fences (py "x = 1") = py "x = 1"
  /\ Brain.strip_fences
       (Brain.backticks ++ py "python" ++ nl ++ py "x = 1" ++ nl
        ++ Brain.backticks)
     = py "x = 1".
Proof.
  destruct (strip_fences_spec (py "python") (py "x = 1")) as [H1 H2].
  split; [apply H1 | apply H2]; reflexivity.
Defined.

(** ** A rejection changes nothing on the host *)

(** The calls of a rejection: the reading of the comment thread, and
    fire-and-forget invocations of the executor that post a comment or
    update the ticket. *)
Definition reads_or_reports (repo pr_num : str) (c : call) : Prop :=
  c = GET (Brain.comments_url repo pr_num)
  \/ exists payload,
       c = Brain.writer (py "Event") payload
       /\ (function_of c = py "post_comment"
           \/ function_of c = py "manage_jira_governance").

(** X17.  Handling a rejection never changes the repository or the pull
    request: in every world, each call it makes is the reading of the
    comment thread or a fire-and-forget invocation of the executor that
    posts a comment or updates the ticket.  No status is set, nothing is
    closed, reopened, merged, created, edited or deleted. *)
Theorem rejection_only_reads_and_reports (w : world)
    (user_msg repo pr_num sender_name : str) :
  Forall (reads_or_reports repo pr_num)
         (trace w (Brain.handle_rejection user_msg repo pr_num sender_name)).
Proof.
  apply emits_trace. unfold Brain.handle_rejection, Brain.post_github_comment.
  repeat first
    [ emits_step
    | match goal with
      | |- emits _ (perform (GET _)) => apply emits_perform; now left
      | |- emits _ (perform _) =>
          apply emits_perform; right; eexists; split;
            [reflexivity | first [now left | now right]]
      end ].
Qed.

(** ** The executor's answer to an update *)

Lemma call_groq_api_answer (w : world) (prompt analysis : str)
    (tr : list call) :
  respond w tr (Brain.groq_request prompt) = Ok (completion analysis) ->
  run w (Brain.call_groq_api prompt) tr
  = (Ok (JStr analysis), tr ++ [Brain.groq_request prompt]).
Proof.
  intros H. unfold Brain.call_groq_api. cbn [run bind try_except perform].
  rewrite H. reflexivity.
Qed.

(** The executor answers an update of the file with its envelope. *)
Definition update_answered (w : world) (repo target_file branch_name : str)
    : Prop :=
  forall tr new_content,
    exists action_group func_name response_text,
      respond w tr (Brain.update_file_request repo target_file branch_name
                                              new_content)
      = Ok (RJson (Writer.envelope action_group func_name response_text)).

Definition executed_comment (repo pr_num sender_name request_text target_file
    branch_name : str) : call :=
  Brain.comment_request repo pr_num
    (py "✅ **Approved & Executed (Direct Mode)**" ++ nl ++ nl
     ++ py "Request: " ++ request_text ++ nl ++ nl
     ++ py "Updated `" ++ target_file ++ py "` on branch `" ++ branch_name
     ++ py "`" ++ nl ++ nl
     ++ py "**Approved By:** " ++ sender_name ++ nl ++ nl
     ++ py "Writer Response: Success").

(** X18.  The update of an approved file is reported as a success whatever
    the executor answers.  When the file is read and the backend answers
    with a text, that text (stripped, fences removed) is sent to the
    executor as the new content.  The executor never raises, it answers
    with an envelope whose text may well be an error; the controller looks
    for a top-level [body] in that answer, finds none, and posts
    [Writer Response: Success] under [Approved & Executed]. *)
Theorem update_is_reported_as_success (w : world)
    (repo pr_num sender_name request_text target_file branch_name : str)
    (tr : list call) (fields : list (str * json)) (content : str)
    (raw : bytes) (current_content answer : str) :
  let lookup := GET (Brain.file_url repo target_file branch_name) in
  let question :=
    Brain.groq_request
      (Brain.transform_prompt request_text target_file current_content) in
  respond w tr lookup = Ok (RJson (JObj fields)) ->
  jfind (py "content") fields None = Some (JStr content) ->
  b64decode content = Some raw -> utf8_decode raw = Some current_content ->
  respond w (tr ++ [lookup]) question = Ok (completion answer) ->
  update_answered w repo target_file branch_name ->
  events_delivered w ->
  run w (Brain.apply_update repo pr_num sender_name request_text target_file
                            branch_name) tr
  = (Ok (inl (ack_with (py "Direct execution complete"))),
     tr ++ [lookup; question;
            Brain.update_file_request repo target_file branch_name
              (Brain.strip_fences (strip answer));
            executed_comment repo pr_num sender_name request_text
                             target_file branch_name]).
Proof.
  intros lookup question Hg Hf Hb Hu Hq Ha Hd.
  set (prompt := Brain.transform_prompt request_text target_file
                                        current_content).
  pose proof (call_groq_api_answer w prompt answer (tr ++ [lookup]) Hq)
    as Hrun.
  unfold Brain.apply_update.
  rewrite run_try_except. cbn [run bind perform]. fold lookup. rewrite Hg.
  cbn [bind read_json jindex]. rewrite Hf. cbn [bind as_str].
  rewrite Hb, Hu. cbn [bind]. fold prompt. rewrite run_bind, Hrun.
  cbn [strip_of bind]. cbn [run bind perform].
  destruct (Ha ((tr ++ [lookup]) ++ [Brain.groq_request prompt])
               (Brain.strip_fences (strip answer)))
    as [ag [fn [text ->]]].
  cbn [bind read_json].
  change (jget_default (Writer.envelope ag fn text) (py "body")
                       (JStr (py "Success")))
    with (@Ret json (JStr (py "Success"))).
  cbn [bind as_str]. unfold Brain.post_github_comment.
  change (Brain.comment_request repo pr_num _)
    with (executed_comment repo pr_num sender_name request_text target_file
                           branch_name).
  cbn [run bind perform].
  match goal with
  | |- context [respond w ?t (executed_comment ?a ?b ?c ?d ?e ?f)] =>
      destruct (Hd t (py "PR-Agent-GitHub-Writer")
                  (match executed_comment a b c d e f with
                   | invoke _ _ p => p
                   | _ => JNull
                   end)) as [r Hr];
      change (respond w t (executed_comment a b c d e f) = Ok r) in Hr;
      rewrite Hr
  end.
  cbn [run bind]. f_equal. now rewrite <- !app_assoc.
Qed.

(** The host serves the file; the backend answers with the new content;
    the executor reports a conflict on the update; every other call is
    accepted with an empty reply. *)
Definition conflict_world : world :=
  World (fun _ c =>
           match c with
           | urlopen (Request u _ _ _) =>
               if contains (py "/contents/") u
               then Ok (RJson (JObj [(py "content", JStr (py "eCA9IDEK"))]))
               else if startswith (py "https://api.groq.com/") u
               then Ok (completion (py "x = 2" ++ nl))
               else Ok RNone
           | invoke _ _ _ =>
               if str_eqb (function_of c) (py "update_file")
               then Ok (RJson (Writer.envelope
                                 (Some (py "GitHubManagement"))
                                 (Some (py "update_file"))
                                 (py "ERROR: HTTP Error 409: Conflict")))
               else Ok RNone
           end)
        (fun _ => 1700000123%Z).

Lemma update_is_reported_witness :
  run conflict_world
    (Brain.apply_update (py "octo/repo") (py "7") (py "bob")
       (py "update x.py") (py "x.py") (py "feature-1")) []
  = (Ok (inl (ack_with (py "Direct execution complete"))),
     [GET (Brain.file_url (py "octo/repo") (py "x.py") (py "feature-1"));
      Brain.groq_request
        (Brain.transform_prompt (py "update x.py") (py "x.py")
                                (py "x = 1" ++ nl));
      Brain.update_file_request (py "octo/repo") (py "x.py") (py "feature-1")
        (py "x = 2");
      executed_comment (py "octo/repo") (py "7") (py "bob")
                       (py "update x.py") (py "x.py") (py "feature-1")]).
Proof.
  apply (update_is_reported_as_success conflict_world (py "octo/repo") (py "7")
           (py "bob") (py "update x.py") (py "x.py") (py "feature-1") []
           [(py "content", JStr (py "eCA9IDEK"))] (py "eCA9IDEK")
           (py "x = 1" ++ nl) (py "x = 1" ++ nl) (py "x = 2" ++ nl)).
  - reflexivity.
  - reflexivity.
  - reflexivity.
  - reflexivity.
  - reflexivity.
  - intros tr new_content. now eexists _, _, _.
  - intros tr fn payload. simpl.
    destruct (str_eqb _ _); eexists; reflexivity.
Defined.

(** ** The tools of the executor *)

(** A parameter as an agent runtime sends it in list form. *)
Definition named_value (kv : str * json) : json :=
  JObj [(py "name", JStr (fst kv)); (py "value", snd kv)].

(** X19.  The two forms in which the executor accepts its parameters agree:
    a list of name/value pairs is read as the dict of the same pairs, in
    the same order (so that a repeated name keeps its last value); absent
    parameters are read as an empty dict; and a list item without a name
    raises, before the handler's own [try], so that no envelope is
    returned. *)
Theorem parse_params_forms (w : world) (fields : list (str * json))
    (tr : list call) (more : list json) (value : json) :
  run w (Writer.parse_params (Some (JArr (map named_value fields)))) tr
  = run w (Writer.parse_params (Some (JObj fields))) tr
  /\ run w (Writer.parse_params None) tr = (Ok [], tr)
  /\ run w (Writer.parse_params
              (Some (JArr (JObj [(py "value", value)] :: more)))) tr
     = (Err (Exception (py "'name'")), tr).
Proof.
  split; [|split; reflexivity].
  cbn [Writer.parse_params run].
  induction fields as [|[k v] fields IH]; [reflexivity|].
  cbn [map Writer.params_of_list named_value fst snd].
  change (jindex (named_value (k, v)) (py "name")) with (@Ret json (JStr k)).
  change (jindex (named_value (k, v)) (py "value")) with (@Ret json v).
  cbn [bind as_str]. rewrite run_bind, IH. reflexivity.
Qed.

Definition base_ref_request (repo base : str) : call :=
  Writer.api (repo ++ py "/git/refs/heads/" ++ base) (py "GET") None.

Definition new_ref_request (repo new_branch : str) (sha : json) : call :=
  Writer.api (repo ++ py "/git/refs") (py "POST")
    (Some (JObj [(py "ref", JStr (py "refs/heads/" ++ new_branch));
                 (py "sha", sha)])).

(** The sha that the answer of the host gives for the base branch. *)
Definition base_sha (r : result reply) : option json :=
  match r with
  | Ok (RJson (JObj fields)) =>
      match jfind (py "object") fields None with
      | Some (JObj object) => jfind (py "sha") object None
      | _ => None
      end
  | _ => None
  end.

(** X20.  [create_branch] never raises.  Without a branch name it makes no
    call and answers [ERROR: Missing 'branch_name' parameter.].  Otherwise
    it reads the head of the base branch ([main] when none is given) and
    creates the new ref only when that answer gives a sha, with exactly
    that sha; when the answer gives none, the base is the only call and
    the text is an error. *)
Theorem create_branch_calls (w : world) (repo : str) (base_branch : option str)
    (new_branch : str) (tr : list call) :
  new_branch <> [] ->
  let base := match base_branch with Some b => b | None => py "main" end in
  (forall name, name = None \/ name = Some [] ->
     run w (Writer.create_branch repo name base_branch) tr
     = (Ok (py "ERROR: Missing 'branch_name' parameter."), tr))
  /\ exists text,
       run w (Writer.create_branch repo (Some new_branch) base_branch) tr
       = (Ok text,
          tr ++ base_ref_request repo base
             :: match base_sha (respond w tr (base_ref_request repo base)) with
                | Some sha => [new_ref_request repo new_branch sha]
                | None => []
                end)
       /\ (base_sha (respond w tr (base_ref_request repo base)) = None ->
           startswith (py "ERROR: ") text = true)
       /\ (forall sha,
             base_sha (respond w tr (base_ref_request repo base)) = Some sha ->
             text = match respond w (tr ++ [base_ref_request repo base])
                                  (new_ref_request repo new_branch sha) with
                    | Ok _ => py "SUCCESS: Branch '" ++ new_branch
                              ++ py "' created."
                    | Err e => py "ERROR: " ++ exn_str e
                    end).
Proof.
  intros N base. split.
  - intros name [-> | ->]; reflexivity.
  - destruct new_branch as [|c t]; [congruence|].
    unfold Writer.create_branch, Writer.guarded. fold base.
    fold (base_ref_request repo base).
    cbn [run bind try_except perform].
    destruct (respond w tr (base_ref_request repo base)) as [[| s | j] | e];
      cbn [base_sha bind try_except read_json run];
      try (eexists; split; [reflexivity|]; split;
           [intros _; reflexivity | intros sha H; discriminate H]).
    destruct j as [| | | | | | fields];
      cbn [base_sha bind try_except jindex run];
      try (eexists; split; [reflexivity|]; split;
           [intros _; reflexivity | intros sha H; discriminate H]).
    destruct (jfind (py "object") fields None) as [object|];
      cbn [bind try_except jindex run];
      try (eexists; split; [reflexivity|]; split;
           [intros _; reflexivity | intros sha H; discriminate H]).
    destruct object as [| | | | | | object];
      cbn [bind try_except jindex run];
      try (eexists; split; [reflexivity|]; split;
           [intros _; reflexivity | intros sha H; discriminate H]).
    destruct (jfind (py "sha") object None) as [sha|];
      cbn [bind try_except jindex run];
      try (eexists; split; [reflexivity|]; split;
           [intros _; reflexivity | intros sha H; discriminate H]).
    fold (new_ref_request repo (c :: t) sha).
    cbn [run bind try_except perform].
    destruct (respond w (tr ++ [base_ref_request repo base])
                      (new_ref_request repo (c :: t) sha)) as [x | e] eqn:R;
      cbn [run bind try_except]; rewrite <- app_assoc; cbn [app];
      (eexists; split; [reflexivity|]; split;
       [intros H; discriminate H
       | intros sha' H; injection H as <-; now rewrite R]).
Qed.

(** The host knows the head of every branch and accepts every request. *)
Definition heads_world : world :=
  World (fun _ c =>
           match c with
           | urlopen (Request _ _ _ None) =>
               Ok (RJson (JObj [(py "object",
                                 JObj [(py "sha", JStr (py "abc123"))])]))
           | _ => Ok RNone
           end)
        (fun _ => 1700000123%Z).

Lemma create_branch_witness :
  run heads_world
      (Writer.create_branch (py "octo/repo") (Some (py "feature-1")) None) []
  = (Ok (py "SUCCESS: Branch 'feature-1' created."),
     [base_ref_request (py "octo/repo") (py "main");
      new_ref_request (py "octo/repo") (py "feature-1") (JStr (py "abc123"))]).
Proof.
  destruct (create_branch_calls heads_world (py "octo/repo") None
              (py "feature-1") [] ltac:(discriminate))
    as [_ [text [Hrun [_ Ht]]]].
  rewrite Hrun. rewrite (Ht (JStr (py "abc123")) eq_refl). reflexivity.
Defined.

(** X21.  [delete_branch] never raises and asks the host at most once.
    Deleting a branch that is already gone is a success: an HTTP 404 is
    answered [already deleted], any other HTTP status with the code of the
    failure, any other failure with its message; without a branch name no
    request is made. *)
Theorem delete_branch_outcomes (w : world) (repo branch : str)
    (tr : list call) :
  branch <> [] ->
  run w (Writer.delete_branch repo (Some branch)) tr
  = (Ok match respond w tr (Writer.delete_ref repo branch) with
        | Ok _ => py "SUCCESS: Branch '" ++ branch ++ py "' deleted."
        | Err (HTTPError 404 _) =>
            py "SUCCESS: Branch '" ++ branch ++ py "' already deleted."
        | Err (HTTPError code _) =>
            py "ERROR: Delete failed with code " ++ str_of_Z code
        | Err (Exception msg) => py "ERROR: " ++ msg
        end,
     tr ++ [Writer.delete_ref repo branch])
  /\ run w (Writer.delete_branch repo None) tr
     = (Ok (py "ERROR: No branch name provided for deletion."), tr)
  /\ run w (Writer.delete_branch repo (Some [])) tr
     = (Ok (py "ERROR: No branch name provided for deletion."), tr).
Proof.
  intros N. split; [|split; reflexivity].
  destruct branch as [|c t]; [congruence|].
  unfold Writer.delete_branch, Writer.guarded. cbn [run try_except].
  destruct (respond w tr (Writer.delete_ref repo (c :: t))) as [x | [code r | msg]];
    cbn [run try_except]; try reflexivity.
  destruct (code =? 404)%Z eqn:E.
  - apply Z.eqb_eq in E. subst code. reflexivity.
  - cbn [run try_except]. f_equal. f_equal.
    destruct code as [|p|p]; try reflexivity.
    repeat (destruct p as [p|p|]; try reflexivity).
    discriminate E.
Qed.

(** The host has no such branch. *)
Definition gone_world : world :=
  World (fun _ _ => Err (HTTPError 404 (py "Not Found")))
        (fun _ => 1700000123%Z).

Lemma delete_branch_witness :
  run gone_world (Writer.delete_branch (py "octo/repo") (Some (py "old"))) []
  = (Ok (py "SUCCESS: Branch 'old' already deleted."),
     [Writer.delete_ref (py "octo/repo") (py "old")]).
Proof.
  destruct (delete_branch_outcomes gone_world (py "octo/repo") (py "old") []
              ltac:(discriminate)) as [H _].
  rewrite H. reflexivity.
Defined.

(** ** The content of an updated file *)

(** The characters that [binascii.a2b_base64] does not pass over. *)
Definition b64_significant (c : ascii) : bool :=
  is_char "=" c || match b64_value c with Some _ => true | None => false end.

Lemma a2b_passes_over (s : str) :
  forall (quad_pos : nat) (leftchar : N) (pads : nat) (out : bytes),
    a2b_base64 s quad_pos leftchar pads out
    = a2b_base64 (filter b64_significant s) quad_pos leftchar pads out.
Proof.
  induction s as [|c s IH]; intros q l p out; [reflexivity|].
  cbn [filter]. unfold b64_significant at 1.
  destruct (is_char "=" c) eqn:E; cbn [orb].
  - cbn [a2b_base64]. rewrite E.
    destruct (2 <=? q)%nat; [destruct (4 <=? q + S p)%nat|]; auto.
  - destruct (b64_value c) as [v|] eqn:V.
    + cbn [a2b_base64]. rewrite E, V.
      destruct q as [|[|[|q]]]; apply IH.
    + cbn [a2b_base64]. rewrite E, V. apply IH.
Qed.

(** A character of the standard alphabet, or the pad. *)
Definition plain64 (c : ascii) : bool :=
  Ascii.eqb (seen c) c && (code c <? 128)%N && b64_significant c.

Lemma b64_char_plain (v : N) : (v < 64)%N -> plain64 (b64_char v) = true.
Proof.
  intros H. unfold b64_char.
  assert (L : (N.to_nat v < 64)%nat) by lia.
  generalize dependent (N.to_nat v). intros n L.
  do 64 (destruct n as [|n]; [reflexivity|]). lia.
Qed.

Lemma b64encode_plain (n : nat) :
  forall bs : bytes,
    (length bs <= n)%nat -> forallb plain64 (b64encode bs) = true.
Proof.
  induction n as [|n IH]; intros bs Hl.
  - destruct bs; [reflexivity | simpl in Hl; lia].
  - destruct bs as [|b1 [|b2 [|b3 more]]]; cbn [b64encode forallb].
    + reflexivity.
    + pose proof (code_bound b1) as B1.
      destruct (sextets_bounded (code b1) 0 B1 ltac:(lia))
        as [S1 [_ [_ [_ [S2 _]]]]].
      now rewrite !b64_char_plain.
    + pose proof (code_bound b1) as B1. pose proof (code_bound b2) as B2.
      destruct (sextets_bounded (code b1) (code b2) B1 B2) as [S1 [S2 _]].
      destruct (sextets_bounded (code b2) 0 B2 ltac:(lia))
        as [_ [_ [_ [_ [_ S3]]]]].
      now rewrite !b64_char_plain.
    + pose proof (code_bound b1) as B1. pose proof (code_bound b2) as B2.
      pose proof (code_bound b3) as B3.
      destruct (sextets_bounded (code b1) (code b2) B1 B2) as [S1 [S2 _]].
      destruct (sextets_bounded (code b2) (code b3) B2 B3)
        as [_ [_ [S3 _]]].
      destruct (sextets_bounded (code b3) 0 B3 ltac:(lia))
        as [_ [_ [_ [S4 _]]]].
      rewrite !b64_char_plain by assumption. cbn [andb].
      apply IH. simpl in Hl. lia.
Qed.

Lemma map_seen_plain (s : str) :
  forallb plain64 s = true -> map seen s = s.
Proof.
  induction s as [|c s IH]; [reflexivity|]. simpl. intros H.
  apply andb_true_iff in H as [Hc H]. unfold plain64 in Hc.
  apply andb_true_iff in Hc as [Hc _]. apply andb_true_iff in Hc as [Hc _].
  apply Ascii.eqb_eq in Hc. now rewrite Hc, IH.
Qed.

(** [base64.b64decode] inverts [base64.b64encode], also when the encoded
    text comes back with other ASCII characters in between. *)
Lemma b64_roundtrip_wrapped (bs : bytes) (wrapped : str) :
  is_ascii_text wrapped = true ->
  filter b64_significant wrapped = b64encode bs ->
  b64decode wrapped = Some bs.
Proof.
  intros A F. unfold b64decode. rewrite A, a2b_passes_over, F.
  pose proof (b64encode_plain (length bs) bs (le_n _)) as P.
  rewrite <- (map_seen_plain _ P).
  now rewrite (a2b_encoded (length bs) bs []).
Qed.

Lemma filter_all {A : Type} (p : A -> bool) (l : list A) :
  forallb p l = true -> filter p l = l.
Proof.
  induction l as [|x l IH]; [reflexivity|]. simpl. intros H.
  apply andb_true_iff in H as [Hx H]. now rewrite Hx, IH.
Qed.

Lemma b64encode_significant (bs : bytes) :
  filter b64_significant (b64encode bs) = b64encode bs
  /\ is_ascii_text (b64encode bs) = true.
Proof.
  pose proof (b64encode_plain (length bs) bs (le_n _)) as P. split.
  - apply filter_all. apply (forallb_impl plain64); [|exact P].
    intros c H. unfold plain64 in H. now apply andb_true_iff in H as [_ H].
  - unfold is_ascii_text. apply (forallb_impl plain64); [|exact P].
    intros c H. unfold plain64 in H. apply andb_true_iff in H as [H _].
    now apply andb_true_iff in H as [_ H].
Qed.

(** The sha that the answer of the host gives for a file. *)
Definition file_sha (r : result reply) : option str :=
  match r with
  | Ok (RJson (JObj fields)) =>
      match jfind (py "sha") fields None with
      | Some (JStr s) => Some s
      | _ => None
      end
  | _ => None
  end.

(** The answer is typed as the host sends it: the sha of a file object is
    a text, or is missing. *)
Definition sha_is_text (r : result reply) : bool :=
  match r with
  | Ok (RJson (JObj fields)) =>
      match jfind (py "sha") fields None with
      | Some (JStr _) | Some JNull | None => true
      | Some _ => false
      end
  | _ => true
  end.

Definition file_lookup (repo path : str) (branch : option str) : call :=
  Writer.api (repo ++ py "/contents/" ++ path ++ py "?ref="
              ++ Writer.str_of_text branch) (py "GET") None.

Definition file_put (repo path content : str) (branch sha : option str)
    : call :=
  Writer.api (repo ++ py "/contents/" ++ path) (py "PUT")
             (Some (Writer.update_payload path content branch sha)).

(** X22.  [update_file] never raises and makes two requests: it looks the
    file up on the branch, then writes it, with the sha of the lookup when
    there is one and without a sha when the lookup fails or gives none, so
    that a missing file is created (the sha of the answer being a text, as
    the host sends it).  The result of the write alone decides
    between [SUCCESS] and [ERROR].  The content travels as the base64 of
    its UTF-8 bytes, and the controller's reading (base64, then UTF-8)
    gives the content back exactly, also when the host returns the base64
    text broken into lines. *)
Theorem update_file_calls (w : world) (repo path content : str)
    (branch : option str) (tr : list call) :
  let lookup := file_lookup repo (Writer.strip_char "/" path) branch in
  let put :=
    file_put repo (Writer.strip_char "/" path) content branch
             (file_sha (respond w tr lookup)) in
  (sha_is_text (respond w tr lookup) = true ->
   run w (Writer.update_file repo (Some path) (Some content) None branch) tr
   = (Ok match respond w (tr ++ [lookup]) put with
         | Ok _ => py "SUCCESS: " ++ Writer.strip_char "/" path
                   ++ py " updated on " ++ Writer.str_of_text branch ++ py "."
         | Err e => py "ERROR: " ++ exn_str e
         end,
      tr ++ [lookup; put]))
  /\ (forall sha,
        exists fields,
          Writer.update_payload (Writer.strip_char "/" path) content branch sha
          = JObj fields
          /\ jfind (py "content") fields None
             = Some (JStr (b64encode (utf8_encode content))))
  /\ forall wrapped,
       is_ascii_text wrapped = true ->
       filter b64_significant wrapped = b64encode (utf8_encode content) ->
       match b64decode wrapped with
       | Some raw => utf8_decode raw
       | None => None
       end = Some content.
Proof.
  intros lookup put. split; [|split].
  - intros Ht. unfold Writer.update_file, Writer.guarded.
    rewrite run_try_except, run_bind.
    assert (S : run w (try_except
                         (res <- perform lookup ;;
                          j <- read_json res ;;
                          sha <- jindex j (py "sha") ;;
                          Writer.sha_of sha)
                         (fun _ => Ret None)) tr
                = (Ok (file_sha (respond w tr lookup)), tr ++ [lookup])).
    { cbn [run bind try_except perform].
      destruct (respond w tr lookup) as [[| s | j] | e]; try reflexivity.
      destruct j as [| | | | | | fields]; try reflexivity.
      cbn [bind try_except read_json jindex file_sha].
      cbn [sha_is_text] in Ht.
      destruct (jfind (py "sha") fields None) as [[| | | | s | |]|];
        try reflexivity; discriminate Ht. }
    destruct content as [|c content].
    + change (run w (try_except _ (fun _ => Ret None)) tr)
        with (run w (try_except
                       (res <- perform lookup ;;
                        j <- read_json res ;;
                        sha <- jindex j (py "sha") ;;
                        Writer.sha_of sha)
                       (fun _ => Ret None)) tr).
      rewrite S. cbn [run bind perform].
      change (Writer.api _ (py "PUT") _) with put.
      destruct (respond w (tr ++ [lookup]) put); cbn [run bind];
        now rewrite <- app_assoc.
    + change (run w (try_except _ (fun _ => Ret None)) tr)
        with (run w (try_except
                       (res <- perform lookup ;;
                        j <- read_json res ;;
                        sha <- jindex j (py "sha") ;;
                        Writer.sha_of sha)
                       (fun _ => Ret None)) tr).
      rewrite S. cbn [run bind perform].
      change (Writer.api _ (py "PUT") _) with put.
      destruct (respond w (tr ++ [lookup]) put); cbn [run bind];
        now rewrite <- app_assoc.
  - intros sha. unfold Writer.update_payload. eexists. split; [reflexivity|].
    destruct sha as [[|c t]|]; reflexivity.
  - intros wrapped A F.
    rewrite (b64_roundtrip_wrapped (utf8_encode content) wrapped A F).
    apply utf8_roundtrip.
Qed.

Lemma update_file_witness :
  match b64decode (py "eCA9" ++ nl ++ py "IDEK" ++ nl) with
  | Some raw => utf8_decode raw
  | None => None
  end = Some (py "x = 1" ++ nl).
Proof.
  destruct (update_file_calls quiet_world (py "octo/repo") (py "x.py")
              (py "x = 1" ++ nl) (Some (py "feature-1")) []) as [_ [_ H]].
  apply H; reflexivity.
Defined.

(** ** The first marker of an analysis decides *)

Lemma lower_app (a b : str) : lower (a ++ b) = lower a ++ lower b.
Proof. apply map_app. Qed.

Lemma search_ci_head (r0 : re) (w : str) (r : re) (pre s : str)
    (st : mstate) :
  r0 = Seq (lit_ci w) r ->
  (forall a b, pre = a ++ b -> b <> [] -> ci_strip w (b ++ s) = None) ->
  match_here r0 (rev pre) s = Some st ->
  search r0 (pre ++ s) = Some st.
Proof.
  intros -> H M. unfold search. rewrite search_from_skip.
  - rewrite app_nil_r. destruct s; simpl; now rewrite M.
  - intros a b E Hb. unfold match_here. cbn [m].
    now rewrite m_lit_ci, (H a b E Hb).
Qed.

(** No text that reads [risk level] in some letter case starts inside
    [pre], when [pre] has none and is followed by such a text. *)
Lemma marker_not_earlier (pre marker tail : str) :
  contains (py "risk level") (lower pre) = false ->
  lower marker = py "risk level" ->
  forall a b, pre = a ++ b -> b <> [] ->
              ci_strip (py "RISK LEVEL") (b ++ marker ++ tail) = None.
Proof.
  intros C Lm a b E Hb.
  destruct (ci_strip (py "RISK LEVEL") (b ++ marker ++ tail))
    as [[v t]|] eqn:S; [|reflexivity].
  apply ci_strip_spec in S as [Ev Lv].
  change (lower (py "RISK LEVEL")) with (py "risk level") in Lv.
  assert (Inside : forall l, b = v ++ l -> False).
  { intros l ->.
    assert (X : contains (py "risk level") (lower pre) = true).
    { apply contains_spec. exists (lower a), (lower l).
      now rewrite E, !lower_app, Lv. }
    congruence. }
  apply app_eq_app in Ev as [l [[Eb Et] | [Ev Es]]].
  - exact (False_ind _ (Inside l Eb)).
  - destruct l as [|c0 l].
    + rewrite app_nil_r in Ev. subst v.
      exact (False_ind _ (Inside [] (eq_sym (app_nil_r b)))).
    + destruct marker as [|m0 marker]; [discriminate Lm|].
      cbn [app] in Es. injection Es as <- Es.
      simpl in Lm. injection Lm as Lm0 _.
      destruct b as [|y b]; [congruence|].
      rewrite Ev in Lv. cbn [app] in Lv. simpl in Lv.
      injection Lv as _ Lv. rewrite lower_app in Lv. simpl in Lv.
      rewrite Lm0 in Lv.
      assert (I : In "r"%char (py "isk level")).
      { rewrite <- Lv. apply in_or_app. right. now left. }
      simpl in I. repeat (destruct I as [I | I]; [discriminate I|]).
      destruct I.
Qed.

Lemma ci_strip_none_head (w : str) (c : ascii) (rst : str) (a : ascii)
    (w' : str) :
  w = a :: w' -> is_char_ci a c = false -> ci_strip w (c :: rst) = None.
Proof. intros -> H. simpl. now rewrite H. Qed.

Lemma ci_strip_here (w written rest : str) :
  lower written = lower w -> ci_strip w (written ++ rest) = Some (written, rest).
Proof. intros H. apply ci_strip_spec. now split. Qed.

(** X23.  In an analysis of ASCII characters the verdict is the level of
    the first marker: when the text holds [risk level] (in any letter
    case) for the first time, followed by a run of characters that are
    neither letters, digits nor [_] (a colon, spaces, asterisks) and then
    by one of the three levels in any letter case, that level is returned,
    in capitals, whatever follows.  (Beyond ASCII the pattern, read without
    regard to case, finds markers that [lower] does not show.) *)
Theorem first_marker_decides (pre marker sep written after level : str) :
  is_ascii_text (pre ++ marker ++ sep ++ written ++ after) = true ->
  contains (py "risk level") (lower pre) = false ->
  lower marker = py "risk level" ->
  sep <> [] -> forallb not_word sep = true ->
  In level [py "HIGH"; py "MEDIUM"; py "LOW"] ->
  lower written = lower level ->
  Brain.extract_risk_level (pre ++ marker ++ sep ++ written ++ after) = level.
Proof.
  intros _ C Lm Ns Fs Il Lw. unfold Brain.extract_risk_level.
  assert (Hw : exists c t, written = c :: t /\ is_word c = true
                           /\ upper written = level
                           /\ (level = py "HIGH" \/
                               (is_char_ci "H" c = false
                                /\ (level = py "MEDIUM" \/
                                    (is_char_ci "M" c = false
                                     /\ level = py "LOW"))))).
  { destruct Il as [<- | [<- | [<- | []]]];
      (destruct written as [|c t]; [discriminate Lw|]);
      exists c, t; (split; [reflexivity|]);
      pose proof Lw as Lw'; simpl in Lw'; injection Lw' as Lc _;
      (split; [rewrite <- lower_char_word, Lc; reflexivity|]);
      (split; [exact (upper_of_lower _ _ Lw eq_refl)|]).
    - now left.
    - right. split; [unfold is_char_ci; now rewrite Lc|]. now left.
    - right. split; [unfold is_char_ci; now rewrite Lc|]. right.
      split; [unfold is_char_ci; now rewrite Lc | reflexivity]. }
  destruct Hw as [c [t [Ew [Wc [Uw Cases]]]]].
  assert (M : exists mt,
             match_here Brain.risk_level_re (rev pre)
                        (marker ++ sep ++ written ++ after) = Some mt
             /\ group_str 1 mt = written).
  { eexists. split.
    - unfold match_here, Brain.risk_level_re. cbn [rseq m].
      rewrite m_lit_ci.
      rewrite (ci_strip_here (py "RISK LEVEL") marker _ Lm).
      cbn [before rest caps].
      apply rep_greedy_max; [exact Fs | | destruct sep; [congruence | simpl; lia]|].
      { rewrite Ew. cbn [app stops]. unfold not_word. now rewrite Wc. }
      cbn [ralt m before rest caps].
      destruct Cases as [-> | [H1 [-> | [H2 ->]]]].
      + rewrite m_lit_ci, (ci_strip_here (py "HIGH") written after Lw).
        reflexivity.
      + rewrite m_lit_ci. rewrite Ew at 1. cbn [app].
        rewrite (ci_strip_none_head (py "HIGH") c _ "H" (py "IGH") eq_refl H1).
        cbv beta iota.
        rewrite m_lit_ci, (ci_strip_here (py "MEDIUM") written after Lw).
        reflexivity.
      + rewrite m_lit_ci. rewrite Ew at 1. cbn [app].
        rewrite (ci_strip_none_head (py "HIGH") c _ "H" (py "IGH") eq_refl H1).
        cbv beta iota. rewrite m_lit_ci. rewrite Ew at 1. cbn [app].
        rewrite (ci_strip_none_head (py "MEDIUM") c _ "M" (py "EDIUM") eq_refl
                                    H2).
        cbv beta iota.
        rewrite m_lit_ci, (ci_strip_here (py "LOW") written after Lw).
        reflexivity.
    - unfold group_str, group. cbn [caps assoc_nat Nat.eqb].
      apply consumed_app. }
  destruct M as [mt [M G]].
  rewrite (search_ci_head Brain.risk_level_re (py "RISK LEVEL") _ pre _ mt
             eq_refl (marker_not_earlier pre marker _ C Lm) M).
  now rewrite G.
Qed.

Lemma first_marker_witness :
  Brain.extract_risk_level
    (py "Summary of the change." ++ py "**Risk Level" ++ py ":** "
     ++ py "medium" ++ py " RISK LEVEL: HIGH")
  = py "MEDIUM".
Proof.
  apply (first_marker_decides (py "Summary of the change.**")
           (py "Risk Level") (py ":** ") (py "medium") (py " RISK LEVEL: HIGH")
           (py "MEDIUM")).
  - reflexivity.
  - reflexivity.
  - reflexivity.
  - discriminate.
  - reflexivity.
  - right. now left.
  - reflexivity.
Defined.

(** ** The exceptions of a bulk delete *)

(** X24.  The list of branches that the gateway asks the executor to keep
    on a bulk delete starts with [main] and [master]; without the word
    [except] in the command it is just these two; the names read after
    [except] are never empty and hold no whitespace and no comma. *)
Theorem keep_branches_shape (user_text : str) :
  exists extras,
    Gateway.keep_branches user_text = py "main" :: py "master" :: extras
    /\ (contains (py "except") user_text = false -> extras = [])
    /\ forall name, In name extras ->
         name <> []
         /\ forall c, In c name -> is_space c = false /\ c <> ","%char.
Proof.
  unfold Gateway.keep_branches. eexists. split; [reflexivity|]. split.
  - intros ->. reflexivity.
  - intros name H.
    destruct (contains (py "except") user_text); [|destruct H].
    destruct (after_first (py "except") user_text) as [tail|]; [|destruct H].
    apply in_map_iff in H as [x [<- Hx]]. apply filter_In in Hx as [Hx _].
    destruct (split_ws_spec _ x Hx) as [N [S I]].
    rewrite (strip_spaceless x S). split; [exact N|].
    intros c Hc. split.
    + unfold spaceless in S. rewrite forallb_forall in S.
      now apply negb_true_iff, S.
    + specialize (I c Hc).
      apply (replace_char ","%char) in I as [[<- | []] | [_ N']];
        [discriminate | exact N'].
Qed.

(** ** An approval without a branch *)

Definition branch_failure_comment (repo pr_num fresh : str) (e : exn) : call :=
  Brain.comment_request repo pr_num
    (py "⚠️ **Approval Failed**: Could not create branch `" ++ fresh ++ py "`"
     ++ nl ++ nl ++ py "Error: " ++ exn_str e).

(** X25.  When an approval finds no branch to work on (the pull request
    cannot be fetched and none of the candidate names exists) and the fresh
    branch cannot be created either, the handler stops there: it posts one
    comment that reports the failure and returns status 200 with the error
    in its body.  The comment thread is not read, no ticket is updated and
    no file is touched. *)
Theorem approval_stops_without_branch (w : world)
    (user_msg repo pr_num sender_name : str) (e : exn) :
  fails w (GET (Brain.pr_url repo pr_num)) ->
  (forall x, In x Brain.candidates -> fails w (GET (Brain.branch_url repo x))) ->
  events_delivered w ->
  let tr1 := GET (Brain.pr_url repo pr_num) :: probes repo Brain.candidates in
  let fresh := py "approved-change-" ++ str_of_Z (clock w tr1 mod 10000) in
  respond w tr1 (Brain.create_branch_request repo fresh) = Err e ->
  run w (Brain.handle_approval user_msg repo pr_num sender_name) []
  = (Ok (ack_with (py "Branch creation failed: " ++ exn_str e)),
     tr1 ++ [Brain.create_branch_request repo fresh;
             branch_failure_comment repo pr_num fresh e]).
Proof.
  intros Hf Hc Hd tr1 fresh Hr. unfold Brain.handle_approval.
  rewrite !run_try_except, run_bind.
  rewrite (find_branch_probes w repo pr_num [] Hf).
  rewrite (probe_none w repo Brain.candidates _ Hc).
  cbn [fst snd app run]. fold tr1. fold fresh. rewrite Hr.
  unfold Brain.post_github_comment.
  fold (branch_failure_comment repo pr_num fresh e).
  cbn [run bind perform].
  match goal with
  | |- context [respond w ?t (branch_failure_comment ?a ?b ?c ?d)] =>
      destruct (Hd t (py "PR-Agent-GitHub-Writer")
                  (match branch_failure_comment a b c d with
                   | invoke _ _ p => p
                   | _ => JNull
                   end)) as [r Hr'];
      change (respond w t (branch_failure_comment a b c d) = Ok r) in Hr';
      rewrite Hr'
  end.
  cbn [run bind]. unfold tr1. cbn [app]. now rewrite <- app_assoc.
Qed.

(** The host knows nothing of the repository; the executor refuses the
    synchronous invocations and accepts the fire-and-forget ones. *)
Definition no_branch_world : world :=
  World (fun _ c =>
           match c with
           | urlopen _ => Err (HTTPError 404 (py "Not Found"))
           | invoke _ t _ =>
               if str_eqb t (py "Event") then Ok RNone
               else Err (Exception (py "TooManyRequestsException"))
           end)
        (fun _ => 1700000123%Z).

Lemma approval_stops_witness :
  fst (run no_branch_world
         (Brain.handle_approval (py "approved") (py "octo/repo") (py "7")
                                (py "bob")) [])
  = Ok (ack_with (py "Branch creation failed: TooManyRequestsException")).
Proof.
  rewrite (approval_stops_without_branch no_branch_world (py "approved")
             (py "octo/repo") (py "7") (py "bob")
             (Exception (py "TooManyRequestsException"))).
  - reflexivity.
  - intros tr. now eexists.
  - intros x _ tr. now eexists.
  - intros tr fn payload. now eexists.
  - reflexivity.
Defined.

(** ** The create-branch bypass of the controller *)

Definition bypass_create_request (repo target_name : str) : call :=
  Brain.writer (py "Event") (JObj
    [(py "actionGroup", JStr (py "GitHubManagement"));
     (py "function", JStr (py "create_branch"));
     (py "repo_full_name", JStr repo);
     (py "parameters", JObj
        [(py "branch_name", JStr target_name);
         (py "base_branch", JStr (py "main"))])]).

Lemma intent_target_shape (user_msg : str) (mt : mstate) (t : str) :
  search Brain.intent_re user_msg = Some mt ->
  group 3 mt = Some t ->
  t <> [] /\ forallb Brain.target_char t = true.
Proof.
  intros S G. destruct (search_sound _ _ _ S) as [_ [K _]].
  apply K in G. apply caught_groups in G as [a [I L]].
  assert (Gs : groups Brain.intent_re
               = [(1%nat, ralt [lit_ci (py "create"); lit_ci (py "delete");
                                lit_ci (py "merge")]);
                  (2%nat, ralt [lit_ci (py "branch"); lit_ci (py "file");
                                lit_ci (py "pr"); lit_ci (py "pull request")]);
                  (3%nat, plus Brain.target_char)]) by reflexivity.
  rewrite Gs in I. destruct I as [I | [I | [I | []]]]; try discriminate I.
  injection I as <-. now apply lang_plus in L.
Qed.


Definition named_create (repo : str) (c : call) : Prop :=
  function_of c = py "create_branch" ->
  exists name,
    name <> [] /\ forallb Brain.target_char name = true
    /\ c = bypass_create_request repo name.

Ltac other_call :=
  let H := fresh "H" in
  apply emits_perform; intros H; vm_compute in H; discriminate H.

Lemma branch_names_emits (P : call -> Prop) (branches : list json) :
  emits P (Brain.branch_names branches).
Proof.
  induction branches as [|b more IH]; [exact I|].
  cbn [Brain.branch_names]. repeat emits_step. exact IH.
Qed.

Lemma delete_branches_other (repo : str) (names : list str) (n : N) :
  emits (named_create repo) (Brain.delete_branches repo names n).
Proof.
  revert n; induction names as [|b more IH]; intros n; [exact I|].
  cbn [Brain.delete_branches emits]. split.
  - intros H. vm_compute in H. discriminate H.
  - intros [x | e]; apply IH.
Qed.

(** X26.  For a message of ASCII characters, whatever the controller's
    fast path asks the executor to create is a named branch: in every
    world, a create-branch invocation made by [try_bypass_commands]
    carries a name that is not empty and is made of ASCII letters, digits
    and [- _ / .], to be created from [main].  (Beyond ASCII the pattern,
    read without regard to case, admits further letters.) *)
Theorem bypass_creates_named_branch (w : world) (user_msg repo pr_num : str) :
  is_ascii_text user_msg = true ->
  Forall (named_create repo)
         (trace w (Brain.try_bypass_commands user_msg repo pr_num)).
Proof.
  intros _. apply emits_trace. unfold Brain.try_bypass_commands.
  destruct (found (search Brain.bulk_delete_re user_msg)).
  - apply emits_bind; [|intros a; exact I].
    unfold Brain.bulk_delete, Brain.post_github_comment.
    apply emits_try_except.
    + apply emits_bind; [other_call|]. intros res.
      apply emits_bind; [unfold read_json; destruct res; exact I|]. intros j.
      apply emits_bind; [unfold as_list; destruct j; exact I|]. intros l.
      apply emits_bind; [apply branch_names_emits|]. intros names.
      destruct (filter _ names) as [|n0 more].
      * apply emits_bind; [|intros; exact I].
        apply emits_bind; [other_call | intros; exact I].
      * apply emits_bind; [apply delete_branches_other|]. intros count.
        apply emits_bind; [|intros; exact I].
        apply emits_bind; [other_call | intros; exact I].
    + intros e. apply emits_bind; [|intros; exact I].
      apply emits_bind; [other_call | intros; exact I].
  - destruct (search Brain.intent_re user_msg) as [mt|] eqn:S; [|exact I].
    destruct (contains (py "approved") (lower user_msg)); [exact I|].
    destruct (Brain.has_code_change_keyword user_msg); [exact I|].
    destruct (_ && _); [|exact I].
    unfold Brain.post_github_comment.
    apply emits_bind.
    + apply emits_perform. intros _.
      destruct (group 3 mt) as [[|c t]|] eqn:G.
      * exists (py "demo-target"). repeat split. discriminate.
      * destruct (intent_target_shape user_msg mt (c :: t) S G) as [N F].
        exists (c :: t). now repeat split.
      * exists (py "demo-target"). repeat split. discriminate.
    + intros r. apply emits_bind; [|intros; exact I].
      apply emits_bind; [other_call | intros; exact I].
Qed.

Lemma bypass_creates_witness :
  Forall (named_create (py "octo/repo"))
         (trace quiet_world
            (Brain.try_bypass_commands (py "create branch feature-1")
               (py "octo/repo") (py "7"))).
Proof.
  apply (bypass_creates_named_branch quiet_world (py "create branch feature-1")
           (py "octo/repo") (py "7")).
  reflexivity.
Defined.


(** ** Once an approval proceeds *)

(** The status set on the commit that the scan recovered. *)
Definition approval_status_calls (repo sender_name : str)
    (rec : Brain.Recovered) : list call :=
  match Brain.commit_sha_recovered rec with
  | Some (c :: sha) =>
      [Brain.status_request repo (c :: sha) (py "success")
         (py "Approved by " ++ sender_name)]
  | _ => []
  end.

(** The synchronous invocation that writes on the ticket; it is made only
    for a ticket that is known. *)
Definition ticket_request (repo pr_num jira_ticket comment_text : str) : call :=
  Brain.writer (py "RequestResponse") (JObj
    [(py "actionGroup", JStr (py "ManualReply"));
     (py "function", JStr (py "manage_jira_governance"));
     (py "repo_full_name", JStr repo);
     (py "parameters", JObj
        [(py "ticket_id", JStr jira_ticket);
         (py "comment_text", JStr comment_text);
         (py "pr_number", JStr pr_num)])]).

Definition ticket_calls (repo pr_num jira_ticket comment_text : str)
    : list call :=
  if Brain.ticket_known jira_ticket
  then [ticket_request repo pr_num jira_ticket comment_text]
  else [].

Lemma update_ticket_run (w : world) (repo pr_num jira_ticket comment_text : str)
    (tr : list call) :
  run w (Brain.update_ticket repo pr_num jira_ticket comment_text) tr
  = (Ok tt, tr ++ ticket_calls repo pr_num jira_ticket comment_text).
Proof.
  unfold Brain.update_ticket, ticket_calls.
  destruct (Brain.ticket_known jira_ticket);
    [|cbn [run]; now rewrite app_nil_r].
  unfold attempt.
  fold (ticket_request repo pr_num jira_ticket comment_text).
  match goal with
  | |- run w (try_except (bind (perform ?c) ?k) _) tr = _ =>
      destruct (run_guarded w c k tt tr) as [[] H];
        [intros r; repeat emits_step|]
  end.
  exact H.
Qed.

Lemma approval_status_run (w : world) (repo sender_name : str)
    (rec : Brain.Recovered) (tr : list call) :
  run w (if truthy (Brain.commit_sha_recovered rec)
         then Brain.set_commit_status repo (Brain.commit_sha_recovered rec)
                (py "success") (py "Approved by " ++ sender_name)
         else Ret tt) tr
  = (Ok tt, tr ++ approval_status_calls repo sender_name rec).
Proof.
  unfold approval_status_calls.
  destruct (Brain.commit_sha_recovered rec) as [[|c sha]|]; simpl;
    try (now rewrite app_nil_r).
  apply set_commit_status_run.
Qed.

Lemma post_github_comment_run (w : world) (repo pr_num text : str)
    (tr : list call) :
  events_delivered w ->
  run w (Brain.post_github_comment repo pr_num text) tr
  = (Ok tt, tr ++ [Brain.comment_request repo pr_num text]).
Proof.
  intros Hd. unfold Brain.post_github_comment. cbn [run bind perform].
  assert (R : exists r,
             respond w tr (Brain.comment_request repo pr_num text) = Ok r).
  { unfold Brain.comment_request, Brain.writer. apply Hd. }
  destruct R as [r ->]. reflexivity.
Qed.

Definition accepted_comment (repo pr_num sender_name jira_ticket : str) : call :=
  Brain.comment_request repo pr_num
    (py "✅ **Risk Accepted**" ++ nl ++ nl ++ py "PR has been unblocked by "
     ++ sender_name ++ py " (Re-opened)." ++ nl ++ nl
     ++ py "**Jira Updated:** " ++ jira_ticket).

Definition merge_status_comment (repo pr_num : str) (merged : bool) : call :=
  Brain.comment_request repo pr_num
    (py "**Status:** "
     ++ (if merged then py "Merged Automatically 🚀"
         else py "Ready to Merge (Manual Merge Required)")).

(** X27.  The approval of a paused automatic analysis touches no file and
    asks the model nothing.  After the status of the recovered commit and
    the note on the ticket it posts the [Risk Accepted] comment, and only
    then reopens the pull request; it asks for the merge whether or not the
    reopening went through, and the last comment says [Merged
    Automatically] exactly when the merge request succeeded. *)
Theorem approved_analysis_is_unblocked (w : world)
    (user_msg repo pr_num sender_name branch_name pr_title : str)
    (rec : Brain.Recovered) (tr : list call) :
  events_delivered w ->
  contains (py "Automatic Risk Analysis Trigger")
    (Brain.request_text_of user_msg pr_title (Brain.recovered_request rec))
  = true ->
  let ticket := Brain.jira_ticket rec in
  let tr1 :=
    tr ++ approval_status_calls repo sender_name rec
       ++ ticket_calls repo pr_num ticket
            (py "✅ **Approved by " ++ sender_name
             ++ py ":** Risk accepted. PR unblocked.")
       ++ [accepted_comment repo pr_num sender_name ticket;
           Brain.pr_state_request repo pr_num (py "open")] in
  run w (Brain.proceed user_msg repo pr_num sender_name branch_name pr_title
                       rec) tr
  = (Ok (ack_with (py "Risk Analysis Unblocked")),
     tr1 ++ [Brain.merge_request repo pr_num;
             merge_status_comment repo pr_num
               (succeeded (respond w tr1 (Brain.merge_request repo pr_num)))]).
Proof.
  intros Hd Hc ticket tr1. unfold Brain.proceed.
  rewrite run_bind, approval_status_run, Hc.
  unfold Brain.unblock. fold ticket.
  rewrite run_bind, update_ticket_run.
  rewrite run_bind, (post_github_comment_run w _ _ _ _ Hd).
  fold (accepted_comment repo pr_num sender_name ticket).
  rewrite run_bind, update_pr_state_run.
  rewrite <- !app_assoc. cbn [app]. fold tr1.
  rewrite run_bind. unfold Brain.merge_pull_request.
  cbn [run bind try_except perform].
  destruct (respond w tr1 (Brain.merge_request repo pr_num)) as [r | e];
    cbn [run bind try_except succeeded];
    rewrite run_bind, (post_github_comment_run w _ _ _ _ Hd);
    cbn [run]; now rewrite <- app_assoc.
Qed.

(** What the scan recovers from the pause of an automatic analysis. *)
Definition paused_analysis : Brain.Recovered :=
  Brain.MkRecovered (py "SCRUM-123")
    (Some (py "Context: Automatic Risk Analysis Trigger (Strict Analysis)"))
    (Some (py "abc123")).

Lemma approved_analysis_witness :
  run quiet_world
    (Brain.proceed (py "approved") (py "octo/repo") (py "42") (py "bob")
                   (py "feature-1") (py "Add a field") paused_analysis) []
  = (Ok (ack_with (py "Risk Analysis Unblocked")),
     [Brain.status_request (py "octo/repo") (py "abc123") (py "success")
        (py "Approved by bob");
      ticket_request (py "octo/repo") (py "42") (py "SCRUM-123")
        (py "✅ **Approved by bob:** Risk accepted. PR unblocked.");
      accepted_comment (py "octo/repo") (py "42") (py "bob") (py "SCRUM-123");
      Brain.pr_state_request (py "octo/repo") (py "42") (py "open");
      Brain.merge_request (py "octo/repo") (py "42");
      merge_status_comment (py "octo/repo") (py "42") true]).
Proof.
  apply (approved_analysis_is_unblocked quiet_world (py "approved")
           (py "octo/repo") (py "42") (py "bob") (py "feature-1")
           (py "Add a field") paused_analysis []).
  - exact quiet_world_delivers.
  - vm_compute. reflexivity.
Defined.

(** The status line of an execution that stopped at the lookup of the
    file (lines 685-692). *)
Definition lookup_failure (target_file branch_name : str) (e : exn) : str :=
  py "⚠️ Execution failed: "
  ++ match e with
     | HTTPError code reason =>
         if (code =? 404)%Z
         then py "File `" ++ target_file ++ py "` not found on branch `"
              ++ branch_name ++ py "`"
         else py "File fetch failed: " ++ str_of_Z code ++ py " " ++ reason
     | Exception msg => msg
     end.

Definition action_executed_comment (repo pr_num sender_name request_text
    execution_log jira_ticket : str) : call :=
  Brain.comment_request repo pr_num
    (py "✅ **Approved Action Executed**" ++ nl ++ nl
     ++ py "Request: " ++ request_text ++ nl ++ nl
     ++ py "**Status:** " ++ execution_log ++ nl
     ++ py "**Approved By:** " ++ sender_name ++ nl
     ++ py "**Jira Updated:** " ++ jira_ticket).

Definition denied_note (sender_name : str) : str :=
  py "❌ **Rejected by " ++ sender_name ++ py ":** Request denied by user.".

(** X28.  An approved request that cannot be executed changes nothing and
    is still reported under [Approved Action Executed].  When the request
    names no file, or when the lookup of the file fails, the model is not
    asked and nothing is written; the ticket, when one is known, is told
    [Rejected by ... Request denied by user], and the comment on the pull
    request carries the failure in its status line only. *)
Theorem failed_execution_is_reported_as_executed (w : world)
    (user_msg repo pr_num sender_name branch_name pr_title : str)
    (rec : Brain.Recovered) (tr : list call) :
  events_delivered w ->
  let request_text :=
    Brain.request_text_of user_msg pr_title (Brain.recovered_request rec) in
  contains (py "Automatic Risk Analysis Trigger") request_text = false ->
  let ticket := Brain.jira_ticket rec in
  let branch := Brain.execution_branch branch_name request_text in
  let tr1 := tr ++ approval_status_calls repo sender_name rec in
  let p := Brain.proceed user_msg repo pr_num sender_name branch_name pr_title
                         rec in
  (Brain.target_file_of request_text = None ->
   run w p tr
   = (Ok (ack_with (py "Autopilot Execution Complete")),
      tr1 ++ ticket_calls repo pr_num ticket (denied_note sender_name)
          ++ [action_executed_comment repo pr_num sender_name request_text
                (py "⚠️ Could not detect file to update from request")
                ticket]))
  /\ (forall target_file e,
        Brain.target_file_of request_text = Some target_file ->
        respond w tr1 (GET (Brain.file_url repo target_file branch)) = Err e ->
        run w p tr
        = (Ok (ack_with (py "Autopilot Execution Complete")),
           tr1 ++ GET (Brain.file_url repo target_file branch)
               :: ticket_calls repo pr_num ticket (denied_note sender_name)
               ++ [action_executed_comment repo pr_num sender_name request_text
                     (lookup_failure target_file branch e) ticket])).
Proof.
  intros Hd request_text Hc ticket branch tr1 p. unfold p, Brain.proceed.
  fold request_text ticket branch.
  rewrite run_bind, approval_status_run, Hc. fold tr1. split.
  - intros Ht. rewrite Ht. cbn [run bind].
    rewrite run_bind, update_ticket_run.
    rewrite run_bind, (post_github_comment_run w _ _ _ _ Hd).
    cbn [run]. now rewrite <- app_assoc.
  - intros target_file e Ht He. rewrite Ht.
    assert (R : run w (Brain.apply_update repo pr_num sender_name request_text
                         target_file branch) tr1
                = (Ok (inr (lookup_failure target_file branch e)),
                   tr1 ++ [GET (Brain.file_url repo target_file branch)])).
    { unfold Brain.apply_update. cbn [run bind try_except perform].
      rewrite He. cbn [bind try_except]. destruct e; reflexivity. }
    rewrite run_bind, R.
    rewrite run_bind, update_ticket_run.
    rewrite run_bind, (post_github_comment_run w _ _ _ _ Hd).
    cbn [run]. rewrite <- !app_assoc. reflexivity.
Qed.

(** The host knows no file; every invocation is accepted. *)
Definition no_file_world : world :=
  World (fun _ c =>
           match c with
           | urlopen _ => Err (HTTPError 404 (py "Not Found"))
           | invoke _ _ _ => Ok RNone
           end)
        (fun _ => 1700000123%Z).

Definition paused_update : Brain.Recovered :=
  Brain.MkRecovered (py "SCRUM-123") (Some (py "update app.py")) None.

Lemma failed_execution_witness :
  run no_file_world
    (Brain.proceed (py "approved") (py "octo/repo") (py "7") (py "bob")
                   (py "feature-1") (py "Add a field") paused_update) []
  = (Ok (ack_with (py "Autopilot Execution Complete")),
     [GET (Brain.file_url (py "octo/repo") (py "app.py") (py "feature-1"));
      ticket_request (py "octo/repo") (py "7") (py "SCRUM-123")
        (denied_note (py "bob"));
      action_executed_comment (py "octo/repo") (py "7") (py "bob")
        (py "update app.py")
        (py "⚠️ Execution failed: File `app.py` not found on branch `feature-1`")
        (py "SCRUM-123")]).
Proof.
  refine (proj2 (failed_execution_is_reported_as_executed no_file_world
                   (py "approved") (py "octo/repo") (py "7") (py "bob")
                   (py "feature-1") (py "Add a field") paused_update [] _ _)
                (py "app.py") (HTTPError 404 (py "Not Found")) _ _).
  - intros tr fn payload. now exists RNone.
  - vm_compute. reflexivity.
  - vm_compute. reflexivity.
  - reflexivity.
Defined.

(** ** A LOW verdict *)

(** X29.  On a LOW verdict (an analysis without a marker included) nothing
    is paused.  For a manual request the analysis is posted as it is.  For
    an automatic trigger with a commit the status becomes [success], the
    merge is requested, and the comment announces the merge whatever the
    host answered to the two requests. *)
Theorem low_verdict_is_executed (kb : Brain.KnowledgeBase) (w : world)
    (event : Brain.Event) (user_msg pr_diff analysis : str) (tr : list call) :
  events_delivered w ->
  let repo := Brain.repo_full_name event in
  let pr_number := Brain.pr_number event in
  let prompt := Brain.build_system_prompt kb repo pr_number user_msg pr_diff in
  respond w tr (Brain.groq_request prompt) = Ok (completion analysis) ->
  Brain.extract_risk_level analysis = py "LOW" ->
  run w (Brain.analyze kb event user_msg pr_diff) tr
  = (Ok (ack_with (py "Low Risk - Executed")),
     tr ++ Brain.groq_request prompt
        :: match (if Brain.is_automatic_trigger event
                  then Brain.commit_sha event else None) with
           | Some (c :: sha) =>
               [Brain.status_request repo (c :: sha) (py "success")
                  (py "Low Risk - Safe to Merge");
                Brain.merge_request repo pr_number;
                Brain.comment_request repo pr_number
                  (analysis ++ nl ++ nl
                   ++ py "✅ **Auto-Merge**: Low Risk. Merging automatically.")]
           | _ => [Brain.comment_request repo pr_number analysis]
           end).
Proof.
  intros Hd repo pr_number prompt Hr Hl. unfold Brain.analyze.
  fold repo pr_number prompt.
  rewrite run_try_except, run_bind, (call_groq_api_answer w _ _ _ Hr).
  cbn [searched_text bind]. rewrite Hl.
  change (existsb (str_eqb (py "LOW")) [py "HIGH"; py "MEDIUM"]) with false.
  cbv beta iota. rewrite run_bind.
  destruct (Brain.is_automatic_trigger event);
    [destruct (Brain.commit_sha event) as [[|c sha]|]|]; cbn [andb truthy nonempty].
  - rewrite (post_github_comment_run w _ _ _ _ Hd). cbn [run].
    now rewrite <- app_assoc.
  - rewrite run_bind, set_commit_status_run.
    rewrite run_bind. unfold Brain.merge_pull_request.
    cbn [run bind try_except perform].
    destruct (respond w _ (Brain.merge_request repo pr_number));
      cbn [run bind try_except];
      rewrite (post_github_comment_run w _ _ _ _ Hd); cbn [run];
      now rewrite <- !app_assoc.
  - rewrite (post_github_comment_run w _ _ _ _ Hd). cbn [run].
    now rewrite <- app_assoc.
  - rewrite (post_github_comment_run w _ _ _ _ Hd). cbn [run].
    now rewrite <- app_assoc.
Qed.

(** The backend finds nothing to object to; the host refuses every
    request; every invocation is accepted. *)
Definition lenient_world : world :=
  World (fun _ c =>
           match c with
           | urlopen (Request u _ _ _) =>
               if startswith (py "https://api.groq.com/") u
               then Ok (completion (py "RISK LEVEL: LOW"))
               else Err (HTTPError 405 (py "Method Not Allowed"))
           | invoke _ _ _ => Ok RNone
           end)
        (fun _ => 1700000123%Z).

Lemma low_verdict_witness :
  run lenient_world
    (Brain.analyze (Brain.MkKnowledgeBase [] [] []) automatic_event
                   (py "Context: Automatic Risk Analysis Trigger (Strict Analysis)")
                   (py "No code diff available.")) []
  = (Ok (ack_with (py "Low Risk - Executed")),
     [Brain.groq_request
        (Brain.build_system_prompt (Brain.MkKnowledgeBase [] [] [])
           (py "octo/repo") (py "42")
           (py "Context: Automatic Risk Analysis Trigger (Strict Analysis)")
           (py "No code diff available."));
      Brain.status_request (py "octo/repo") (py "abc123") (py "success")
        (py "Low Risk - Safe to Merge");
      Brain.merge_request (py "octo/repo") (py "42");
      Brain.comment_request (py "octo/repo") (py "42")
        (py "RISK LEVEL: LOW" ++ nl ++ nl
         ++ py "✅ **Auto-Merge**: Low Risk. Merging automatically.")]).
Proof.
  apply (low_verdict_is_executed (Brain.MkKnowledgeBase [] [] []) lenient_world
           automatic_event
           (py "Context: Automatic Risk Analysis Trigger (Strict Analysis)")
           (py "No code diff available.") (py "RISK LEVEL: LOW") []).
  - intros tr fn payload. now exists RNone.
  - reflexivity.
  - vm_compute. reflexivity.
Defined.

(** ** What the controller is sent *)

Lemma lower_has_no_capital (s : str) :
  forallb (fun c => negb (is_ascii_upper c)) (lower s) = true.
Proof.
  induction s as [|c s IH]; [reflexivity|].
  cbn [lower map forallb]. fold (lower s). rewrite IH, andb_true_r.
  each_char c; reflexivity.
Qed.

(** X30.  A mention that asks for a code change, and a mention that is not
    recognised, are not executed by the gateway: it invokes the controller
    once (after a comment that announces the analysis, for a code change)
    and makes no other call.  The text that the controller receives is the
    comment in lower case: it holds no capital ASCII letter, so the names
    of files and branches in it have lost theirs. *)
Theorem mention_is_forwarded_in_lower_case (w : world) (b : Gateway.Body) :
  is_mention b -> accepting w ->
  let text := lower (Gateway.comment_body b) in
  let repo := Gateway.repo_full_name b in
  let num := item_number_of b in
  let forwarded :=
    Gateway.brain_request
      (Gateway.mention_payload repo num text (Gateway.comment_login b)) in
  forallb (fun c => negb (is_ascii_upper c)) text = true
  /\ (Gateway.classify text num = Gateway.CodeChange ->
      run w (Gateway.lambda_handler (Gateway.Parsed b)) []
      = (Ok ack,
         [Gateway.comment_request repo num
            (py "⏳ **Analyzing Risk with Gemini 2.0...**");
          forwarded]))
  /\ (Gateway.classify text num = Gateway.Unclassified ->
      run w (Gateway.lambda_handler (Gateway.Parsed b)) []
      = (Ok ack, [forwarded])).
Proof.
  intros Hm Ha text repo num forwarded.
  split; [apply lower_has_no_capital|].
  unfold Gateway.lambda_handler. rewrite (handle_mention b Hm).
  fold text repo num. split; intros ->;
    unfold Gateway.execute, Gateway.post_thinking_status, Gateway.trigger_brain;
    fold forwarded; cbn [run bind try_except perform app].
  - destruct (Ha [] (Gateway.comment_request repo num
                       (py "⏳ **Analyzing Risk with Gemini 2.0...**")))
      as [r1 ->].
    cbn [run bind try_except app].
    destruct (Ha [Gateway.comment_request repo num
                    (py "⏳ **Analyzing Risk with Gemini 2.0...**")] forwarded)
      as [r2 ->].
    reflexivity.
  - destruct (Ha [] forwarded) as [r ->]. reflexivity.
Qed.

(** A request to change a file, written with capitals. *)
Definition readme_comment : Gateway.Body :=
  Gateway.MkBody true (py "octo/repo")
    (py "@pr-agent update README.md")
    (py "alice") (Some 7%Z) None None false (Some (py "created")).

Lemma readme_comment_is_mention : is_mention readme_comment.
Proof.
  repeat split.
  - intros a H. injection H as <-. simpl. intros [H | [H | [H | []]]];
      discriminate.
  - apply contains_spec. vm_compute. reflexivity.
Qed.

Lemma mention_is_forwarded_witness :
  run quiet_world (Gateway.lambda_handler (Gateway.Parsed readme_comment)) []
  = (Ok ack,
     [Gateway.comment_request (py "octo/repo") (Some 7%Z)
        (py "⏳ **Analyzing Risk with Gemini 2.0...**");
      Gateway.brain_request
        (Gateway.mention_payload (py "octo/repo") (Some 7%Z)
           (py "@pr-agent update readme.md") (py "alice"))]).
Proof.
  refine (proj1 (proj2 (mention_is_forwarded_in_lower_case quiet_world
                          readme_comment readme_comment_is_mention
                          quiet_world_accepting)) _).
  vm_compute. reflexivity.
Defined.
